(** * The tag index of libblkid (lib/blkid/tag.c)

    A shallow embedding of the tag routines of the block-device
    identification library: [blkid_set_tag], [blkid_find_tag_dev],
    [blkid_free_tag], [blkid_parse_tag_string] and
    [blkid_find_dev_with_tag], together with the properties the
    specification states about them.

    The C objects live in arenas indexed by their address: tags, devices
    and caches in finite maps, value strings in a string heap.  A pointer
    is an [option nat], [None] being the null pointer.  The intrusive
    rings of list.h become lists of addresses kept at the anchor of each
    ring: [bid_tags] at the device, [bic_tags] at the cache and
    [bit_names] at the head tag of a type. *)

From Stdlib Require Import ZArith String Ascii.
From stdpp Require Import gmap strings list.

Local Open Scope string_scope.
Local Open Scope list_scope.
Local Open Scope Z_scope.

(** ** Objects *)

(** [struct blkid_struct_tag].  [bit_names] is used on a head tag only:
    it holds the tags of that type, in the order they were chained. *)
Record blkid_struct_tag := mk_tag {
  bit_names : list nat;
  bit_name : option string;
  bit_val : option nat;
  bit_dev : option nat
}.

(** [struct blkid_struct_dev], restricted to the fields tag.c touches. *)
Record blkid_struct_dev := mk_dev {
  bid_tags : list nat;
  bid_cache : option nat;
  bid_type : option nat;
  bid_label : option nat;
  bid_uuid : option nat;
  bid_pri : Z;
  bid_flags : Z
}.

(** [struct blkid_struct_cache], restricted to the fields tag.c touches. *)
Record blkid_struct_cache := mk_cache {
  bic_tags : list nat;
  bic_flags : Z
}.

(** The memory.  [brk] is the next address the allocator hands out (an
    address is never handed out twice), [oracle] lists the outcome of the
    coming allocation requests: [true] for a request that fails.  Once
    the list is used up every request succeeds. *)
Record heap := mk_heap {
  devs : gmap nat blkid_struct_dev;
  tags : gmap nat blkid_struct_tag;
  caches : gmap nat blkid_struct_cache;
  strs : gmap nat string;
  brk : nat;
  oracle : list bool
}.

(** Modelled from the spec: the flag bits are macros of blkidP.h, which
    is not part of the sources at hand.  Section 3 of the specification
    names the bits MULTIPLE_TYPE of a device and CHANGED and PROBED of a
    cache; each is a single bit of its flag word, and the two cache bits
    differ. *)
Definition BLKID_BID_FL_MTYPE : Z := 2.
Definition BLKID_BIC_FL_PROBED : Z := 2.
Definition BLKID_BIC_FL_CHANGED : Z := 4.

(** [flags & bit] as a C condition. *)
Definition flag_set (flags bit : Z) : bool := negb (Z.land flags bit =? 0).

(** Modelled from the spec: the error codes are macros of blkidP.h.
    The error taxonomy of the specification (section 7) names the two
    kinds [blkid_set_tag] returns, InvalidArgument and OutOfMemory. *)
Inductive blkid_err := BLKID_ERR_PARAM | BLKID_ERR_MEM.

(** The [int] a routine returns: [0], or minus an error code. *)
Inductive status := OK | Err (e : blkid_err).

(** ** Running C code on the memory *)

(** [Trap] is an access the C standard leaves undefined (a null or
    dangling pointer is read through); [Diverge] means the bound on the
    number of loop rounds was reached. *)
Inductive outcome (A : Type) :=
  | Done (a : A) (h : heap)
  | Trap
  | Diverge.
Arguments Done {A} a h.
Arguments Trap {A}.
Arguments Diverge {A}.

Definition M (A : Type) : Type := heap -> outcome A.

Definition ret {A} (a : A) : M A := fun h => Done a h.

Definition bind {A B} (m : M A) (k : A -> M B) : M B :=
  fun h => match m h with
           | Done a h' => k a h'
           | Trap => Trap
           | Diverge => Diverge
           end.

Notation "x <- m ;; k" := (bind m (fun x => k))
  (at level 100, m at next level, right associativity).
Notation "m ;;; k" := (bind m (fun _ => k))
  (at level 100, right associativity).

(** Read through a pointer: a trap when nothing lives there. *)
Definition load {A} (f : heap -> option A) : M A :=
  fun h => match f h with Some a => Done a h | None => Trap end.

Definition get_tag (t : nat) : M blkid_struct_tag := load (fun h => tags h !! t).
Definition get_dev (d : nat) : M blkid_struct_dev := load (fun h => devs h !! d).
Definition get_cache (c : nat) : M blkid_struct_cache := load (fun h => caches h !! c).
Definition get_str (a : nat) : M string := load (fun h => strs h !! a).

(** A string argument of [strcmp] must not be null. *)
Definition deref {A} (p : option A) : M A :=
  fun h => match p with Some a => Done a h | None => Trap end.

Definition set_devs (f : gmap nat blkid_struct_dev -> gmap nat blkid_struct_dev) : M unit :=
  fun h => Done tt (mk_heap (f (devs h)) (tags h) (caches h) (strs h) (brk h) (oracle h)).
Definition set_tags (f : gmap nat blkid_struct_tag -> gmap nat blkid_struct_tag) : M unit :=
  fun h => Done tt (mk_heap (devs h) (f (tags h)) (caches h) (strs h) (brk h) (oracle h)).
Definition set_caches (f : gmap nat blkid_struct_cache -> gmap nat blkid_struct_cache) : M unit :=
  fun h => Done tt (mk_heap (devs h) (tags h) (f (caches h)) (strs h) (brk h) (oracle h)).
Definition set_strs (f : gmap nat string -> gmap nat string) : M unit :=
  fun h => Done tt (mk_heap (devs h) (tags h) (caches h) (f (strs h)) (brk h) (oracle h)).

(** Field updates. *)
Definition with_bit_names (l : list nat) (t : blkid_struct_tag) :=
  mk_tag l (bit_name t) (bit_val t) (bit_dev t).
Definition with_bit_val (v : option nat) (t : blkid_struct_tag) :=
  mk_tag (bit_names t) (bit_name t) v (bit_dev t).
Definition with_bid_tags (l : list nat) (d : blkid_struct_dev) :=
  mk_dev l (bid_cache d) (bid_type d) (bid_label d) (bid_uuid d) (bid_pri d) (bid_flags d).
Definition with_bid_type (v : option nat) (d : blkid_struct_dev) :=
  mk_dev (bid_tags d) (bid_cache d) v (bid_label d) (bid_uuid d) (bid_pri d) (bid_flags d).
Definition with_bid_label (v : option nat) (d : blkid_struct_dev) :=
  mk_dev (bid_tags d) (bid_cache d) (bid_type d) v (bid_uuid d) (bid_pri d) (bid_flags d).
Definition with_bid_uuid (v : option nat) (d : blkid_struct_dev) :=
  mk_dev (bid_tags d) (bid_cache d) (bid_type d) (bid_label d) v (bid_pri d) (bid_flags d).
Definition with_bid_flags (f : Z) (d : blkid_struct_dev) :=
  mk_dev (bid_tags d) (bid_cache d) (bid_type d) (bid_label d) (bid_uuid d) (bid_pri d) f.
Definition with_bic_tags (l : list nat) (c : blkid_struct_cache) :=
  mk_cache l (bic_flags c).
Definition with_bic_flags (f : Z) (c : blkid_struct_cache) :=
  mk_cache (bic_tags c) f.

(** ** The allocator *)

(** One allocation request: the address of the new block, or null. *)
Definition malloc : M (option nat) :=
  fun h =>
    let a := brk h in
    match oracle h with
    | true :: o => Done None (mk_heap (devs h) (tags h) (caches h) (strs h) (brk h) o)
    | false :: o => Done (Some a) (mk_heap (devs h) (tags h) (caches h) (strs h) (S a) o)
    | [] => Done (Some a) (mk_heap (devs h) (tags h) (caches h) (strs h) (S a) [])
    end.

(** [free] of a value string. *)
Definition free_str (a : nat) : M unit := set_strs (delete a).

(** Modelled from the spec: [blkid_strdup] and [blkid_strndup] are
    defined outside tag.c.  Section 4.1 of the specification: they
    produce owned copies of caller-provided strings, the second with a
    length bound (at most that many bytes are copied), and fail when the
    allocation fails.  A null source gives a null copy and requests no
    memory: [blkid_set_tag] calls [blkid_strndup] on a null [value] in
    delete mode and tests the copy for null at [link_tags].

    The copy of a tag name is kept by value in the tag, the copy of a
    value goes to the string heap, where the shortcuts of the device can
    alias it. *)
Definition strn (s : string) (n : Z) : string := String.substring 0 (Z.to_nat n) s.

Definition blkid_strndup (s : option string) (length : Z) : M (option nat) :=
  match s with
  | None => ret None
  | Some s =>
      p <- malloc ;;
      match p with
      | None => ret None
      | Some a => set_strs (insert a (strn s length)) ;;; ret (Some a)
      end
  end.

Definition blkid_strdup (s : option string) : M (option string) :=
  match s with
  | None => ret None
  | Some s =>
      p <- malloc ;;
      match p with
      | None => ret None
      | Some _ => ret (Some s)
      end
  end.

(** [strcmp(a, b) == 0] on two value strings of the heap. *)
Definition streq_at (a b : nat) : M bool :=
  x <- get_str a ;; y <- get_str b ;; ret (bool_decide (x = y)).

(** ** Tags *)

(** [blkid_new_tag] (tag.c, lines 25-36): a zeroed tag whose two list
    nodes are unlinked, or null when [calloc] fails. *)
Definition blkid_new_tag : M (option nat) :=
  p <- malloc ;;
  match p with
  | None => ret None
  | Some t => set_tags (insert t (mk_tag [] None None None)) ;;; ret (Some t)
  end.

(** A ring without the node [t]. *)
Definition remove_id (t : nat) (l : list nat) : list nat :=
  filter (fun x => x <> t) l.

(** [list_del(&tag->bit_tags)]: the node leaves the ring it is on, the
    tag list of a device or the head list of a cache.  On a node that is
    on no ring this does nothing. *)
Definition list_del_bit_tags (t : nat) : M unit :=
  set_devs (fmap (fun d => with_bid_tags (remove_id t (bid_tags d)) d)) ;;;
  set_caches (fmap (fun c => with_bic_tags (remove_id t (bic_tags c)) c)).

(** [list_del(&tag->bit_names)]: the tag leaves the bucket of its type. *)
Definition list_del_bit_names (t : nat) : M unit :=
  set_tags (fmap (fun x => with_bit_names (remove_id t (bit_names x)) x)).

(** [blkid_free_tag] (lines 38-56).  The name is held by value in the
    tag and goes with it; the value string is freed in the string heap,
    where a shortcut may still point at it. *)
Definition blkid_free_tag (tag : option nat) : M unit :=
  match tag with
  | None => ret tt
  | Some t =>
      tg <- get_tag t ;;
      list_del_bit_tags t ;;;
      list_del_bit_names t ;;;
      match bit_val tg with
      | Some a => free_str a
      | None => ret tt
      end ;;;
      set_tags (delete t)
  end.

(** The loop shared by [blkid_find_tag_dev] and [blkid_find_head_cache]:
    [list_for_each] over a ring of tags, stopping at the first one whose
    name compares equal to [type]. *)
Fixpoint first_named (type : string) (l : list nat) : M (option nat) :=
  match l with
  | [] => ret None
  | p :: l' =>
      tmp <- get_tag p ;;
      n <- deref (bit_name tmp) ;;
      if bool_decide (n = type) then ret (Some p) else first_named type l'
  end.

(** [blkid_find_tag_dev] (lines 62-77). *)
Definition blkid_find_tag_dev (dev : option nat) (type : option string) : M (option nat) :=
  match dev, type with
  | Some d, Some ty => dv <- get_dev d ;; first_named ty (bid_tags dv)
  | _, _ => ret None
  end.

(** [blkid_find_head_cache] (lines 83-100). *)
Definition blkid_find_head_cache (cache : option nat) (type : option string) : M (option nat) :=
  match cache, type with
  | Some c, Some ty => cc <- get_cache c ;; first_named ty (bic_tags cc)
  | _, _ => ret None
  end.

(** ** blkid_set_tag (lines 112-196) *)

(** The code from the label [link_tags] to the [return 0] after it
    (lines 175-186). *)
Definition link_tags (d : nat) (name : string) (val : option nat) : M status :=
  dv <- get_dev d ;;
  (if bool_decide (name = "TYPE") && (negb (bool_decide (is_Some val)) || negb (bool_decide (is_Some (bid_type dv))))
   then set_devs (insert d (with_bid_type val dv))
   else if bool_decide (name = "LABEL")
   then set_devs (insert d (with_bid_label val dv))
   else if bool_decide (name = "UUID")
   then set_devs (insert d (with_bid_uuid val dv))
   else ret tt) ;;;
  match bid_cache dv with
  | Some c =>
      cc <- get_cache c ;;
      set_caches (insert c (with_bic_flags (Z.lor (bic_flags cc) BLKID_BIC_FL_CHANGED) cc))
  | None => ret tt
  end ;;;
  ret OK.

(** The code from the label [errout] on (lines 188-195), for the values
    [t], [val] and [head] have when the jump is taken. *)
Definition errout (t val head : option nat) : M status :=
  match t with
  | Some _ => blkid_free_tag t
  | None => match val with Some a => free_str a | None => ret tt end
  end ;;;
  match head with
  | Some _ => blkid_free_tag head
  | None => ret tt
  end ;;;
  ret (Err BLKID_ERR_MEM).

(** [list_add_tail(&t->bit_names, &head->bit_names)]. *)
Definition chain_tag (t hd : nat) : M unit :=
  h <- get_tag hd ;;
  set_tags (insert hd (with_bit_names (bit_names h ++ [t]) h)).

(** From the comment "Existing tag not present, add to device" down to
    [link_tags] (lines 147-173).  The copy of the name made for the tag
    is stored unchecked; the one made for a new head is checked. *)
Definition add_tag (d : nat) (name : string) (val : nat) : M status :=
  t <- blkid_new_tag ;;
  match t with
  | None => errout None (Some val) None
  | Some t =>
      nm <- blkid_strdup (Some name) ;;
      set_tags (insert t (mk_tag [] nm (Some val) (Some d))) ;;;
      dv <- get_dev d ;;
      set_devs (insert d (with_bid_tags (bid_tags dv ++ [t]) dv)) ;;;
      match bid_cache dv with
      | Some c =>
          head <- blkid_find_head_cache (Some c) nm ;;
          match head with
          | Some hd => chain_tag t hd ;;; link_tags d name (Some val)
          | None =>
              head <- blkid_new_tag ;;
              match head with
              | None => errout (Some t) (Some val) None
              | Some hd =>
                  hn <- blkid_strdup (Some name) ;;
                  set_tags (insert hd (mk_tag [] hn None None)) ;;;
                  match hn with
                  | None => errout (Some t) (Some val) (Some hd)
                  | Some _ =>
                      cc <- get_cache c ;;
                      set_caches (insert c (with_bic_tags (bic_tags cc ++ [hd]) cc)) ;;;
                      chain_tag t hd ;;;
                      link_tags d name (Some val)
                  end
              end
          end
      | None => link_tags d name (Some val)
      end
  end.

(** The body of [blkid_set_tag] from the label [repeat] on.  The only
    jump back to [repeat] is the one of delete mode; [fuel] bounds the
    number of times the label is reached. *)
Fixpoint set_tag_repeat (fuel : nat) (d : nat) (name : string)
    (value : option string) (vlength : Z) (replace : bool) : M status :=
  match fuel with
  | O => fun _ => Diverge
  | S fuel' =>
      t <- blkid_find_tag_dev (Some d) (Some name) ;;
      val <- blkid_strndup value vlength ;;
      match value with
      | None =>
          match t with
          | Some _ => blkid_free_tag t ;;; set_tag_repeat fuel' d name value vlength replace
          | None => link_tags d name val
          end
      | Some _ =>
          match val with
          | None => errout t val None
          | Some v =>
              match t with
              | Some t0 =>
                  tg <- get_tag t0 ;;
                  tv <- deref (bit_val tg) ;;
                  same <- streq_at tv v ;;
                  if same then free_str v ;;; ret OK
                  else if replace then
                    free_str tv ;;;
                    set_tags (insert t0 (with_bit_val (Some v) tg)) ;;;
                    link_tags d name (Some v)
                  else
                    dv <- get_dev d ;;
                    set_devs (insert d (with_bid_flags (Z.lor (bid_flags dv) BLKID_BID_FL_MTYPE) dv)) ;;;
                    add_tag d name v
              | None => add_tag d name v
              end
          end
      end
  end.

(** [blkid_set_tag].  [replace] is the C condition [replace != 0]. *)
Definition blkid_set_tag (fuel : nat) (dev : option nat) (name : option string)
    (value : option string) (vlength : Z) (replace : bool) : M status :=
  match dev, name with
  | Some d, Some n => set_tag_repeat fuel d n value vlength replace
  | _, _ => ret (Err BLKID_ERR_PARAM)
  end.

(** ** Observations *)

(** The name of a tag, and the string its value pointer leads to. *)
Definition name_of (h : heap) (t : nat) : option string :=
  tg ← tags h !! t; bit_name tg.

Definition value_of (h : heap) (t : nat) : option string :=
  tg ← tags h !! t; a ← bit_val tg; strs h !! a.

(** What a shortcut of a device points at.  [None] for a null shortcut
    and for one that points at freed storage. *)
Definition shortcut (h : heap) (p : option nat) : option string :=
  a ← p; strs h !! a.

(** The tags of a device as an iterator sees them: (name, value) pairs
    in list order. *)
Definition tag_pairs (h : heap) (d : nat) : list (option string * option string) :=
  match devs h !! d with
  | Some dv => map (fun t => (name_of h t, value_of h t)) (bid_tags dv)
  | None => []
  end.

(** The bucket of a type: the tags chained at the first head of that
    name in the cache. *)
Definition bucket (h : heap) (c : nat) (type : string) : option (list nat) :=
  match blkid_find_head_cache (Some c) (Some type) h with
  | Done (Some hd) _ => tg ← tags h !! hd; Some (bit_names tg)
  | _ => None
  end.

(** ** blkid_parse_tag_string (lines 209-241) *)

(** [strchr(s, c)] for a character [c] other than NUL: the text before
    the first [c] and the text after it, [None] for a null result. *)
Fixpoint strchr (s : string) (c : ascii) : option (string * string) :=
  match s with
  | EmptyString => None
  | String a s' =>
      if Ascii.eqb a c then Some (EmptyString, s')
      else match strchr s' c with
           | Some (p, q) => Some (String a p, q)
           | None => None
           end
  end.

(** [strrchr(s, c)]: the same for the last [c]. *)
Fixpoint strrchr (s : string) (c : ascii) : option (string * string) :=
  match s with
  | EmptyString => None
  | String a s' =>
      match strrchr s' c with
      | Some (p, q) => Some (String a p, q)
      | None => if Ascii.eqb a c then Some (EmptyString, s') else None
      end
  end.

Definition dquote : ascii := Ascii.ascii_of_nat 34.
Definition squote : ascii := Ascii.ascii_of_nat 39.

(** The text [value] points at once the quotes are dealt with: [None]
    when the jump to [errout] for a missing closing quote is taken. *)
Definition unquote (rest : string) : option string :=
  match rest with
  | String c r =>
      if Ascii.eqb c dquote || Ascii.eqb c squote
      then match strrchr r c with
           | Some (body, _) => Some body
           | None => None
           end
      else Some rest
  | EmptyString => Some rest
  end.

(** The result is [Some (type, val)] for a return of 0 with the two out
    parameters set, and [None] for a return of -1. *)
Definition blkid_parse_tag_string (token : option string) : M (option (string * string)) :=
  match token with
  | None => ret None
  | Some tok =>
      match strchr tok "=" with
      | None => ret None
      | Some (type, rest) =>
          name <- blkid_strdup (Some tok) ;;
          match name with
          | None => ret None
          | Some _ =>
              match unquote rest with
              | None => ret None
              | Some body =>
                  value <- blkid_strdup (Some body) ;;
                  match value with
                  | None => ret None
                  | Some v => ret (Some (type, v))
                  end
              end
          end
      end
  end.

(** ** blkid_find_dev_with_tag (lines 316-357) *)

Section Prober.

(** The two routines of the probing layer the search calls.  They are
    defined outside tag.c and are taken as parameters: each maps the
    memory before the call to the memory after it, the verifier also
    returns a device pointer. *)
Variable blkid_probe_all : nat -> heap -> heap.
Variable blkid_verify_devname : nat -> option nat -> heap -> option nat * heap.

(** The [list_for_each] over the bucket.  The accumulator holds the
    locals [found], [dev] and [pri]. *)
Fixpoint walk_bucket (value : string) (l : list nat)
    (acc : option nat * option nat * Z) : M (option nat * option nat * Z) :=
  match l with
  | [] => ret acc
  | p :: l' =>
      tmp <- get_tag p ;;
      a <- deref (bit_val tmp) ;;
      s <- get_str a ;;
      if bool_decide (s = value) then
        bd <- deref (bit_dev tmp) ;;
        dv <- get_dev bd ;;
        if bid_pri dv >? acc.2
        then walk_bucket value l' (Some p, Some bd, bid_pri dv)
        else walk_bucket value l' acc
      else walk_bucket value l' acc
  end.

(** One pass from the label [try_again] to the test that decides on a
    retry: the search, the verification and the check of the value
    after it.  [dev] is the value the local of that name holds when
    the label is reached.  The result is [head] and [dev]. *)
Definition search_pass (c : nat) (type value : string) (dev : option nat)
    : M (option nat * option nat) :=
  head <- blkid_find_head_cache (Some c) (Some type) ;;
  sel <- match head with
         | Some hd =>
             htg <- get_tag hd ;;
             walk_bucket value (bit_names htg) (None, dev, -1)
         | None => ret (None, dev, -1)
         end ;;
  dev <- (fun h => let (d, h') := blkid_verify_devname c sel.1.2 h in Done d h') ;;
  dev <- match dev with
         | Some d =>
             ft <- deref sel.1.1 ;;
             tg <- get_tag ft ;;
             a <- deref (bit_val tg) ;;
             s <- get_str a ;;
             if bool_decide (s = value) then ret (Some d) else ret None
         | None => ret None
         end ;;
  ret (head, dev).

(** The body from the label [try_again] on.  [probes] counts the calls
    of [blkid_probe_all] made so far (it is not a variable of the
    program, the count is returned with the result); [fuel] bounds the
    number of times the label is reached. *)
Fixpoint find_dev_try_again (fuel : nat) (c : nat) (type value : string)
    (dev : option nat) (probes : nat) : M (option nat * nat) :=
  match fuel with
  | O => fun _ => Diverge
  | S fuel' =>
      r <- search_pass c type value dev ;;
      cc <- get_cache c ;;
      if (negb (bool_decide (is_Some r.1)) || negb (bool_decide (is_Some r.2)))
         && negb (flag_set (bic_flags cc) BLKID_BIC_FL_PROBED)
      then
        (fun h => Done tt (blkid_probe_all c h)) ;;;
        find_dev_try_again fuel' c type value r.2 (S probes)
      else ret (r.2, probes)
  end.

(** [dev_entry] is the value of the local [dev] on entry: the
    declaration has no initialiser, so the value is indeterminate. *)
Definition blkid_find_dev_with_tag (fuel : nat) (dev_entry : option nat)
    (cache : option nat) (type value : option string) : M (option nat * nat) :=
  match cache, type, value with
  | Some c, Some ty, Some v => find_dev_try_again fuel c ty v dev_entry 0
  | _, _, _ => ret (None, 0%nat)
  end.

End Prober.

(** ** Predicates on the memory *)

(** The allocator has not handed out an address from [brk] on: nothing
    lives there. *)
Definition fresh (h : heap) : Prop :=
  forall k : nat, (brk h <= k)%nat -> tags h !! k = None /\ strs h !! k = None.

(** Every tag of the list exists and has a name ([strcmp] on it is
    defined). *)
Definition named (h : heap) (l : list nat) : Prop :=
  forall p, p ∈ l -> is_Some (name_of h p).

(** Every tag of the list has a name, and none has the name [ty]. *)
Definition none_named (h : heap) (ty : string) (l : list nat) : Prop :=
  forall p, p ∈ l -> exists n, name_of h p = Some n /\ n <> ty.

(** The cache the device points to, if any, exists. *)
Definition cache_bound (h : heap) (dv : blkid_struct_dev) : Prop :=
  forall c, bid_cache dv = Some c -> is_Some (caches h !! c).

(** The memory after [n] allocations that stored nothing in it. *)
Definition bump (n : nat) (h : heap) : heap :=
  mk_heap (devs h) (tags h) (caches h) (strs h) (n + brk h) (oracle h).

(** What [add_tag] has done once it is past its allocations: the new
    tag, at the address [brk h], is the last of the device and sits in a
    bucket of its name; the other tags keep their name, value and
    device, the other devices are untouched. *)
Definition tag_added (d : nat) (name : string) (v : nat) (h h1 : heap) : Prop :=
  exists dv dv1,
    devs h !! d = Some dv /\ devs h1 !! d = Some dv1 /\
    (forall d', d' <> d -> devs h1 !! d' = devs h !! d') /\
    bid_tags dv1 = bid_tags dv ++ [brk h] /\
    bid_cache dv1 = bid_cache dv /\ bid_flags dv1 = bid_flags dv /\ bid_pri dv1 = bid_pri dv /\
    (exists tg, tags h1 !! brk h = Some tg /\
       bit_name tg = Some name /\ bit_val tg = Some v /\ bit_dev tg = Some d) /\
    (forall p tg, tags h !! p = Some tg ->
       exists tg', tags h1 !! p = Some tg' /\
         bit_name tg' = bit_name tg /\ bit_val tg' = bit_val tg /\ bit_dev tg' = bit_dev tg) /\
    strs h1 = strs h /\ oracle h1 = oracle h /\ (brk h < brk h1)%nat /\ fresh h1 /\
    (forall c, bid_cache dv = Some c ->
       exists cc hd htg, caches h1 !! c = Some cc /\ hd ∈ bic_tags cc /\
         tags h1 !! hd = Some htg /\ bit_name htg = Some name /\ brk h ∈ bit_names htg).

(** The three shortcuts of two device records agree. *)
Definition same_shortcuts (dv dv1 : blkid_struct_dev) : Prop :=
  bid_type dv1 = bid_type dv /\ bid_label dv1 = bid_label dv /\ bid_uuid dv1 = bid_uuid dv.

(** The shortcuts [link_tags] leaves in [dv1] when it starts from [dv]
    with the value pointer [val]. *)
Definition shortcuts_linked (name : string) (val : option nat) (dv dv1 : blkid_struct_dev) : Prop :=
  bid_type dv1 = (if bool_decide (name = "TYPE" /\ (val = None \/ bid_type dv = None))
                  then val else bid_type dv) /\
  bid_label dv1 = (if bool_decide (name = "LABEL") then val else bid_label dv) /\
  bid_uuid dv1 = (if bool_decide (name = "UUID") then val else bid_uuid dv).

(** The cache the device points to, if any, exists, and its head tags
    have names. *)
Definition cache_ok (h : heap) (dv : blkid_struct_dev) : Prop :=
  forall c, bid_cache dv = Some c ->
    exists cc, caches h !! c = Some cc /\ named h (bic_tags cc).

(** The state a successful call with [replace] set leaves: the first tag
    of the name carries the value. *)
Definition settled (d : nat) (name s : string) (h1 : heap) : Prop :=
  exists dv1 t tg a,
    devs h1 !! d = Some dv1 /\
    first_named name (bid_tags dv1) h1 = Done (Some t) h1 /\
    tags h1 !! t = Some tg /\ bit_val tg = Some a /\ strs h1 !! a = Some s /\
    fresh h1 /\ oracle h1 = [].

(** Every tag of the list has a value that is still allocated. *)
Definition valued (h : heap) (l : list nat) : Prop :=
  forall p, p ∈ l -> is_Some (value_of h p).

(** What delete mode leaves behind for the name [name], in terms of the
    memory [h] and the device record [dv] it started from. *)
Definition deleted (name : string) (h : heap) (dv : blkid_struct_dev)
    (h' : heap) (dv' : blkid_struct_dev) : Prop :=
  bid_tags dv' = filter (fun p => name_of h p <> Some name) (bid_tags dv) /\
  (forall q tg', tags h' !! q = Some tg' ->
     exists tg, tags h !! q = Some tg /\ bit_name tg' = bit_name tg /\
                forall x, x ∈ bit_names tg' -> x ∈ bit_names tg) /\
  (forall p, p ∈ bid_tags dv' -> is_Some (tags h' !! p)) /\
  (forall p, p ∈ bid_tags dv -> name_of h p = Some name ->
     tags h' !! p = None /\ forall q tg, tags h' !! q = Some tg -> p ∉ bit_names tg) /\
  (name = "TYPE" -> bid_type dv' = None) /\
  (name = "LABEL" -> bid_label dv' = None) /\
  (name = "UUID" -> bid_uuid dv' = None).

(** ** The parser, in words *)

(** [c] occurs in [s]. *)
Definition has_char (c : ascii) (s : string) : Prop :=
  exists p q, s = (p ++ String c q)%string.

(** [c] is one of the two quote characters. *)
Definition is_quote (c : ascii) : Prop := c = dquote \/ c = squote.

(** The value the parser hands out for the text [rest] after the first
    '=': the text itself unless it opens with a quote, and otherwise the
    text between that quote and the last occurrence of the same
    character. *)
Definition value_cut (rest value : string) : Prop :=
  (rest = value /\ forall c r, rest = String c r -> ~ is_quote c) \/
  (exists q tail, is_quote q /\ rest = String q (value ++ String q tail)%string /\
                  ~ has_char q tail).

(** The parser's answer for [tok] is [(name, value)]: the name is the
    text before the first '=', whatever its length. *)
Definition accepted (tok name value : string) : Prop :=
  exists rest, tok = (name ++ String "=" rest)%string /\ ~ has_char "=" name /\
               value_cut rest value.

(** The token grammar of section 6 of the specification, in its words:
    token := name "=" value, name := any bytes except "=", length >= 1,
    value := quoted | raw, quoted := a quote, any text, the same quote. *)
Definition spec_quoted (v : string) : Prop :=
  exists q body, is_quote q /\ v = String q (body ++ String q EmptyString)%string.
Definition spec_raw (v : string) : Prop := True.
Definition spec_token (tok : string) : Prop :=
  exists name value, tok = (name ++ String "=" value)%string /\
    (1 <= String.length name)%nat /\ ~ has_char "=" name /\
    (spec_quoted value \/ spec_raw value).

(** ** The search, in words *)

(** The device of a tag, and its priority. *)
Definition dev_of (h : heap) (t : nat) : option nat :=
  tg ← tags h !! t; bit_dev tg.

Definition pri_of (h : heap) (t : nat) : option Z :=
  tg ← tags h !! t; d ← bit_dev tg; dv ← devs h !! d; Some (bid_pri dv).

(** The cache has seen a full probe. *)
Definition probed (h : heap) (c : nat) : Prop :=
  exists cc, caches h !! c = Some cc /\ flag_set (bic_flags cc) BLKID_BIC_FL_PROBED = true.

(** Every tag of the bucket has a value, and one whose value is the one
    looked for has a device. *)
Definition bucket_ok (h : heap) (value : string) (l : list nat) : Prop :=
  forall p, p ∈ l ->
    exists s, value_of h p = Some s /\ (s = value -> is_Some (pri_of h p)).

(** [t], on device [d], is the choice among the tags of [l] with value
    [value]: no such tag sits on a device of higher priority, and those
    before [t] sit on devices of lower priority. *)
Definition best_match (h : heap) (value : string) (l : list nat) (t d : nat) (pr : Z) : Prop :=
  exists l1 l2, l = l1 ++ t :: l2 /\
    value_of h t = Some value /\ dev_of h t = Some d /\ pri_of h t = Some pr /\
    (forall p q, p ∈ l1 -> value_of h p = Some value -> pri_of h p = Some q -> q < pr) /\
    (forall p q, p ∈ l2 -> value_of h p = Some value -> pri_of h p = Some q -> q <= pr).

(** A computation that does not run out of fuel, whatever the memory. *)
Definition ends {A} (m : M A) : Prop := forall h, m h <> Diverge.

(** ** The scenarios of the specification *)

(** A device [sda1] at address 0, priority 0, without tags, owned by the
    cache at address 1. *)
Definition sda1 : heap :=
  mk_heap {[ 0%nat := mk_dev [] (Some 1%nat) None None None 0 0 ]}
          ∅
          {[ 1%nat := mk_cache [] 0 ]}
          ∅ 2 [].

(** The same memory with the coming allocation outcomes set to [o]. *)
Definition with_oracle (o : list bool) (h : heap) : heap :=
  mk_heap (devs h) (tags h) (caches h) (strs h) (brk h) o.

(** [blkid_set_tag(sda1, "TYPE", value, strlen(value), replace)]. *)
Definition set_TYPE (value : string) (replace : bool) : M status :=
  blkid_set_tag 1 (Some 0%nat) (Some "TYPE") (Some value) (Z.of_nat (String.length value)) replace.

(** Scenario 4 of the specification: [sda1] (address 0, priority 1) and
    [dm-0] (address 1, priority 2) both carry UUID=abc; the cache, at
    address 2, is marked as probed. *)
Definition two_uuids : heap :=
  mk_heap
    {[ 0%nat := mk_dev [10%nat] (Some 2%nat) None None (Some 20%nat) 1 0;
       1%nat := mk_dev [11%nat] (Some 2%nat) None None (Some 21%nat) 2 0 ]}
    {[ 10%nat := mk_tag [] (Some "UUID") (Some 20%nat) (Some 0%nat);
       11%nat := mk_tag [] (Some "UUID") (Some 21%nat) (Some 1%nat);
       12%nat := mk_tag [10%nat; 11%nat] (Some "UUID") None None ]}
    {[ 2%nat := mk_cache [12%nat] BLKID_BIC_FL_PROBED ]}
    {[ 20%nat := "abc"; 21%nat := "abc" ]}
    30 [].

(** One device of priority -1 (address 0) carries UUID=abc. *)
Definition low_priority : heap :=
  mk_heap
    {[ 0%nat := mk_dev [10%nat] (Some 2%nat) None None (Some 20%nat) (-1) 0 ]}
    {[ 10%nat := mk_tag [] (Some "UUID") (Some 20%nat) (Some 0%nat);
       12%nat := mk_tag [10%nat] (Some "UUID") None None ]}
    {[ 2%nat := mk_cache [12%nat] BLKID_BIC_FL_PROBED ]}
    {[ 20%nat := "abc" ]}
    30 [].

(** A prober that finds nothing new and sets the flag. *)
Definition probe_nothing (c : nat) (h : heap) : heap :=
  mk_heap (devs h) (tags h)
    ((fun cc => with_bic_flags (Z.lor (bic_flags cc) BLKID_BIC_FL_PROBED) cc) <$> caches h)
    (strs h) (brk h) (oracle h).

(** A verifier that confirms every device. *)
Definition verify_confirms (c : nat) (d : option nat) (h : heap) : option nat * heap := (d, h).

(** The memory once the device [d] is gone: its tags are freed, then the
    device is. *)
Definition drop_dev (d : nat) (h : heap) : heap :=
  match devs h !! d with
  | Some dv =>
      let h1 := fold_left (fun hh t => match blkid_free_tag (Some t) hh with
                                       | Done _ h' => h'
                                       | _ => hh
                                       end) (bid_tags dv) h in
      mk_heap (delete d (devs h1)) (tags h1) (caches h1) (strs h1) (brk h1) (oracle h1)
  | None => h
  end.

(** A verifier that finds the device it is handed gone, drops it from
    the cache and returns null. *)
Definition verify_gone (c : nat) (d : option nat) (h : heap) : option nat * heap :=
  match d with
  | Some d => (None, drop_dev d h)
  | None => (None, h)
  end.

(** The state of [sda1] after [set_tag("TYPE", "ext4")]: the tag is at
    address 3, its value at address 2, the head of the type at 5. *)
Definition sda1_ext4 : heap :=
  mk_heap {[ 0%nat := mk_dev [3%nat] (Some 1%nat) (Some 2%nat) None None 0 0 ]}
          {[ 3%nat := mk_tag [] (Some "TYPE") (Some 2%nat) (Some 0%nat);
             5%nat := mk_tag [3%nat] (Some "TYPE") None None ]}
          {[ 1%nat := mk_cache [5%nat] BLKID_BIC_FL_CHANGED ]}
          {[ 2%nat := "ext4" ]} 7 [].

(** The state after a further [set_tag("TYPE", "xfs")] without
    [replace] (scenario 2 of the specification): the second tag is at
    address 8, its value at 7. *)
Definition sda1_two_types : heap :=
  mk_heap {[ 0%nat := mk_dev [3%nat; 8%nat] (Some 1%nat) (Some 2%nat) None None 0
                        BLKID_BID_FL_MTYPE ]}
          {[ 3%nat := mk_tag [] (Some "TYPE") (Some 2%nat) (Some 0%nat);
             5%nat := mk_tag [3%nat; 8%nat] (Some "TYPE") None None;
             8%nat := mk_tag [] (Some "TYPE") (Some 7%nat) (Some 0%nat) ]}
          {[ 1%nat := mk_cache [5%nat] BLKID_BIC_FL_CHANGED ]}
          {[ 2%nat := "ext4"; 7%nat := "xfs" ]} 10 [].

(** Scenario 5 of the specification: a cache, at address 2, without
    devices and not probed yet. *)
Definition fresh_index : heap :=
  mk_heap ∅ ∅ {[ 2%nat := mk_cache [] 0 ]} ∅ 3 [].

(** * The tag iterator and further predicates *)

(** ** The tag iterator (lines 258-297) *)

(** An iterator is held by value, not in the memory: [blkid_tag_next]
    returns the iterator it leaves.  [blkid_tag_iterate_end], which only
    clears and frees the iterator, has no counterpart here. *)

Definition TAG_ITERATE_MAGIC : Z := 0x01a5284c.

(** A [struct list_head *] on the tag ring of a device: the anchor
    [&dev->bid_tags] in the device [d], or the node [&tag->bit_tags] of
    the tag [t]. *)
Inductive list_head :=
  | bid_tags_of (d : nat)
  | bit_tags_of (t : nat).

(** [struct blkid_struct_tag_iterate].  The iterator is a block of its
    own that nothing else points into; it is passed by value, and a
    routine that writes to it returns the new content. *)
Record blkid_struct_tag_iterate := mk_iter {
  magic : Z;
  dev : option nat;
  p : list_head
}.

(** [head->next] for the anchor of the ring [l] of device [d]: the node
    of the first tag, or the anchor itself when the ring is empty. *)
Definition ring_first (d : nat) (l : list nat) : list_head :=
  match l with
  | [] => bid_tags_of d
  | t :: _ => bit_tags_of t
  end.

(** [node->next] for the node of tag [t] on the ring [l] of device [d];
    [None] when [t] is not on the ring. *)
Fixpoint ring_next (d : nat) (l : list nat) (t : nat) : option list_head :=
  match l with
  | [] => None
  | x :: l' => if decide (x = t) then Some (ring_first d l') else ring_next d l' t
  end.

(** [blkid_tag_iterate_begin] (lines 266-277).  The device is read only
    when the allocation succeeded. *)
Definition blkid_tag_iterate_begin (dev : option nat) : M (option blkid_struct_tag_iterate) :=
  iter <- malloc ;;
  match iter with
  | None => ret None
  | Some _ =>
      d <- deref dev ;;
      dv <- get_dev d ;;
      ret (Some (mk_iter TAG_ITERATE_MAGIC dev (ring_first d (bid_tags dv))))
  end.

(** [blkid_tag_next] (lines 282-297).  The result holds the value
    returned, what the call stored in [*type] and [*value], and the
    iterator as the call left it.  A cursor on a tag that is no longer
    on the ring of the device of the iterator points at a freed tag
    ([blkid_free_tag] is the only code that unlinks one). *)
Definition blkid_tag_next (iter : option blkid_struct_tag_iterate)
    : M (Z * option string * option nat * option blkid_struct_tag_iterate) :=
  match iter with
  | None => ret (-1, None, None, iter)
  | Some it =>
      if negb (magic it =? TAG_ITERATE_MAGIC) then ret (-1, None, None, iter)
      else
        d <- deref (dev it) ;;
        match p it with
        | bid_tags_of d' =>
            if decide (d' = d) then ret (-1, None, None, iter)
            else fun _ => Trap
        | bit_tags_of t =>
            tag <- get_tag t ;;
            dv <- get_dev d ;;
            next <- deref (ring_next d (bid_tags dv) t) ;;
            ret (0, bit_name tag, bit_val tag, Some (mk_iter (magic it) (dev it) next))
        end
  end.

(** A loop over an iterator, as a caller writes it: up to [n] calls of
    [blkid_tag_next], stopping at the first that does not return 0.  The
    result lists the pairs the calls stored and gives the iterator at
    the end. *)
Fixpoint tag_next_loop (n : nat) (iter : option blkid_struct_tag_iterate)
    : M (list (option string * option nat) * option blkid_struct_tag_iterate) :=
  match n with
  | O => ret ([], iter)
  | S n' =>
      r <- blkid_tag_next iter ;;
      if r.1.1.1 =? 0 then
        rest <- tag_next_loop n' r.2 ;;
        ret ((r.1.1.2, r.1.2) :: rest.1, rest.2)
      else ret ([], r.2)
  end.

(** The name and value pointer of a tag, as [blkid_tag_next] hands them
    out. *)
Definition tag_fields (h : heap) (t : nat) : option string * option nat :=
  match tags h !! t with
  | Some tg => (bit_name tg, bit_val tg)
  | None => (None, None)
  end.

(** No list of the memory holds the address [t]. *)
Definition unlisted (h : heap) (t : nat) : Prop :=
  (forall d dv, devs h !! d = Some dv -> t ∉ bid_tags dv) /\
  (forall c cc, caches h !! c = Some cc -> t ∉ bic_tags cc) /\
  (forall x tg, tags h !! x = Some tg -> t ∉ bit_names tg).

(** What the allocator has not handed out is in no list. *)
Definition closed (h : heap) : Prop :=
  forall k : nat, (brk h <= k)%nat -> unlisted h k.

(** ** Further predicates on the memory *)

(** The four allocation outcomes after which [blkid_set_tag] undoes what
    it has done: for a name the device does not carry yet, a failure of
    the value copy, of the tag, of the head of a new bucket or of the
    name of that head. *)
Inductive undone (h : heap) (dv : blkid_struct_dev) (name : string) (o : list bool) : Prop :=
| fail_value : oracle h = true :: o -> undone h dv name o
| fail_tag : oracle h = false :: true :: o -> undone h dv name o
| fail_head c cc :
    bid_cache dv = Some c -> caches h !! c = Some cc -> none_named h name (bic_tags cc) ->
    oracle h = false :: false :: false :: true :: o -> undone h dv name o
| fail_head_name c cc :
    bid_cache dv = Some c -> caches h !! c = Some cc -> none_named h name (bic_tags cc) ->
    oracle h = false :: false :: false :: false :: true :: o -> undone h dv name o.

(** The search for [ty]=[v] in the cache [c] selects nothing: the type
    has no head, or no tag of its bucket with the value sits on a device
    of priority above -1. *)
Definition no_match (h : heap) (c : nat) (ty v : string) : Prop :=
  exists cc, caches h !! c = Some cc /\
    (none_named h ty (bic_tags cc) \/
     exists hd htg,
       first_named ty (bic_tags cc) h = Done (Some hd) h /\ tags h !! hd = Some htg /\
       bucket_ok h v (bit_names htg) /\
       forall p q, p ∈ bit_names htg -> value_of h p = Some v -> pri_of h p = Some q -> q <= -1).

(** The outcome of a search that followed one more probe. *)
Definition one_more (o : outcome (option nat * nat)) : outcome (option nat * nat) :=
  match o with
  | Done (r, n) h => Done (r, S n) h
  | Trap => Trap
  | Diverge => Diverge
  end.

(** Every entry of a list is a tag that exists: the tag list of a
    device, the head list of a cache and the bucket of a head hold no
    pointer to freed storage. *)
Definition linked (h : heap) : Prop :=
  (forall d dv, devs h !! d = Some dv -> forall t, t ∈ bid_tags dv -> is_Some (tags h !! t)) /\
  (forall c cc, caches h !! c = Some cc -> forall t, t ∈ bic_tags cc -> is_Some (tags h !! t)) /\
  (forall x tg, tags h !! x = Some tg -> forall t, t ∈ bit_names tg -> is_Some (tags h !! t)).

(** The lists hold existing tags only, and nothing lives at an address
    the allocator has yet to hand out. *)
Definition sound (h : heap) : Prop := fresh h /\ linked h.

(** [h'] is sound and every tag of [h] is still there. *)
Definition grows (h h' : heap) : Prop :=
  sound h' /\ forall x, is_Some (tags h !! x) -> is_Some (tags h' !! x).

(** The tags of the device [d] are on the list of no other device. *)
Definition own_tags (h : heap) (d : nat) : Prop :=
  forall dv d' dv' t, devs h !! d = Some dv -> d' <> d -> devs h !! d' = Some dv' ->
    t ∈ bid_tags dv -> t ∉ bid_tags dv'.

(** A tag that [blkid_set_tag] on [d], started in [h0], may free: one of
    the device in [h0], or one allocated since. *)
Definition mine (d : nat) (h0 : heap) (t : nat) : Prop :=
  (exists dv0, devs h0 !! d = Some dv0 /\ t ∈ bid_tags dv0) \/ (brk h0 <= t)%nat.

(** The memory [h] of a run on [d] started in [h0]: the other devices
    are as in [h0], and the list of [d] holds tags it had in [h0] and
    tags allocated since. *)
Definition beside (d : nat) (h0 h : heap) : Prop :=
  (forall d', d' <> d -> devs h !! d' = devs h0 !! d') /\
  (forall dv, devs h !! d = Some dv -> forall t, t ∈ bid_tags dv -> mine d h0 t) /\
  (brk h0 <= brk h)%nat.

(** * Properties *)

(** ** Running a computation *)

Lemma bind_done {A B} (m : M A) (k : A -> M B) h a h1 :
  m h = Done a h1 -> bind m k h = k a h1.
Proof. intros E. unfold bind. by rewrite E. Qed.

Lemma bind_inv {A B} (m : M A) (k : A -> M B) h b h2 :
  bind m k h = Done b h2 -> exists a h1, m h = Done a h1 /\ k a h1 = Done b h2.
Proof. unfold bind. destruct (m h); [eauto | done | done]. Qed.

Ltac inv_step H :=
  lazymatch type of H with
  | bind _ _ _ = Done _ _ =>
      let a := fresh "a" in let h := fresh "h" in let E := fresh "E" in
      apply bind_inv in H; destruct H as (a & h & E & H)
  end.

Tactic Notation "inv_bind" hyp(H) "as" simple_intropattern(a) simple_intropattern(h) simple_intropattern(E) :=
  lazymatch type of H with
  | bind _ _ _ = Done _ _ => apply bind_inv in H; destruct H as (a & h & E & H)
  end.

Lemma link_tags_status d name val h r h' :
  link_tags d name val h = Done r h' -> r = OK.
Proof.
  unfold link_tags. intros H. inv_step H. inv_step H. inv_step H.
  unfold ret in H. congruence.
Qed.

Lemma errout_status t val head h r h' :
  errout t val head h = Done r h' -> r = Err BLKID_ERR_MEM.
Proof.
  unfold errout. intros H. inv_step H. inv_step H.
  unfold ret in H. congruence.
Qed.

Lemma add_tag_status d name val h r h' :
  add_tag d name val h = Done r h' -> r <> Err BLKID_ERR_PARAM.
Proof.
  unfold add_tag. intros H.
  repeat (first [ inv_step H | case_match ]);
    try (apply link_tags_status in H); try (apply errout_status in H); congruence.
Qed.

Lemma set_tag_repeat_status fuel d name value vlength replace h r h' :
  set_tag_repeat fuel d name value vlength replace h = Done r h' -> r <> Err BLKID_ERR_PARAM.
Proof.
  revert h. induction fuel as [|fuel IH]; intros h H; [done|].
  simpl in H.
  inv_step H. inv_step H.
  destruct value.
  - repeat (first [ inv_step H | case_match ]);
    try (apply link_tags_status in H); try (apply errout_status in H);
    try (apply add_tag_status in H); try unfold ret in H; congruence.
  - destruct a.
    + inv_step H. eauto.
    + apply link_tags_status in H. congruence.
Qed.

Lemma get_tag_inv t h tg h' : get_tag t h = Done tg h' -> tags h !! t = Some tg /\ h' = h.
Proof. unfold get_tag, load. destruct (tags h !! t); intros; by simplify_eq. Qed.
Lemma get_dev_inv d h dv h' : get_dev d h = Done dv h' -> devs h !! d = Some dv /\ h' = h.
Proof. unfold get_dev, load. destruct (devs h !! d); intros; by simplify_eq. Qed.
Lemma get_cache_inv c h cc h' : get_cache c h = Done cc h' -> caches h !! c = Some cc /\ h' = h.
Proof. unfold get_cache, load. destruct (caches h !! c); intros; by simplify_eq. Qed.
Lemma get_str_inv a h s h' : get_str a h = Done s h' -> strs h !! a = Some s /\ h' = h.
Proof. unfold get_str, load. destruct (strs h !! a); intros; by simplify_eq. Qed.
Lemma deref_inv {A} (p : option A) h a h' : deref p h = Done a h' -> p = Some a /\ h' = h.
Proof. unfold deref. destruct p; intros; by simplify_eq. Qed.

Lemma get_tag_done t h tg : tags h !! t = Some tg -> get_tag t h = Done tg h.
Proof. unfold get_tag, load. by intros ->. Qed.
Lemma get_dev_done d h dv : devs h !! d = Some dv -> get_dev d h = Done dv h.
Proof. unfold get_dev, load. by intros ->. Qed.
Lemma get_cache_done c h cc : caches h !! c = Some cc -> get_cache c h = Done cc h.
Proof. unfold get_cache, load. by intros ->. Qed.
Lemma get_str_done a h s : strs h !! a = Some s -> get_str a h = Done s h.
Proof. unfold get_str, load. by intros ->. Qed.

Lemma name_of_Some h p n :
  name_of h p = Some n <-> exists tg, tags h !! p = Some tg /\ bit_name tg = Some n.
Proof.
  unfold name_of. destruct (tags h !! p) as [tg|]; simpl; split.
  - eauto.
  - by intros (? & [= <-] & ?).
  - done.
  - by intros (? & ? & ?).
Qed.

(** The walk answers from the names alone and leaves the memory as it is. *)
Lemma first_named_cons ty p l h n :
  name_of h p = Some n ->
  first_named ty (p :: l) h = if bool_decide (n = ty) then Done (Some p) h else first_named ty l h.
Proof.
  intros (tg & Ht & Hn)%name_of_Some. simpl.
  rewrite (bind_done _ _ _ _ _ (get_tag_done _ _ _ Ht)).
  unfold bind at 1, deref. rewrite Hn. by case_bool_decide.
Qed.

Lemma none_named_nil h ty : none_named h ty [].
Proof. intros p Hp. by apply elem_of_nil in Hp. Qed.

Lemma none_named_cons h ty p l n :
  name_of h p = Some n -> n <> ty -> none_named h ty l -> none_named h ty (p :: l).
Proof. intros Hn Hne Hl q [->|Hq]%elem_of_cons; [eauto | by apply Hl]. Qed.

Lemma first_named_inv ty l h r h' :
  first_named ty l h = Done r h' ->
  h' = h /\
  match r with
  | Some t => exists l1 l2, l = l1 ++ t :: l2 /\ name_of h t = Some ty /\ none_named h ty l1
  | None => none_named h ty l
  end.
Proof.
  revert r. induction l as [|p l IH]; intros r H.
  - simpl in H. unfold ret in H. simplify_eq. split; [done|]. apply none_named_nil.
  - simpl in H. inv_step H. apply get_tag_inv in E as [Ht ->].
    inv_step H. apply deref_inv in E as [Hn ->].
    assert (Hnm : name_of h p = Some a0) by (apply name_of_Some; eauto).
    case_bool_decide as Hty.
    + unfold ret in H. simplify_eq. split; [done|].
      exists [], l. split; [done|]. split; [done|]. apply none_named_nil.
    + apply IH in H as (-> & Hr). split; [done|].
      destruct r as [t|].
      * destruct Hr as (l1 & l2 & -> & Ht' & Hl1). exists (p :: l1), l2.
        split; [done|]. split; [done|]. by eapply none_named_cons.
      * by eapply none_named_cons.
Qed.

Lemma first_named_none ty l h :
  none_named h ty l -> first_named ty l h = Done None h.
Proof.
  induction l as [|p l IH]; intros Hl; [done|].
  destruct (Hl p) as (n & Hn & Hne); [by left|].
  rewrite (first_named_cons _ _ _ _ _ Hn). rewrite bool_decide_false by done.
  apply IH. intros q Hq. apply Hl. by right.
Qed.

Lemma first_named_some ty l1 t l2 h :
  none_named h ty l1 -> name_of h t = Some ty ->
  first_named ty (l1 ++ t :: l2) h = Done (Some t) h.
Proof.
  induction l1 as [|p l IH]; intros Hl Ht; simpl app.
  - rewrite (first_named_cons _ _ _ _ _ Ht). by rewrite bool_decide_true.
  - destruct (Hl p) as (n & Hn & Hne); [by left|].
    rewrite (first_named_cons _ _ _ _ _ Hn). rewrite bool_decide_false by done.
    apply IH; [|done]. intros q Hq. apply Hl. by right.
Qed.

Lemma first_named_total ty l h :
  named h l -> exists r, first_named ty l h = Done r h.
Proof.
  induction l as [|p l IH]; intros Hl; [by exists None|].
  destruct (Hl p) as [n Hn]; [by left|].
  rewrite (first_named_cons _ _ _ _ _ Hn). case_bool_decide; [eauto|].
  apply IH. intros q Hq. apply Hl. by right.
Qed.


(** *** link_tags *)

Lemma link_tags_inv d name val h r h' :
  link_tags d name val h = Done r h' ->
  r = OK /\ exists dv dv',
    devs h !! d = Some dv /\ devs h' !! d = Some dv' /\
    (forall d', d' <> d -> devs h' !! d' = devs h !! d') /\
    tags h' = tags h /\ strs h' = strs h /\ brk h' = brk h /\ oracle h' = oracle h /\
    bid_tags dv' = bid_tags dv /\ bid_cache dv' = bid_cache dv /\
    bid_flags dv' = bid_flags dv /\ bid_pri dv' = bid_pri dv /\
    bid_type dv' = (if bool_decide (name = "TYPE" /\ (val = None \/ bid_type dv = None))
                    then val else bid_type dv) /\
    bid_label dv' = (if bool_decide (name = "LABEL") then val else bid_label dv) /\
    bid_uuid dv' = (if bool_decide (name = "UUID") then val else bid_uuid dv) /\
    match bid_cache dv with
    | Some c => exists cc, caches h !! c = Some cc /\
        caches h' = <[c := with_bic_flags (Z.lor (bic_flags cc) BLKID_BIC_FL_CHANGED) cc]> (caches h)
    | None => caches h' = caches h
    end.
Proof.
  unfold link_tags. intros H. inv_bind H as dv h0 E. apply get_dev_inv in E as [Hd ->].
  inv_bind H as [] h1 E. inv_bind H as [] h2 E0. unfold ret in H. simplify_eq. split; [done|].
  exists dv.
  assert (Hcache : tags h' = tags h1 /\ strs h' = strs h1 /\ brk h' = brk h1 /\
            oracle h' = oracle h1 /\ devs h' = devs h1 /\
            match bid_cache dv with
            | Some c => exists cc, caches h1 !! c = Some cc /\
               caches h' = <[c := with_bic_flags (Z.lor (bic_flags cc) BLKID_BIC_FL_CHANGED) cc]> (caches h1)
            | None => caches h' = caches h1
            end).
  { destruct (bid_cache dv) as [c|].
    - inv_bind E0 as cc h3 E1. apply get_cache_inv in E1 as [Hc ->].
      unfold set_caches in E0. simplify_eq. simpl. eauto 10.
    - unfold ret in E0. by simplify_eq. }
  destruct Hcache as (-> & -> & -> & -> & Hdevs & Hc). clear E0.
  assert (Hsame : caches h1 = caches h).
  { repeat case_match; unfold set_devs, ret in E; by simplify_eq. }
  rewrite Hsame in Hc. clear Hsame.
  assert (Hfin : forall dv', devs h1 = <[d:=dv']> (devs h) \/ (devs h1 = devs h /\ dv' = dv) ->
            devs h' !! d = Some dv' /\ (forall d', d' <> d -> devs h' !! d' = devs h !! d')).
  { intros dv' [Hi|[Hi ->]]; rewrite Hdevs, Hi.
    - rewrite lookup_insert_eq. split; [done|]. intros d' Hd'. by rewrite lookup_insert_ne.
    - done. }
  destruct (decide (name = "TYPE")) as [->|HT].
  - simpl in E. destruct val as [v|], (bid_type dv) as [ty|] eqn:Hty; simpl in E;
      unfold set_devs, ret in E; simplify_eq; simpl in *.
    + exists dv. split; [done|]. destruct (Hfin dv) as [? ?]; [by right|].
      by split_and!.
    + eexists. split; [done|]. edestruct Hfin as [? ?]; [by left|].
      by split_and!.
    + eexists. split; [done|]. edestruct Hfin as [? ?]; [by left|].
      by split_and!.
    + eexists. split; [done|]. edestruct Hfin as [? ?]; [by left|].
      by split_and!.
  - rewrite (bool_decide_false (name = "TYPE")) in E by done. simpl in E.
    rewrite (bool_decide_false (name = "TYPE" /\ _)) by (by intros [? _]).
    repeat case_bool_decide; unfold set_devs, ret in E; simplify_eq; simpl in *.
    + eexists. split; [done|]. edestruct Hfin as [? ?]; [by left|]. by split_and!.
    + eexists. split; [done|]. edestruct Hfin as [? ?]; [by left|]. by split_and!.
    + exists dv. split; [done|]. destruct (Hfin dv) as [? ?]; [by right|]. by split_and!.
Qed.

Lemma link_tags_total d name val h dv :
  devs h !! d = Some dv -> cache_bound h dv ->
  exists h', link_tags d name val h = Done OK h'.
Proof.
  intros Hd Hc. unfold link_tags.
  rewrite (bind_done _ _ _ _ _ (get_dev_done _ _ _ Hd)).
  unfold bind.
  assert (exists h1, (if bool_decide (name = "TYPE") &&
       (negb (bool_decide (is_Some val)) || negb (bool_decide (is_Some (bid_type dv))))
     then set_devs <[d:=with_bid_type val dv]>
     else if bool_decide (name = "LABEL") then set_devs <[d:=with_bid_label val dv]>
     else if bool_decide (name = "UUID") then set_devs <[d:=with_bid_uuid val dv]>
     else ret ()) h = Done tt h1 /\ caches h1 = caches h) as (h1 & -> & Hc1).
  { repeat case_match; unfold set_devs, ret; eauto. }
  destruct (bid_cache dv) as [c|] eqn:Hbc.
  - destruct (Hc c Hbc) as [cc Hcc]. rewrite <- Hc1 in Hcc.
    rewrite (get_cache_done _ _ _ Hcc). unfold set_caches. eauto.
  - unfold ret. eauto.
Qed.

(** *** blkid_free_tag *)

Lemma free_tag_done t tg h :
  tags h !! t = Some tg ->
  blkid_free_tag (Some t) h =
  Done tt (mk_heap
    ((fun d => with_bid_tags (remove_id t (bid_tags d)) d) <$> devs h)
    (delete t ((fun x => with_bit_names (remove_id t (bit_names x)) x) <$> tags h))
    ((fun c => with_bic_tags (remove_id t (bic_tags c)) c) <$> caches h)
    (match bit_val tg with Some a => delete a (strs h) | None => strs h end)
    (brk h) (oracle h)).
Proof.
  intros Ht. unfold blkid_free_tag.
  rewrite (bind_done _ _ _ _ _ (get_tag_done _ _ _ Ht)).
  unfold list_del_bit_tags, list_del_bit_names, free_str, bind, set_devs, set_caches,
    set_tags, set_strs, ret. simpl.
  by destruct (bit_val tg).
Qed.

Lemma remove_id_elem t l p : p ∈ remove_id t l <-> p ∈ l /\ p <> t.
Proof. unfold remove_id. rewrite list_elem_of_filter. tauto. Qed.

Lemma remove_id_length t l : t ∈ l -> (length (remove_id t l) < length l)%nat.
Proof.
  induction l as [|x l IH]; intros Ht; [by apply elem_of_nil in Ht|].
  unfold remove_id in *. rewrite filter_cons. case_decide as Hx; simpl.
  - apply elem_of_cons in Ht as [->|Ht]; [done|]. specialize (IH Ht). lia.
  - pose proof (length_filter (fun x => x <> t) l). lia.
Qed.

Lemma filter_all {A} (P : A -> Prop) `{!forall x, Decision (P x)} (l : list A) :
  (forall x, x ∈ l -> P x) -> filter P l = l.
Proof.
  induction l as [|x l IH]; intros Hl; [done|].
  rewrite filter_cons_True by (apply Hl; by left).
  f_equal. apply IH. intros y Hy. apply Hl. by right.
Qed.

(** *** Delete mode *)

Lemma set_tag_repeat_delete fuel d name vlength replace h :
  set_tag_repeat (S fuel) d name None vlength replace h =
  (t <- blkid_find_tag_dev (Some d) (Some name) ;;
   match t with
   | Some _ => blkid_free_tag t ;;; set_tag_repeat fuel d name None vlength replace
   | None => link_tags d name None
   end) h.
Proof. simpl. unfold bind. by destruct (blkid_find_tag_dev (Some d) (Some name) h). Qed.

Lemma find_tag_dev_done d dv ty h r :
  devs h !! d = Some dv -> first_named ty (bid_tags dv) h = Done r h ->
  blkid_find_tag_dev (Some d) (Some ty) h = Done r h.
Proof.
  intros Hd Hr. unfold blkid_find_tag_dev.
  by rewrite (bind_done _ _ _ _ _ (get_dev_done _ _ _ Hd)).
Qed.

Section DeleteMode.
Variables (d : nat) (name : string) (vlength : Z) (replace : bool).

Lemma delete_mode fuel : forall h dv,
  devs h !! d = Some dv -> named h (bid_tags dv) -> cache_bound h dv ->
  (length (bid_tags dv) < fuel)%nat ->
  exists h' dv',
    set_tag_repeat fuel d name None vlength replace h = Done OK h' /\
    devs h' !! d = Some dv' /\ deleted name h dv h' dv'.
Proof.
  induction fuel as [|fuel IH]; intros h dv Hd Hnamed Hcb Hlen; [lia|].
  rewrite set_tag_repeat_delete.
  destruct (first_named_total name _ _ Hnamed) as [r Hr].
  rewrite (bind_done _ _ _ _ _ (find_tag_dev_done _ _ _ _ _ Hd Hr)).
  apply first_named_inv in Hr as [_ Hr].
  destruct r as [t|].
  - destruct Hr as (l1 & l2 & Hl & Ht & Hl1).
    assert (Htl : t ∈ bid_tags dv) by (rewrite Hl; apply elem_of_app; right; by left).
    apply name_of_Some in Ht as Ht'. destruct Ht' as (tg & Htg & Htn).
    rewrite (bind_done _ _ _ _ _ (free_tag_done _ _ _ Htg)).
    set (h1 := mk_heap _ _ _ _ _ _).
    set (dv1 := with_bid_tags (remove_id t (bid_tags dv)) dv).
    assert (Hd1 : devs h1 !! d = Some dv1).
    { subst h1. simpl. rewrite lookup_fmap, Hd. done. }
    assert (Hnm1 : forall p, p <> t -> name_of h1 p = name_of h p).
    { intros p Hp. unfold name_of. subst h1. simpl.
      rewrite lookup_delete_ne by done. rewrite lookup_fmap.
      by destruct (tags h !! p). }
    destruct (IH h1 dv1) as (h' & dv' & Hrun & Hd' & Hdel).
    + done.
    + intros p [Hp Hne]%remove_id_elem. rewrite Hnm1 by done. by apply Hnamed.
    + intros c Hc. subst h1. simpl. rewrite lookup_fmap.
      destruct (Hcb c Hc) as [cc ->]. done.
    + pose proof (remove_id_length t _ Htl). simpl. lia.
    + exists h', dv'. split; [done|]. split; [done|].
      destruct Hdel as (P1 & P2 & P3 & P4 & P5 & P6 & P7).
      unfold deleted.
      assert (Hback : forall q tg', tags h' !! q = Some tg' ->
         q <> t /\ exists tg, tags h !! q = Some tg /\ bit_name tg' = bit_name tg /\
            forall x, x ∈ bit_names tg' -> x ∈ bit_names tg /\ x <> t).
      { intros q tg' Hq. destruct (P2 q tg' Hq) as (tg1 & Hq1 & Hn1 & Hs1).
        subst h1. simpl in Hq1.
        destruct (decide (q = t)) as [->|Hqt]; [by rewrite lookup_delete_eq in Hq1|].
        split; [done|].
        rewrite lookup_delete_ne, lookup_fmap in Hq1 by done.
        destruct (tags h !! q) as [tg0|]; [|done]. simpl in Hq1. simplify_eq.
        exists tg0. split; [done|]. split; [done|].
        intros x Hx. apply Hs1 in Hx. simpl in Hx. by apply remove_id_elem in Hx. }
      split_and!; try done.
      * rewrite P1. simpl. unfold remove_id.
        rewrite list_filter_filter. apply list_filter_iff.
        intros p. split.
        -- intros [H1 H2]. by rewrite <- Hnm1.
        -- intros H1. assert (p <> t) by congruence. by rewrite Hnm1.
      * intros q tg' Hq. destruct (Hback q tg' Hq) as (_ & tg0 & ? & ? & Hs).
        exists tg0. split; [done|]. split; [done|]. intros x Hx. by apply Hs.
      * intros p Hp Hpn. destruct (decide (p = t)) as [->|Hpt].
        -- split.
           ++ destruct (tags h' !! t) as [tg'|] eqn:Hq; [|done].
              by destruct (Hback t tg' Hq) as [? _].
           ++ intros q tg' Hq Hin. destruct (Hback q tg' Hq) as (_ & tg0 & _ & _ & Hs).
              by destruct (Hs t Hin).
        -- apply P4.
           ++ simpl. by apply remove_id_elem.
           ++ by rewrite Hnm1.
  - destruct (link_tags_total d name None h dv Hd Hcb) as [h' Hrun].
    rewrite Hrun. apply link_tags_inv in Hrun as (_ & dv0 & dv' & Hd0 & Hd' & _ & Ht & _ & _ & _ & Hl & _ & _ & _ & Hty & Hla & Huu & _).
    simplify_eq. exists h', dv'. split; [done|]. split; [done|].
    unfold deleted. split_and!.
    + rewrite Hl. symmetry. apply filter_all.
      intros p Hp. destruct (Hr p Hp) as (n & Hn & Hne). rewrite Hn. congruence.
    + intros q tg' Hq. rewrite Ht in Hq. eauto.
    + intros p Hp. rewrite Hl in Hp. rewrite Ht.
      destruct (Hnamed p Hp) as [n Hn]. apply name_of_Some in Hn as (tg & -> & _). done.
    + intros p Hp Hn. destruct (Hr p Hp) as (n & Hn' & Hne). congruence.
    + intros ->. rewrite Hty. rewrite bool_decide_true; eauto.
    + intros ->. by rewrite Hla.
    + intros ->. by rewrite Huu.
Qed.
End DeleteMode.

Lemma fresh_check h :
  bool_decide (map_Forall (fun k _ => (k < brk h)%nat) (tags h)) = true ->
  bool_decide (map_Forall (fun k _ => (k < brk h)%nat) (strs h)) = true ->
  fresh h.
Proof.
  intros Ht%bool_decide_eq_true Hs%bool_decide_eq_true k Hk. split.
  - destruct (tags h !! k) as [x|] eqn:E; [|done].
    specialize (Ht k x E). simpl in Ht. lia.
  - destruct (strs h !! k) as [x|] eqn:E; [|done].
    specialize (Hs k x E). simpl in Hs. lia.
Qed.

(** C5: with an absent value [blkid_set_tag] destroys every tag of the
    name on the device: the tags that stay are the others, in their
    order and with their names; a destroyed tag is in no bucket any
    more; and the shortcut of the name is null, so it does not point at
    the storage just freed. *)
Theorem delete_all_tags fuel d dv name vlength replace h :
  devs h !! d = Some dv -> named h (bid_tags dv) -> cache_bound h dv ->
  (length (bid_tags dv) < fuel)%nat ->
  exists h' dv',
    blkid_set_tag fuel (Some d) (Some name) None vlength replace h = Done OK h' /\
    devs h' !! d = Some dv' /\
    bid_tags dv' = filter (fun p => name_of h p <> Some name) (bid_tags dv) /\
    (forall p, p ∈ bid_tags dv' -> name_of h' p = name_of h p /\ name_of h' p <> Some name) /\
    (forall p, p ∈ bid_tags dv -> name_of h p = Some name ->
       tags h' !! p = None /\ forall q tg, tags h' !! q = Some tg -> p ∉ bit_names tg) /\
    (name = "TYPE" -> bid_type dv' = None) /\
    (name = "LABEL" -> bid_label dv' = None) /\
    (name = "UUID" -> bid_uuid dv' = None).
Proof.
  intros Hd Hn Hc Hlen.
  destruct (delete_mode d name vlength replace fuel h dv Hd Hn Hc Hlen)
    as (h' & dv' & Hrun & Hd' & P1 & P2 & P3 & P4 & P5 & P6 & P7).
  exists h', dv'. split_and!; try done.
  intros p Hp. destruct (P3 p Hp) as [tg' Htg'].
  destruct (P2 p tg' Htg') as (tg & Htg & Hnm & _).
  assert (name_of h' p = name_of h p) as ->.
  { unfold name_of. by rewrite Htg', Htg. }
  split; [done|]. rewrite P1 in Hp. by apply list_elem_of_filter in Hp as [? _].
Qed.

Lemma delete_all_tags_witness :
  exists h' dv',
    blkid_set_tag 3 (Some 0%nat) (Some "TYPE") None 0 false sda1_two_types = Done OK h' /\
    devs h' !! 0%nat = Some dv' /\
    bid_tags dv' = filter (fun p => name_of sda1_two_types p <> Some "TYPE") [3%nat; 8%nat] /\
    (forall p, p ∈ bid_tags dv' ->
       name_of h' p = name_of sda1_two_types p /\ name_of h' p <> Some "TYPE") /\
    (forall p, p ∈ [3%nat; 8%nat] -> name_of sda1_two_types p = Some "TYPE" ->
       tags h' !! p = None /\ forall q tg, tags h' !! q = Some tg -> p ∉ bit_names tg) /\
    ("TYPE" = "TYPE" -> bid_type dv' = None) /\
    ("TYPE" = "LABEL" -> bid_label dv' = None) /\
    ("TYPE" = "UUID" -> bid_uuid dv' = None).
Proof.
  apply (delete_all_tags 3 0
           (mk_dev [3%nat; 8%nat] (Some 1%nat) (Some 2%nat) None None 0 BLKID_BID_FL_MTYPE)
           "TYPE" 0 false sda1_two_types).
  - reflexivity.
  - intros p Hp. apply elem_of_cons in Hp as [->|Hp]; [by eexists|].
    apply list_elem_of_singleton in Hp as ->. by eexists.
  - intros c Hc. injection Hc as <-. by eexists.
  - simpl. lia.
Defined.

(** Scenario 3 of the specification, run: after the two TYPE tags are
    deleted the device has no tag, its TYPE shortcut is null and the
    bucket of TYPE is still there, empty. *)
Example delete_all_scenario :
  set_TYPE "xfs" false sda1_ext4 = Done OK sda1_two_types /\
  exists h dv,
    blkid_set_tag 3 (Some 0%nat) (Some "TYPE") None 0 false sda1_two_types = Done OK h /\
    devs h !! 0%nat = Some dv /\ tag_pairs h 0 = [] /\ bid_type dv = None /\
    bucket h 1 "TYPE" = Some [].
Proof.
  split; [vm_compute; reflexivity|].
  eexists _, _. split_and!; vm_compute; reflexivity.
Qed.

(** *** Allocation when no request fails *)

Lemma malloc_ok h : oracle h = [] -> malloc h = Done (Some (brk h)) (bump 1 h).
Proof. intros Ho. unfold malloc, bump. rewrite Ho. simpl. by rewrite <- Ho. Qed.

Lemma new_tag_ok h :
  oracle h = [] ->
  blkid_new_tag h = Done (Some (brk h))
    (mk_heap (devs h) (<[brk h := mk_tag [] None None None]> (tags h)) (caches h) (strs h)
             (S (brk h)) (oracle h)).
Proof. intros Ho. unfold blkid_new_tag. by rewrite (bind_done _ _ _ _ _ (malloc_ok h Ho)). Qed.

Lemma strdup_ok s h :
  oracle h = [] -> blkid_strdup (Some s) h = Done (Some s) (bump 1 h).
Proof. intros Ho. unfold blkid_strdup. by rewrite (bind_done _ _ _ _ _ (malloc_ok h Ho)). Qed.

Lemma strndup_ok s n h :
  oracle h = [] ->
  blkid_strndup (Some s) n h = Done (Some (brk h))
    (mk_heap (devs h) (tags h) (caches h) (<[brk h := strn s n]> (strs h)) (S (brk h)) (oracle h)).
Proof. intros Ho. unfold blkid_strndup. by rewrite (bind_done _ _ _ _ _ (malloc_ok h Ho)). Qed.

Lemma bind_set_tags {B} f (k : unit -> M B) h :
  bind (set_tags f) k h = k tt (mk_heap (devs h) (f (tags h)) (caches h) (strs h) (brk h) (oracle h)).
Proof. done. Qed.
Lemma bind_set_devs {B} f (k : unit -> M B) h :
  bind (set_devs f) k h = k tt (mk_heap (f (devs h)) (tags h) (caches h) (strs h) (brk h) (oracle h)).
Proof. done. Qed.
Lemma bind_set_caches {B} f (k : unit -> M B) h :
  bind (set_caches f) k h = k tt (mk_heap (devs h) (tags h) (f (caches h)) (strs h) (brk h) (oracle h)).
Proof. done. Qed.
Lemma bind_set_strs {B} f (k : unit -> M B) h :
  bind (set_strs f) k h = k tt (mk_heap (devs h) (tags h) (caches h) (f (strs h)) (brk h) (oracle h)).
Proof. done. Qed.

Ltac heap_simpl_in H := cbv beta iota in H; cbn [devs tags caches strs brk oracle bump] in H.
Ltac heap_simpl := cbv beta iota; cbn [devs tags caches strs brk oracle bump].

(** One step of a run in which no allocation fails, in a hypothesis. *)
Ltac step_in H Ho :=
  heap_simpl_in H;
  lazymatch type of H with
  | bind blkid_new_tag _ ?hh = _ => rewrite (bind_done _ _ _ _ _ (new_tag_ok hh Ho)) in H
  | bind (blkid_strdup (Some ?s)) _ ?hh = _ => rewrite (bind_done _ _ _ _ _ (strdup_ok s hh Ho)) in H
  | bind (blkid_strndup (Some ?s) ?n) _ ?hh = _ =>
      rewrite (bind_done _ _ _ _ _ (strndup_ok s n hh Ho)) in H
  | bind (set_tags _) _ _ = _ => rewrite bind_set_tags in H
  | bind (set_devs _) _ _ = _ => rewrite bind_set_devs in H
  | bind (set_caches _) _ _ = _ => rewrite bind_set_caches in H
  | bind (set_strs _) _ _ = _ => rewrite bind_set_strs in H
  | bind (free_str _) _ _ = _ => unfold free_str in H; rewrite bind_set_strs in H
  end;
  heap_simpl_in H.

(** *** Adding a tag *)

Lemma fresh_lt h p tg : fresh h -> tags h !! p = Some tg -> (p < brk h)%nat.
Proof.
  intros Hf Hp. destruct (decide (p < brk h)%nat); [done|].
  destruct (Hf p) as [Hn _]; [lia|]. congruence.
Qed.

Lemma fresh_str_lt h a s : fresh h -> strs h !! a = Some s -> (a < brk h)%nat.
Proof.
  intros Hf Hp. destruct (decide (a < brk h)%nat); [done|].
  destruct (Hf a) as [_ Hn]; [lia|]. congruence.
Qed.

Lemma add_tag_inv d name v h r h1 :
  add_tag d name v h = Done r h1 -> oracle h = [] -> fresh h ->
  exists hL, (tag_added d name v h hL /\
              exists dv dvL, devs h !! d = Some dv /\ devs hL !! d = Some dvL /\
                             same_shortcuts dv dvL) /\
             link_tags d name (Some v) hL = Done r h1.
Proof.
  intros H Ho Hf. unfold add_tag in H.
  do 3 step_in H Ho.
  inv_bind H as dv h2 E. apply get_dev_inv in E as [Hd ->]. heap_simpl_in Hd.
  step_in H Ho.
  rewrite insert_insert_eq in H.
  set (t := brk h) in *.
  set (tg := mk_tag [] (Some name) (Some v) (Some d)) in *.
  assert (Hold : forall p x, tags h !! p = Some x -> p <> t /\ p <> S (S t) /\ (p < t)%nat).
  { intros p x Hp. pose proof (fresh_lt _ _ _ Hf Hp). subst t. lia. }
  destruct (bid_cache dv) as [c|] eqn:Hc.
  - inv_bind H as head h2 E. unfold blkid_find_head_cache in E.
    inv_bind E as cc h3 E1. apply get_cache_inv in E1 as [Hcc ->]. heap_simpl_in Hcc.
    apply first_named_inv in E as [-> Hhead].
    destruct head as [hd|].
    + inv_bind H as [] h2 E. unfold chain_tag in E. inv_bind E as htg h3 E1.
      apply get_tag_inv in E1 as [Hhtg ->]. unfold set_tags in E.
      heap_simpl_in E. heap_simpl_in Hhtg. simplify_eq.
      destruct Hhead as (l1 & l2 & Hl & Hhn & _).
      apply name_of_Some in Hhn as (htg' & Hhtg' & Hhn). heap_simpl_in Hhtg'.
      rewrite Hhtg in Hhtg'. injection Hhtg' as <-.
      eexists. split; [|exact H].
      split; [|exists dv; eexists; heap_simpl; by rewrite lookup_insert_eq].
      exists dv. eexists. heap_simpl.
      rewrite lookup_insert_eq. split_and!; try done.
      * intros d' Hd'. by rewrite lookup_insert_ne.
      * destruct (decide (hd = t)) as [->|Hne].
        -- rewrite lookup_insert_eq. rewrite lookup_insert_eq in Hhtg. simplify_eq.
           by eexists.
        -- rewrite lookup_insert_ne, lookup_insert_eq by done. by eexists.
      * intros p x Hp. destruct (Hold p x Hp) as (Hp1 & Hp2 & _).
        destruct (decide (p = hd)) as [->|Hne].
        -- rewrite lookup_insert_eq. rewrite lookup_insert_ne in Hhtg by done.
           simplify_eq. by eexists.
        -- rewrite !lookup_insert_ne by done. by eexists.
      * subst t. lia.
      * intros k Hk. heap_simpl. heap_simpl_in Hk. split; [|apply Hf; subst t; lia].
        assert (hd < S (S t))%nat.
        { destruct (decide (hd = t)) as [->|Hne]; [lia|].
          rewrite lookup_insert_ne in Hhtg by done. destruct (Hold _ _ Hhtg). lia. }
        rewrite !lookup_insert_ne by (subst t; lia). apply Hf. subst t. lia.
      * intros c' ?; simplify_eq. exists cc, hd. eexists. split; [done|].
        split; [rewrite Hl; apply elem_of_app; right; by left|]. rewrite lookup_insert_eq.
        split; [done|]. split; [done|]. simpl. apply elem_of_app. right. by left.
    + do 3 step_in H Ho. rewrite insert_insert_eq in H.
      inv_bind H as cc' h2 E. apply get_cache_inv in E as [Hcc' ->]. heap_simpl_in Hcc'.
      simplify_eq. step_in H Ho.
      inv_bind H as [] h2 E. unfold chain_tag in E. inv_bind E as htg h3 E1.
      apply get_tag_inv in E1 as [Hhtg ->]. unfold set_tags in E.
      heap_simpl_in E. heap_simpl_in Hhtg. simplify_eq.
      change (1 + S t)%nat with (S (S t)) in *.
      rewrite lookup_insert_eq in Hhtg. simplify_eq.
      rewrite insert_insert_eq in H.
      eexists. split; [|exact H].
      split; [|exists dv; eexists; heap_simpl; by rewrite lookup_insert_eq].
      exists dv. eexists. heap_simpl.
      rewrite lookup_insert_eq. split_and!; try done.
      * intros d' Hd'. by rewrite lookup_insert_ne.
      * rewrite lookup_insert_ne, lookup_insert_eq by lia. by eexists.
      * intros p x Hp. destruct (Hold p x Hp) as (Hp1 & Hp2 & _).
        rewrite !lookup_insert_ne by done. by eexists.
      * subst t. lia.
      * intros k Hk. heap_simpl. heap_simpl_in Hk. split; [|apply Hf; subst t; lia].
        rewrite !lookup_insert_ne by (subst t; lia). apply Hf. subst t. lia.
      * intros c' ?; simplify_eq. eexists. exists (S (S t)). eexists.
        rewrite !lookup_insert_eq. split; [done|]. simpl.
        split; [apply elem_of_app; right; by left|]. split; [done|]. split; [done|]. simpl. by left.
  - eexists. split; [|exact H].
    split; [|exists dv; eexists; heap_simpl; by rewrite lookup_insert_eq].
    exists dv. eexists. heap_simpl.
    rewrite !lookup_insert_eq. split_and!; try done.
    + intros d' Hd'. by rewrite lookup_insert_ne.
    + by eexists.
    + intros p x Hp. destruct (Hold p x Hp) as (Hp1 & Hp2 & _).
      rewrite !lookup_insert_ne by done. by eexists.
    + subst t. lia.
    + intros k Hk. heap_simpl. heap_simpl_in Hk. split; [|apply Hf; subst t; lia].
      rewrite !lookup_insert_ne by (subst t; lia). apply Hf. subst t. lia.
    + intros c' Hc'. congruence.
Qed.

Lemma land_lor_same f b : Z.land (Z.lor f b) b = b.
Proof.
  apply Z.bits_inj'. intros n _. rewrite Z.land_spec, Z.lor_spec.
  by destruct (Z.testbit f n), (Z.testbit b n).
Qed.

Lemma flag_set_lor f b : b <> 0 -> flag_set (Z.lor f b) b = true.
Proof.
  intros Hb. unfold flag_set. rewrite land_lor_same.
  by apply negb_true_iff, Z.eqb_neq.
Qed.

Lemma add_tag_post d name v h r h1 :
  add_tag d name v h = Done r h1 -> oracle h = [] -> fresh h ->
  r = OK /\ tag_added d name v h h1 /\
  exists dv dv1, devs h !! d = Some dv /\ devs h1 !! d = Some dv1 /\
    shortcuts_linked name (Some v) dv dv1 /\
    forall c, bid_cache dv = Some c ->
      exists cc, caches h1 !! c = Some cc /\ flag_set (bic_flags cc) BLKID_BIC_FL_CHANGED = true.
Proof.
  intros H Ho Hf.
  destruct (add_tag_inv _ _ _ _ _ _ H Ho Hf) as (hL & [Hadd (dv & dvL & Hd & HdL & Hs1 & Hs2 & Hs3)] & Hlink).
  apply link_tags_inv in Hlink as (-> & dvL' & dv1 & HdL' & Hd1 & Hother & Htags & Hstrs & Hbrk &
    Hor & Hbt & Hbc & Hbf & Hbp & Hty & Hla & Huu & Hcache).
  rewrite HdL in HdL'. injection HdL' as <-.
  destruct Hadd as (dv' & dvL' & Hd' & HdL' & A3 & A4 & A5 & A6 & A7 & A8 & A9 & A10 & A11 & A12 & A13 & A14).
  rewrite Hd in Hd'. injection Hd' as <-. rewrite HdL in HdL'. injection HdL' as <-.
  split; [done|]. split.
  - exists dv, dv1. rewrite Htags. split_and!; try congruence.
    + intros d' Hd'. rewrite Hother by done. by apply A3.
    + exact A9.
    + unfold fresh. intros k Hk. rewrite Htags, Hstrs. apply A13. by rewrite <- Hbrk.
    + intros c Hc. destruct (A14 c Hc) as (cc & hd & htg & Hcc & Hin & Hhd & Hn & Hm).
      rewrite A5, Hc in Hcache. destruct Hcache as (cc' & Hcc' & Hch).
      rewrite Hcc in Hcc'. injection Hcc' as <-.
      eexists. exists hd, htg. rewrite Hch, lookup_insert_eq. done.
  - exists dv, dv1. split; [done|]. split; [done|]. split.
    + unfold shortcuts_linked. by rewrite Hty, Hla, Huu, Hs1, Hs2, Hs3.
    + intros c Hc. rewrite A5, Hc in Hcache. destruct Hcache as (cc' & Hcc' & Hch).
      eexists. rewrite Hch, lookup_insert_eq. split; [done|]. simpl.
      by apply flag_set_lor.
Qed.

(** One step of a run in which no allocation fails, in the goal. *)
Ltac step Ho :=
  heap_simpl;
  lazymatch goal with
  | |- context [bind blkid_new_tag ?k ?hh] => rewrite (bind_done _ k _ _ _ (new_tag_ok hh Ho))
  | |- context [bind (blkid_strdup (Some ?s)) ?k ?hh] =>
      rewrite (bind_done _ k _ _ _ (strdup_ok s hh Ho))
  | |- context [bind (blkid_strndup (Some ?s) ?n) ?k ?hh] =>
      rewrite (bind_done _ k _ _ _ (strndup_ok s n hh Ho))
  | |- context [bind (set_tags _) _ _] => rewrite bind_set_tags
  | |- context [bind (set_devs _) _ _] => rewrite bind_set_devs
  | |- context [bind (set_caches _) _ _] => rewrite bind_set_caches
  | |- context [bind (set_strs _) _ _] => rewrite bind_set_strs
  | |- context [bind (free_str _) _ _] => unfold free_str; rewrite bind_set_strs
  end;
  heap_simpl.

Ltac step_dev H :=
  lazymatch goal with
  | |- context [bind (get_dev ?d) ?k ?hh] =>
      rewrite (bind_done _ k hh _ hh (get_dev_done d hh _ H))
  end; heap_simpl.
Ltac step_cache H :=
  lazymatch goal with
  | |- context [bind (get_cache ?c) ?k ?hh] =>
      rewrite (bind_done _ k hh _ hh (get_cache_done c hh _ H))
  end; heap_simpl.
Ltac step_tag H :=
  lazymatch goal with
  | |- context [bind (get_tag ?t) ?k ?hh] =>
      rewrite (bind_done _ k hh _ hh (get_tag_done t hh _ H))
  end; heap_simpl.
Ltac step_str H :=
  lazymatch goal with
  | |- context [bind (get_str ?t) ?k ?hh] =>
      rewrite (bind_done _ k hh _ hh (get_str_done t hh _ H))
  end; heap_simpl.

Lemma add_tag_total d name v h dv :
  devs h !! d = Some dv -> oracle h = [] -> fresh h -> cache_ok h dv ->
  exists r h1, add_tag d name v h = Done r h1.
Proof.
  intros Hd Ho Hf Hc. unfold add_tag.
  do 3 step Ho.
  step_dev Hd.
  step Ho. rewrite insert_insert_eq.
  set (t := brk h).
  set (dv1 := with_bid_tags _ dv).
  assert (Hcb : forall hh, caches hh = caches h -> cache_bound hh dv1).
  { intros hh Hhh c Hbc. destruct (Hc c Hbc) as (cc & Hcc & _). rewrite Hhh. eauto. }
  destruct (bid_cache dv) as [c|] eqn:Hbc.
  - destruct (Hc c Hbc) as (cc & Hcc & Hnamed).
    unfold blkid_find_head_cache.
    match goal with |- context [bind _ _ ?hh] => set (h2 := hh) end.
    assert (Hnamed2 : named h2 (bic_tags cc)).
    { intros p Hp. destruct (Hnamed p Hp) as [n Hn].
      apply name_of_Some in Hn as (tg & Htg & Hn).
      exists n. apply name_of_Some. exists tg. split; [|done].
      subst h2. heap_simpl. rewrite lookup_insert_ne; [done|].
      pose proof (fresh_lt _ _ _ Hf Htg). subst t. lia. }
    destruct (first_named_total name _ _ Hnamed2) as [head Hhead].
    assert (Hcc2 : caches h2 !! c = Some cc) by done.
    rewrite (bind_done _ _ h2 head h2).
    2:{ by rewrite (bind_done _ _ _ _ _ (get_cache_done _ _ _ Hcc2)). }
    destruct head as [hd|].
    + apply first_named_inv in Hhead as (_ & l1 & l2 & _ & Hn & _).
      apply name_of_Some in Hn as (htg & Hhtg & _).
      unfold chain_tag.
      rewrite (bind_done _ _ h2 tt
        (mk_heap (devs h2) (<[hd := with_bit_names (bit_names htg ++ [t]) htg]> (tags h2))
                 (caches h2) (strs h2) (brk h2) (oracle h2))).
      2:{ by rewrite (bind_done _ _ _ _ _ (get_tag_done _ _ _ Hhtg)). }
      edestruct (link_tags_total d name (Some v)) as [h' Hh']; [| |eauto].
      * subst h2. heap_simpl. apply lookup_insert_eq.
      * by apply Hcb.
    + subst h2. do 3 step Ho. rewrite insert_insert_eq.
      step_cache Hcc.
      step Ho. unfold chain_tag.
      match goal with |- context [bind _ _ ?hh] => set (h2 := hh) end.
      assert (Hhd : tags h2 !! (1 + S t)%nat =
                    Some (mk_tag [] (Some name) None None)) by apply lookup_insert_eq.
      rewrite (bind_done _ _ h2 tt
        (mk_heap (devs h2) (<[(1 + S t)%nat := with_bit_names ([] ++ [t]) (mk_tag [] (Some name) None None)]> (tags h2))
                 (caches h2) (strs h2) (brk h2) (oracle h2))).
      2:{ by rewrite (bind_done _ _ _ _ _ (get_tag_done _ _ _ Hhd)). }
      edestruct (link_tags_total d name (Some v)) as [h' Hh']; [| |eauto].
      * subst h2. heap_simpl. apply lookup_insert_eq.
      * intros c' Hc'. simpl. subst dv1. simpl in Hc'. rewrite Hbc in Hc'. simplify_eq.
        rewrite lookup_insert_eq. done.
  - edestruct (link_tags_total d name (Some v)) as [h' Hh']; [| |eauto].
    + heap_simpl. apply lookup_insert_eq.
    + by apply Hcb.
Qed.

(** *** Insert mode *)

Lemma set_tag_repeat_insert fuel d name value vlength replace h :
  set_tag_repeat (S fuel) d name (Some value) vlength replace h =
  (t <- blkid_find_tag_dev (Some d) (Some name) ;;
   val <- blkid_strndup (Some value) vlength ;;
   match val with
   | None => errout t val None
   | Some v =>
       match t with
       | Some t0 =>
           tg <- get_tag t0 ;;
           tv <- deref (bit_val tg) ;;
           same <- streq_at tv v ;;
           if same then free_str v ;;; ret OK
           else if replace then
             free_str tv ;;;
             set_tags (insert t0 (with_bit_val (Some v) tg)) ;;;
             link_tags d name (Some v)
           else
             dv <- get_dev d ;;
             set_devs (insert d (with_bid_flags (Z.lor (bid_flags dv) BLKID_BID_FL_MTYPE) dv)) ;;;
             add_tag d name v
       | None => add_tag d name v
       end
   end) h.
Proof. done. Qed.

Lemma value_of_Some h p s :
  value_of h p = Some s <->
  exists tg a, tags h !! p = Some tg /\ bit_val tg = Some a /\ strs h !! a = Some s.
Proof.
  unfold value_of. destruct (tags h !! p) as [tg|]; simpl.
  - destruct (bit_val tg) as [a|] eqn:Hb; simpl; split.
    + intros Hs. by exists tg, a.
    + intros (? & ? & [= <-] & Hb' & ?). rewrite Hb in Hb'. by injection Hb' as <-.
    + done.
    + intros (? & ? & [= <-] & Hb' & ?). by rewrite Hb in Hb'.
  - split; [done|]. by intros (? & ? & ? & _).
Qed.

Lemma streq_at_done a b x y h :
  strs h !! a = Some x -> strs h !! b = Some y ->
  streq_at a b h = Done (bool_decide (x = y)) h.
Proof.
  intros Ha Hb. unfold streq_at.
  rewrite (bind_done _ _ _ _ _ (get_str_done _ _ _ Ha)).
  by rewrite (bind_done _ _ _ _ _ (get_str_done _ _ _ Hb)).
Qed.

Ltac step_streq x y :=
  lazymatch goal with
  | |- context [bind (streq_at ?a ?b) ?k ?hh] =>
      let Hx := fresh "Hx" in
      let Hy := fresh "Hy" in
      assert (strs hh !! a = Some x) as Hx;
      [ heap_simpl
      | assert (strs hh !! b = Some y) as Hy;
        [ heap_simpl
        | rewrite (bind_done _ k hh _ hh (streq_at_done a b x y hh Hx Hy)); clear Hx Hy;
          heap_simpl ] ]
  end.

(** C7: a call without [replace] on a device whose tag of that name has
    another value sets MULTIPLE_TYPE and appends a tag, so that the old
    tags and the new one coexist in insertion order; a TYPE shortcut
    that reads the old value keeps reading it. *)
Theorem coexisting_tags h d dv name value vlength t0 s0 fuel :
  devs h !! d = Some dv -> oracle h = [] -> fresh h -> cache_ok h dv ->
  first_named name (bid_tags dv) h = Done (Some t0) h ->
  value_of h t0 = Some s0 -> s0 <> strn value vlength ->
  exists h' dv',
    blkid_set_tag (S fuel) (Some d) (Some name) (Some value) vlength false h = Done OK h' /\
    devs h' !! d = Some dv' /\
    flag_set (bid_flags dv') BLKID_BID_FL_MTYPE = true /\
    (exists t, bid_tags dv' = bid_tags dv ++ [t] /\
       name_of h' t = Some name /\ value_of h' t = Some (strn value vlength)) /\
    (forall p n, p ∈ bid_tags dv -> name_of h p = Some n -> name_of h' p = Some n) /\
    (forall p s, p ∈ bid_tags dv -> value_of h p = Some s -> value_of h' p = Some s) /\
    (name = "TYPE" -> shortcut h (bid_type dv) = Some s0 ->
       bid_type dv' = bid_type dv /\ shortcut h' (bid_type dv') = Some s0).
Proof.
  intros Hd Ho Hf Hc Ht0 Hv0 Hne.
  apply value_of_Some in Hv0 as (tg0 & a0 & Htg0 & Ha0 & Hs0).
  unfold blkid_set_tag. rewrite set_tag_repeat_insert.
  rewrite (bind_done _ _ _ _ _ (find_tag_dev_done _ _ _ _ _ Hd Ht0)).
  step Ho. step_tag Htg0.
  unfold bind at 1, deref at 1. rewrite Ha0.
  pose proof (fresh_str_lt _ _ _ Hf Hs0) as Hlt.
  step_streq s0 (strn value vlength);
    [by rewrite lookup_insert_ne by lia | apply lookup_insert_eq |].
  rewrite bool_decide_false by done.
  step_dev Hd. step Ho.
  match goal with |- context [add_tag d name (brk h) ?hh] => set (h3 := hh) end.
  assert (Hd3 : devs h3 !! d = Some (with_bid_flags (Z.lor (bid_flags dv) BLKID_BID_FL_MTYPE) dv))
    by apply lookup_insert_eq.
  assert (Hf3 : fresh h3).
  { intros k Hk. subst h3. heap_simpl. heap_simpl_in Hk.
    rewrite lookup_insert_ne by lia. apply Hf. lia. }
  destruct (add_tag_total d name (brk h) h3 _ Hd3 Ho Hf3) as (r & h' & Hrun).
  { intros c Hbc. destruct (Hc c Hbc) as (cc & ? & ?). exists cc. done. }
  exists h'. rewrite Hrun.
  destruct (add_tag_post _ _ _ _ _ _ Hrun Ho Hf3) as (-> & Hadd & dv3 & dv' & Hd3' & Hd' & Hsc & _).
  rewrite Hd3 in Hd3'. injection Hd3' as <-.
  destruct Hadd as (dv3 & dv'' & Hd3' & Hd'' & A3 & A4 & A5 & A6 & A7 & A8 & A9 & A10 & A11 & A12 & A13 & A14).
  rewrite Hd3 in Hd3'. injection Hd3' as <-. rewrite Hd' in Hd''. injection Hd'' as <-.
  exists dv'. split; [done|]. split; [done|].
  assert (Hstr : forall a s, strs h !! a = Some s -> strs h' !! a = Some s).
  { intros a s Ha. rewrite A10. subst h3. heap_simpl.
    pose proof (fresh_str_lt _ _ _ Hf Ha). rewrite lookup_insert_ne by lia. done. }
  split_and!.
  - rewrite A6. simpl. by apply flag_set_lor.
  - exists (brk h3). split; [done|]. destruct A8 as (tg & Htg & Hn & Hv & _). split.
    + apply name_of_Some. eauto.
    + apply value_of_Some. exists tg, (brk h). split; [done|]. split; [done|].
      rewrite A10. subst h3. heap_simpl. apply lookup_insert_eq.
  - intros p n Hp (tg & Htg & Hn)%name_of_Some.
    destruct (A9 p tg Htg) as (tg' & Hp'' & Hn' & _).
    apply name_of_Some. exists tg'. split; [done|]. congruence.
  - intros p s Hp (tg & a & Htg & Ha & Hs)%value_of_Some.
    destruct (A9 p tg Htg) as (tg' & Hp'' & _ & Hv & _).
    apply value_of_Some. exists tg', a. split; [done|]. split; [congruence|]. by apply Hstr.
  - intros -> Hsh. destruct Hsc as (Hty & _).
    unfold shortcut in Hsh. destruct (bid_type dv) as [a|] eqn:Hbt; [|done]. simpl in Hsh.
    rewrite bool_decide_false in Hty. 2:{ simpl. rewrite Hbt. by intros [_ [?|?]]. }
    simpl in Hty. rewrite Hbt in Hty. rewrite Hty. split; [done|]. simpl. by apply Hstr.
Qed.

Lemma sda1_ext4_cache_ok :
  cache_ok sda1_ext4 (mk_dev [3%nat] (Some 1%nat) (Some 2%nat) None None 0 0).
Proof.
  intros c Hc. injection Hc as <-. eexists. split; [reflexivity|].
  intros p Hp. apply list_elem_of_singleton in Hp as ->. by eexists.
Qed.

Lemma coexisting_tags_witness :
  exists h' dv',
    blkid_set_tag 1 (Some 0%nat) (Some "TYPE") (Some "xfs") 3 false sda1_ext4 = Done OK h' /\
    devs h' !! 0%nat = Some dv' /\
    flag_set (bid_flags dv') BLKID_BID_FL_MTYPE = true /\
    (exists t, bid_tags dv' = [3%nat] ++ [t] /\
       name_of h' t = Some "TYPE" /\ value_of h' t = Some (strn "xfs" 3)) /\
    (forall p n, p ∈ [3%nat] -> name_of sda1_ext4 p = Some n -> name_of h' p = Some n) /\
    (forall p s, p ∈ [3%nat] -> value_of sda1_ext4 p = Some s -> value_of h' p = Some s) /\
    ("TYPE" = "TYPE" -> shortcut sda1_ext4 (Some 2%nat) = Some "ext4" ->
       bid_type dv' = Some 2%nat /\ shortcut h' (bid_type dv') = Some "ext4").
Proof.
  apply (coexisting_tags sda1_ext4 0 (mk_dev [3%nat] (Some 1%nat) (Some 2%nat) None None 0 0)
           "TYPE" "xfs" 3 3 "ext4" 0).
  - reflexivity.
  - reflexivity.
  - apply fresh_check; vm_compute; reflexivity.
  - apply sda1_ext4_cache_ok.
  - vm_compute. reflexivity.
  - reflexivity.
  - vm_compute. discriminate.
Defined.

(** *** Calling twice *)

Lemma first_named_mono ty l h1 h2 r :
  (forall p n, p ∈ l -> name_of h1 p = Some n -> name_of h2 p = Some n) ->
  first_named ty l h1 = Done r h1 -> first_named ty l h2 = Done r h2.
Proof.
  intros Hn Hr. apply first_named_inv in Hr as [_ Hr]. destruct r as [t|].
  - destruct Hr as (l1 & l2 & -> & Ht & Hl1). apply first_named_some.
    + intros p Hp. destruct (Hl1 p Hp) as (n & Hpn & Hne). exists n. split; [|done].
      apply Hn; [|done]. apply elem_of_app. by left.
    + apply Hn; [|done]. apply elem_of_app. right. by left.
  - apply first_named_none. intros p Hp. destruct (Hr p Hp) as (n & Hpn & Hne).
    exists n. split; [|done]. by apply Hn.
Qed.

Lemma set_tag_settles fuel d dv name value vlength h h1 :
  devs h !! d = Some dv -> valued h (bid_tags dv) ->
  fresh h -> oracle h = [] ->
  set_tag_repeat fuel d name (Some value) vlength true h = Done OK h1 ->
  settled d name (strn value vlength) h1.
Proof.
  intros Hd Hval Hf Ho H. destruct fuel as [|fuel]; [done|].
  rewrite set_tag_repeat_insert in H.
  inv_bind H as t h2 E. unfold blkid_find_tag_dev in E.
  inv_bind E as dv' h3 E1. apply get_dev_inv in E1 as [Hd' ->].
  rewrite Hd in Hd'. injection Hd' as <-.
  pose proof E as Efind. apply first_named_inv in E as [-> Hfind].
  step_in H Ho.
  set (v := brk h) in *. set (s := strn value vlength) in *.
  destruct t as [t0|].
  - inv_bind H as tg0 h2 E. apply get_tag_inv in E as [Htg0 ->]. heap_simpl_in Htg0.
    inv_bind H as a0 h2 E. apply deref_inv in E as [Ha0 ->].
    assert (Ht0 : t0 ∈ bid_tags dv).
    { destruct Hfind as (l1 & l2 & -> & _). apply elem_of_app. right. by left. }
    destruct (Hval t0 Ht0) as [x Hx].
    apply value_of_Some in Hx as (tg0' & a0' & Htg0' & Ha0' & Hx).
    rewrite Htg0 in Htg0'. injection Htg0' as <-.
    rewrite Ha0 in Ha0'. injection Ha0' as <-.
    pose proof (fresh_str_lt _ _ _ Hf Hx) as Hlt.
    inv_bind H as same h2 E.
    rewrite (streq_at_done a0 v x s) in E;
      [| heap_simpl; by rewrite lookup_insert_ne by (subst v; lia)
       | heap_simpl; apply lookup_insert_eq ].
    injection E as <- <-.
    case_bool_decide as Hsame.
    + step_in H Ho. injection H as <-.
      exists dv, t0, tg0, a0. split_and!; try done.
      * eapply first_named_mono; [|exact Efind]. done.
      * heap_simpl. rewrite lookup_delete_ne, lookup_insert_ne by (subst v; lia). congruence.
      * intros k Hk. heap_simpl. heap_simpl_in Hk. split; [apply Hf; subst v; lia|].
        rewrite lookup_delete_ne, lookup_insert_ne by (subst v; lia). apply Hf. subst v. lia.
    + do 2 step_in H Ho.
      apply link_tags_inv in H as (_ & dvR & dv1 & HdR & Hd1 & _ & Htags & Hstrs & Hbrk &
        Hor & Hbt & _).
      heap_simpl_in HdR. rewrite Hd in HdR. injection HdR as <-.
      exists dv1, t0. eexists. exists v. split_and!.
      * done.
      * rewrite Hbt. eapply first_named_mono; [|exact Efind].
        intros p n Hp (tg & Htg & Hn)%name_of_Some. apply name_of_Some.
        rewrite Htags. heap_simpl.
        destruct (decide (p = t0)) as [->|Hpt].
        -- rewrite lookup_insert_eq. eexists. split; [done|]. simpl. congruence.
        -- rewrite lookup_insert_ne by done. eauto.
      * rewrite Htags. heap_simpl. apply lookup_insert_eq.
      * done.
      * rewrite Hstrs. heap_simpl. rewrite lookup_delete_ne by (subst v; lia).
        apply lookup_insert_eq.
      * intros k Hk. rewrite Htags, Hstrs. rewrite Hbrk in Hk. heap_simpl. heap_simpl_in Hk. split.
        -- destruct (decide (k = t0)) as [->|Hkt].
           ++ pose proof (fresh_lt _ _ _ Hf Htg0). subst v. lia.
           ++ rewrite lookup_insert_ne by done. apply Hf. subst v. lia.
        -- destruct (decide (k = a0)) as [->|Hka]; [subst v; lia|].
           rewrite lookup_delete_ne, lookup_insert_ne by (subst v; lia). apply Hf. subst v. lia.
      * by rewrite Hor.
  - match type of H with add_tag _ _ _ ?hh = _ => set (h2 := hh) in * end.
    assert (Hf2 : fresh h2).
    { intros k Hk. subst h2. heap_simpl. heap_simpl_in Hk.
      rewrite lookup_insert_ne by (subst v; lia). apply Hf. subst v. lia. }
    destruct (add_tag_post _ _ _ _ _ _ H Ho Hf2) as (_ & Hadd & _).
    destruct Hadd as (dv2 & dv1 & Hd2 & Hd1 & A3 & A4 & A5 & A6 & A7 & A8 & A9 & A10 & A11 & A12 & A13 & A14).
    change (devs h2) with (devs h) in Hd2. rewrite Hd in Hd2. injection Hd2 as <-.
    destruct A8 as (tg & Htg & Hn & Hv & _).
    exists dv1, (brk h2), tg, v. split_and!; try done.
    + rewrite A4. apply first_named_some.
      * intros p Hp. destruct (Hfind p Hp) as (n & (tgp & Htgp & Hpn)%name_of_Some & Hne).
        exists n. split; [|done]. apply name_of_Some.
        destruct (A9 p tgp Htgp) as (tg' & Hp' & Hn' & _). exists tg'. split; [done|]. congruence.
      * apply name_of_Some. eauto.
    + rewrite A10. subst h2. heap_simpl. apply lookup_insert_eq.
    + by rewrite A11.
Qed.

Lemma set_tag_again fuel d name value vlength h1 :
  settled d name (strn value vlength) h1 ->
  exists h2,
    set_tag_repeat (S fuel) d name (Some value) vlength true h1 = Done OK h2 /\
    devs h2 = devs h1 /\ tags h2 = tags h1 /\ caches h2 = caches h1 /\ strs h2 = strs h1.
Proof.
  intros (dv1 & t & tg & a & Hd & Hfind & Htg & Ha & Hs & Hf & Ho).
  rewrite set_tag_repeat_insert.
  rewrite (bind_done _ _ _ _ _ (find_tag_dev_done _ _ _ _ _ Hd Hfind)).
  step Ho. step_tag Htg.
  unfold bind at 1, deref at 1. rewrite Ha.
  pose proof (fresh_str_lt _ _ _ Hf Hs) as Hlt.
  step_streq (strn value vlength) (strn value vlength);
    [by rewrite lookup_insert_ne by lia | apply lookup_insert_eq |].
  rewrite bool_decide_true by done.
  step Ho. eexists. split; [done|]. heap_simpl. split_and!; try done.
  rewrite delete_insert_eq. apply delete_id. (* the copy was at a fresh address *)
  apply Hf. done.
Qed.

(** C9: calling [blkid_set_tag] a second time with the same name and value
    and [replace] set changes nothing. *)
Theorem set_tag_idempotent fuel d dv name value vlength h h1 :
  devs h !! d = Some dv -> valued h (bid_tags dv) ->
  fresh h -> oracle h = [] ->
  blkid_set_tag fuel (Some d) (Some name) (Some value) vlength true h = Done OK h1 ->
  exists h2,
    blkid_set_tag fuel (Some d) (Some name) (Some value) vlength true h1 = Done OK h2 /\
    devs h2 = devs h1 /\ tags h2 = tags h1 /\ caches h2 = caches h1 /\ strs h2 = strs h1.
Proof.
  intros Hd Hval Hf Ho H. unfold blkid_set_tag in *.
  destruct fuel as [|fuel]; [done|].
  apply set_tag_again. by eapply set_tag_settles.
Qed.

Lemma set_tag_idempotent_witness :
  exists h2,
    blkid_set_tag 1 (Some 0%nat) (Some "TYPE") (Some "ext4") 4 true sda1_ext4 = Done OK h2 /\
    devs h2 = devs sda1_ext4 /\ tags h2 = tags sda1_ext4 /\
    caches h2 = caches sda1_ext4 /\ strs h2 = strs sda1_ext4.
Proof.
  apply (set_tag_idempotent 1 0 (mk_dev [] (Some 1%nat) None None None 0 0)
           "TYPE" "ext4" 4 sda1 sda1_ext4).
  - reflexivity.
  - intros p Hp. by apply elem_of_nil in Hp.
  - apply fresh_check; vm_compute; reflexivity.
  - reflexivity.
  - vm_compute. reflexivity.
Defined.

(** *** A name the device does not carry yet *)

Lemma set_tag_new fuel d dv name value vlength replace h :
  devs h !! d = Some dv -> oracle h = [] -> fresh h -> cache_ok h dv ->
  none_named h name (bid_tags dv) ->
  exists h' dv' t,
    set_tag_repeat (S fuel) d name (Some value) vlength replace h = Done OK h' /\
    devs h' !! d = Some dv' /\ bid_tags dv' = bid_tags dv ++ [t] /\
    name_of h' t = Some name /\ value_of h' t = Some (strn value vlength) /\
    forall c, bid_cache dv = Some c ->
      exists cc hd htg, caches h' !! c = Some cc /\ hd ∈ bic_tags cc /\
        tags h' !! hd = Some htg /\ bit_name htg = Some name /\ t ∈ bit_names htg.
Proof.
  intros Hd Ho Hf Hc Hnone.
  rewrite set_tag_repeat_insert.
  rewrite (bind_done _ _ _ _ _ (find_tag_dev_done _ _ _ _ _ Hd (first_named_none _ _ _ Hnone))).
  step Ho.
  match goal with |- context [add_tag d name (brk h) ?hh] => set (h2 := hh) end.
  assert (Hf2 : fresh h2).
  { intros k Hk. subst h2. heap_simpl. heap_simpl_in Hk.
    rewrite lookup_insert_ne by lia. apply Hf. lia. }
  destruct (add_tag_total d name (brk h) h2 dv Hd Ho Hf2) as (r & h' & Hrun).
  { intros c Hbc. destruct (Hc c Hbc) as (cc & ? & ?). exists cc. done. }
  exists h'. rewrite Hrun.
  destruct (add_tag_post _ _ _ _ _ _ Hrun Ho Hf2) as (-> & Hadd & _).
  destruct Hadd as (dv2 & dv' & Hd2 & Hd' & A3 & A4 & A5 & A6 & A7 & A8 & A9 & A10 & A11 & A12 & A13 & A14).
  change (devs h2) with (devs h) in Hd2. rewrite Hd in Hd2. injection Hd2 as <-.
  destruct A8 as (tg & Htg & Hn & Hv & _).
  exists dv', (brk h2). split_and!; try done.
  - apply name_of_Some. eauto.
  - apply value_of_Some. exists tg, (brk h). split; [done|]. split; [done|].
    rewrite A10. subst h2. heap_simpl. apply lookup_insert_eq.
Qed.

(** C10: the argument check of [blkid_set_tag] rejects a null device and
    a null name and nothing else; the empty name is taken like any other
    name, and with a value a tag of that name is created and linked. *)
Theorem set_tag_param_check fuel dev name value vlength replace h :
  (dev = None \/ name = None ->
     blkid_set_tag fuel dev name value vlength replace h = Done (Err BLKID_ERR_PARAM) h) /\
  (forall r h', blkid_set_tag fuel dev name value vlength replace h = Done r h' ->
     r = Err BLKID_ERR_PARAM -> dev = None \/ name = None) /\
  (forall d dv v,
     dev = Some d -> name = Some EmptyString -> value = Some v -> (0 < fuel)%nat ->
     devs h !! d = Some dv -> oracle h = [] -> fresh h -> cache_ok h dv ->
     none_named h EmptyString (bid_tags dv) ->
     exists h' dv' t,
       blkid_set_tag fuel dev name value vlength replace h = Done OK h' /\
       devs h' !! d = Some dv' /\ bid_tags dv' = bid_tags dv ++ [t] /\
       name_of h' t = Some EmptyString /\ value_of h' t = Some (strn v vlength) /\
       forall c, bid_cache dv = Some c ->
         exists cc hd htg, caches h' !! c = Some cc /\ hd ∈ bic_tags cc /\
           tags h' !! hd = Some htg /\ bit_name htg = Some EmptyString /\ t ∈ bit_names htg).
Proof.
  split_and!.
  - intros [-> | ->]; [done|]. by destruct dev.
  - intros r h' H ->. destruct dev as [d|]; [|by left]. destruct name as [n|]; [|by right].
    simpl in H. by apply set_tag_repeat_status in H.
  - intros d dv v -> -> -> Hfuel Hd Ho Hf Hc Hnone.
    destruct fuel as [|fuel]; [lia|]. unfold blkid_set_tag.
    by apply set_tag_new.
Qed.

Lemma set_tag_param_check_witness :
  exists h' dv' t,
    blkid_set_tag 1 (Some 0%nat) (Some EmptyString) (Some "x") 1 false sda1 = Done OK h' /\
    devs h' !! 0%nat = Some dv' /\ bid_tags dv' = [] ++ [t] /\
    name_of h' t = Some EmptyString /\ value_of h' t = Some (strn "x" 1) /\
    forall c, Some 1%nat = Some c ->
      exists cc hd htg, caches h' !! c = Some cc /\ hd ∈ bic_tags cc /\
        tags h' !! hd = Some htg /\ bit_name htg = Some EmptyString /\ t ∈ bit_names htg.
Proof.
  apply (proj2 (proj2 (set_tag_param_check 1 (Some 0%nat) (Some EmptyString) (Some "x") 1
                         false sda1))
           0%nat (mk_dev [] (Some 1%nat) None None None 0 0) "x").
  - reflexivity.
  - reflexivity.
  - reflexivity.
  - lia.
  - reflexivity.
  - reflexivity.
  - apply fresh_check; vm_compute; reflexivity.
  - intros c Hc. injection Hc as <-. eexists. split; [reflexivity|].
    intros p Hp. by apply elem_of_nil in Hp.
  - apply none_named_nil.
Defined.

(** ** The scenarios on blkid_set_tag *)

(** C2: the replace-in-place scenario.  One TYPE tag with value xfs is
    left and MULTIPLE_TYPE is clear, but the TYPE shortcut is not xfs:
    it still holds the address of the old value, which was freed. *)
Theorem replace_in_place_shortcut :
  exists h1 h dv old,
    set_TYPE "ext4" false sda1 = Done OK h1 /\
    set_TYPE "xfs" true h1 = Done OK h /\
    devs h !! 0%nat = Some dv /\
    tag_pairs h 0 = [(Some "TYPE", Some "xfs")] /\
    flag_set (bid_flags dv) BLKID_BID_FL_MTYPE = false /\
    bid_type dv = Some old /\ strs h1 !! old = Some "ext4" /\ strs h !! old = None /\
    shortcut h (bid_type dv) <> Some "xfs".
Proof.
  exists sda1_ext4. eexists _, _, 2%nat.
  split_and!; try (vm_compute; reflexivity). by vm_compute.
Qed.

(** C3: the (name, value) pairs of a device do not stay distinct.  With
    TYPE=ext4 and TYPE=xfs on the device, a call with [replace] set and
    the value xfs overwrites the first tag and leaves TYPE=xfs twice. *)
Theorem replace_duplicates_pair :
  exists h1 h2 h,
    set_TYPE "ext4" false sda1 = Done OK h1 /\
    set_TYPE "xfs" false h1 = Done OK h2 /\
    set_TYPE "xfs" true h2 = Done OK h /\
    tag_pairs h2 0 = [(Some "TYPE", Some "ext4"); (Some "TYPE", Some "xfs")] /\
    tag_pairs h 0 = [(Some "TYPE", Some "xfs"); (Some "TYPE", Some "xfs")] /\
    NoDup (tag_pairs h2 0) /\ ~ NoDup (tag_pairs h 0).
Proof.
  exists sda1_ext4. eexists _, _.
  split_and!; try (vm_compute; reflexivity).
  - match goal with |- NoDup ?l =>
      assert (l = [(Some "TYPE", Some "ext4"); (Some "TYPE", Some "xfs")]) as ->
        by (vm_compute; reflexivity)
    end.
    apply NoDup_cons. split; [|apply NoDup_singleton].
    intros Hin. apply list_elem_of_singleton in Hin. discriminate.
  - intros Hnd.
    match type of Hnd with NoDup ?l =>
      assert (l = [(Some "TYPE", Some "xfs"); (Some "TYPE", Some "xfs")]) as E
        by (vm_compute; reflexivity)
    end.
    rewrite E in Hnd. apply NoDup_cons in Hnd as [Hnot _]. apply Hnot. by left.
Qed.

(** C4: a failed allocation is not always rolled back.  When the copy of
    the name of a new tag fails the call reports success and leaves a
    tag without a name on the device; when the copy of the value fails
    on a device that has a tag of the name, the call reports the error
    and has destroyed that tag. *)
Theorem alloc_failure_not_rolled_back :
  (exists h,
     set_TYPE "ext4" false (with_oracle [false; false; true] sda1) = Done OK h /\
     tag_pairs h 0 = [(None, Some "ext4")]) /\
  (exists h dv,
     set_TYPE "xfs" false (with_oracle [true] sda1_ext4) = Done (Err BLKID_ERR_MEM) h /\
     tag_pairs sda1_ext4 0 = [(Some "TYPE", Some "ext4")] /\
     tag_pairs h 0 = [] /\
     devs h !! 0%nat = Some dv /\ bid_type dv = Some 2%nat /\ strs h !! 2%nat = None).
Proof.
  split.
  - eexists. split; vm_compute; reflexivity.
  - eexists _, _. split_and!; vm_compute; reflexivity.
Qed.


(** ** blkid_parse_tag_string *)

Lemma append_nil_l (s : string) : (EmptyString ++ s)%string = s.
Proof. done. Qed.
Lemma append_cons (a : ascii) (p s : string) :
  (String a p ++ s)%string = String a (p ++ s)%string.
Proof. done. Qed.

Lemma has_char_nil c : ~ has_char c EmptyString.
Proof. intros ([|a p] & q & H); discriminate. Qed.

Lemma has_char_cons c a s : has_char c (String a s) <-> a = c \/ has_char c s.
Proof.
  split.
  - intros ([|b p] & q & H); simpl in H; injection H as -> ->; [by left|].
    right. by exists p, q.
  - intros [->|(p & q & ->)].
    + by exists EmptyString, s.
    + by exists (String a p), q.
Qed.

Lemma strchr_None s c : strchr s c = None <-> ~ has_char c s.
Proof.
  induction s as [|a s IH]; simpl.
  - split; [intros _; apply has_char_nil | done].
  - rewrite has_char_cons. destruct (Ascii.eqb_spec a c) as [->|Hne].
    + split; [done|]. intros H. destruct H. by left.
    + destruct (strchr s c) as [[p q]|].
      * split; [done|]. intros H. exfalso. destruct IH as [_ IH].
        assert (~ has_char c s) as Hs by tauto. by specialize (IH Hs).
      * split; [|done]. intros _ [?|?]; [done|]. by apply IH.
Qed.

Lemma strchr_Some s c p q :
  strchr s c = Some (p, q) <-> s = (p ++ String c q)%string /\ ~ has_char c p.
Proof.
  revert p. induction s as [|a s IH]; intros p; simpl.
  - split; [done|]. intros [H _]. by destruct p.
  - destruct (Ascii.eqb_spec a c) as [->|Hne].
    + split.
      * intros [= <- <-]. split; [done|]. apply has_char_nil.
      * intros [H Hp]. destruct p as [|b p]; simpl in H.
        -- by injection H as ->.
        -- injection H as <- ->. destruct Hp. apply has_char_cons. by left.
    + destruct (strchr s c) as [[p' q']|] eqn:E.
      * split.
        -- intros [= <- <-]. destruct (IH p') as [IH1 _]. destruct (IH1 eq_refl) as [-> Hp'].
           split; [done|]. rewrite has_char_cons. tauto.
        -- intros [H Hp]. destruct p as [|b p]; simpl in H; injection H as -> H; [done|].
           rewrite has_char_cons in Hp. destruct (IH p) as [_ IH2].
           assert (Some (p', q') = Some (p, q)) as [= -> ->] by (apply IH2; tauto). done.
      * split; [done|]. intros [H Hp].
        destruct p as [|b p]; simpl in H; injection H as -> H; [done|].
        rewrite has_char_cons in Hp. destruct (IH p) as [_ IH2].
        assert (None = Some (p, q)) by (apply IH2; tauto). done.
Qed.

Lemma strrchr_None s c : strrchr s c = None <-> ~ has_char c s.
Proof.
  induction s as [|a s IH]; simpl.
  - split; [intros _; apply has_char_nil | done].
  - rewrite has_char_cons. destruct (strrchr s c) as [[p q]|].
    + split; [done|]. intros H. exfalso. destruct IH as [_ IH].
      assert (~ has_char c s) as Hs by tauto. by specialize (IH Hs).
    + destruct (Ascii.eqb_spec a c) as [->|Hne].
      * split; [done|]. intros H. destruct H. by left.
      * split; [|done]. intros _ [?|?]; [done|]. by apply IH.
Qed.

Lemma strrchr_Some s c p q :
  strrchr s c = Some (p, q) <-> s = (p ++ String c q)%string /\ ~ has_char c q.
Proof.
  revert p q. induction s as [|a s IH]; intros p q; simpl.
  - split; [done|]. intros [H _]. by destruct p.
  - destruct (strrchr s c) as [[p' q']|] eqn:E.
    + destruct (IH p' q') as [IH1 _]. destruct (IH1 eq_refl) as [-> Hq']. split.
      * intros [= <- <-]. done.
      * intros [H Hq]. destruct p as [|b p]; rewrite ?append_nil_l, ?append_cons in H; simplify_eq.
        -- destruct Hq. by exists p', q'.
        -- destruct (IH p q) as [_ IH2].
           assert (Some (p', q') = Some (p, q)) as [= -> ->] by (apply IH2; tauto). done.
    + apply strrchr_None in E. destruct (Ascii.eqb_spec a c) as [->|Hne].
      * split.
        -- intros [= <- <-]. done.
        -- intros [H Hq]. destruct p as [|b p]; rewrite ?append_nil_l, ?append_cons in H; simplify_eq; [done|].
           destruct E. by exists p, q.
      * split; [done|]. intros [H Hq].
        destruct p as [|b p]; rewrite ?append_nil_l, ?append_cons in H; simplify_eq.
        destruct E. by exists p, q.
Qed.

Lemma is_quote_eqb c : Ascii.eqb c dquote || Ascii.eqb c squote = true <-> is_quote c.
Proof.
  unfold is_quote. rewrite orb_true_iff.
  by destruct (Ascii.eqb_spec c dquote), (Ascii.eqb_spec c squote); intuition.
Qed.

Lemma unquote_Some rest value : unquote rest = Some value <-> value_cut rest value.
Proof.
  unfold unquote, value_cut. destruct rest as [|c r].
  - split.
    + intros [= <-]. left. split; [done|]. intros c r H. discriminate.
    + intros [[<- _]|(q & tail & _ & H & _)]; [done | discriminate].
  - destruct (Ascii.eqb c dquote || Ascii.eqb c squote) eqn:Hq.
    + apply is_quote_eqb in Hq. destruct (strrchr r c) as [[body tail]|] eqn:E.
      * apply strrchr_Some in E as [-> Htail]. split.
        -- intros [= <-]. right. by exists c, tail.
        -- intros [[_ H]|(q & tail' & _ & H & Htail')]; [by destruct (H c _ eq_refl)|].
           injection H as <- H.
           assert (strrchr (body ++ String c tail)%string c = Some (value, tail')) as E
             by (by apply strrchr_Some).
           assert (strrchr (body ++ String c tail)%string c = Some (body, tail)) as E'
             by (by apply strrchr_Some).
           congruence.
      * apply strrchr_None in E. split; [done|].
        intros [[_ H]|(q & tail' & _ & H & Htail')]; [by destruct (H c _ eq_refl)|].
        injection H as <- ->. destruct E. by exists value, tail'.
    + assert (~ is_quote c) as Hnq by (rewrite <- is_quote_eqb; congruence). split.
      * intros [= <-]. left. split; [done|]. by intros c' r' [= <- <-].
      * intros [[<- _]|(q & tail & Hq' & H & _)]; [done|]. by injection H as <- _.
Qed.

Lemma unquote_None rest :
  unquote rest = None <->
  exists q body, rest = String q body /\ is_quote q /\ ~ has_char q body.
Proof.
  unfold unquote. destruct rest as [|c r].
  - split; [done|]. by intros (q & body & H & _).
  - destruct (Ascii.eqb c dquote || Ascii.eqb c squote) eqn:Hq.
    + apply is_quote_eqb in Hq. destruct (strrchr r c) as [[body tail]|] eqn:E.
      * split; [done|]. intros (q & body' & [= <- <-] & _ & Hn).
        apply strrchr_None in Hn. congruence.
      * apply strrchr_None in E. split; [|done]. intros _. by exists c, r.
    + assert (~ is_quote c) as Hnq by (rewrite <- is_quote_eqb; congruence).
      split; [done|]. by intros (q & body' & [= <- <-] & ? & _).
Qed.

(** C8, as the code has it: the parser accepts exactly the tokens with an
    '=' whose value, when it opens with a quote, holds that quote again;
    the name is the text before the first '=' and may be empty, the value
    is cut at the last occurrence of the opening quote. *)
Theorem parse_tag_string_correct tok h :
  (oracle h = [] ->
     (forall name value,
        (exists h', blkid_parse_tag_string (Some tok) h = Done (Some (name, value)) h') <->
        accepted tok name value) /\
     ((exists h', blkid_parse_tag_string (Some tok) h = Done None h') <->
      (~ has_char "=" tok \/
       exists name q body, tok = (name ++ String "=" (String q body))%string /\
         ~ has_char "=" name /\ is_quote q /\ ~ has_char q body))) /\
  (forall o, oracle h = true :: o \/ oracle h = false :: true :: o ->
     exists h', blkid_parse_tag_string (Some tok) h = Done None h') /\
  blkid_parse_tag_string None h = Done None h.
Proof.
  split_and!; [|  |done].
  - intros Ho. unfold blkid_parse_tag_string.
    destruct (strchr tok "=") as [[type rest]|] eqn:E.
    + apply strchr_Some in E as [-> Htype].
      step Ho.
      assert (Hsplit : forall name rest', (type ++ String "=" rest)%string = (name ++ String "=" rest')%string ->
                ~ has_char "=" name -> name = type /\ rest' = rest).
      { intros name rest' H Hn.
        assert (strchr (type ++ String "=" rest)%string "=" = Some (type, rest)) as E1
          by (by apply strchr_Some).
        assert (strchr (type ++ String "=" rest)%string "=" = Some (name, rest')) as E2
          by (by apply strchr_Some).
        rewrite E1 in E2. by injection E2 as -> ->. }
      destruct (unquote rest) as [body|] eqn:Eu.
      * step Ho. unfold ret. split.
        -- intros name value. split.
           ++ intros (h' & [= <- <- _]). exists rest. split; [done|]. split; [done|].
              by apply unquote_Some.
           ++ intros (rest' & H & Hn & Hcut). destruct (Hsplit _ _ H Hn) as [-> ->].
              apply unquote_Some in Hcut. rewrite Eu in Hcut. injection Hcut as ->. eauto.
        -- split; [by intros (h' & ?)|]. intros [Hno|(name & q & body' & H & Hn & Hq & Hb)].
           ++ destruct Hno. by exists type, rest.
           ++ destruct (Hsplit _ _ H Hn) as [-> Hr].
              assert (unquote rest = None) as Eu' by (apply unquote_None; eauto).
              congruence.
      * unfold ret. split.
        -- intros name value. split; [by intros (h' & ?)|].
           intros (rest' & H & Hn & Hcut). destruct (Hsplit _ _ H Hn) as [-> ->].
           apply unquote_Some in Hcut. congruence.
        -- split; [|eauto]. intros _. right.
           apply unquote_None in Eu as (q & body & -> & Hq & Hb). by exists type, q, body.
    + apply strchr_None in E. unfold ret. split.
      * intros name value. split; [by intros (h' & ?)|].
        intros (rest' & -> & _). destruct E. by exists name, rest'.
      * split; [|eauto]. intros _. by left.
  - intros o Ho. unfold blkid_parse_tag_string.
    destruct (strchr tok "=") as [[type rest]|]; [|unfold ret; eauto].
    unfold blkid_strdup, bind, malloc, ret.
    destruct Ho as [-> | ->]; simpl; [eauto|].
    destruct (unquote rest); simpl; eauto.
Qed.

(** C8, as stated, fails on a token with an empty name. *)
Lemma parse_tag_string_empty_name :
  blkid_parse_tag_string (Some "=x") sda1 = Done (Some ("", "x")) (bump 2 sda1) /\
  ~ spec_token "=x".
Proof.
  split; [done|].
  intros (name & value & H & Hlen & Hn & _).
  destruct name as [|a name]; [simpl in Hlen; lia|].
  rewrite append_cons in H. injection H as <- _.
  destruct Hn. apply has_char_cons. by left.
Qed.

Lemma parse_tag_string_correct_witness :
  accepted "LABEL='my disk'" "LABEL" "my disk" /\
  exists h', blkid_parse_tag_string (Some "LABEL='my disk'") sda1 = Done (Some ("LABEL", "my disk")) h'.
Proof.
  assert (accepted "LABEL='my disk'" "LABEL" "my disk") as Hacc.
  { exists "'my disk'". split; [done|]. split.
    - intros Hc. by apply strchr_None in Hc.
    - right. exists squote, "". split; [by right|]. split; [done|]. apply has_char_nil. }
  split; [done|].
  by apply (proj1 (parse_tag_string_correct "LABEL='my disk'" sda1) eq_refl).
Defined.


(** ** blkid_find_dev_with_tag *)

Section FindDev.
Variable blkid_probe_all : nat -> heap -> heap.
Variable blkid_verify_devname : nat -> option nat -> heap -> option nat * heap.

Lemma walk_bucket_step value p l acc h s :
  value_of h p = Some s -> (s = value -> is_Some (pri_of h p)) ->
  walk_bucket value (p :: l) acc h =
  if bool_decide (s = value) then
    match dev_of h p, pri_of h p with
    | Some d, Some pr =>
        if pr >? acc.2 then walk_bucket value l (Some p, Some d, pr) h
        else walk_bucket value l acc h
    | _, _ => Trap
    end
  else walk_bucket value l acc h.
Proof.
  intros (tg & a & Htg & Ha & Hs)%value_of_Some Hpri. simpl.
  rewrite (bind_done _ _ _ _ _ (get_tag_done _ _ _ Htg)).
  unfold bind at 1, deref at 1. rewrite Ha.
  rewrite (bind_done _ _ _ _ _ (get_str_done _ _ _ Hs)).
  case_bool_decide as Hsv; [|done].
  destruct (Hpri Hsv) as [pr Hpr]. rewrite Hpr.
  unfold pri_of, dev_of in *. rewrite Htg in *. simpl in *.
  destruct (bit_dev tg) as [d|]; [|done]. simpl in *.
  unfold bind at 1, deref at 1.
  destruct (devs h !! d) as [dv|] eqn:Hd; [|done]. simpl in Hpr. injection Hpr as <-.
  rewrite (bind_done _ _ _ _ _ (get_dev_done _ _ _ Hd)).
  by destruct (bid_pri dv >? acc.2).
Qed.

Lemma walk_bucket_spec value h l : forall acc,
  bucket_ok h value l ->
  exists acc', walk_bucket value l acc h = Done acc' h /\
    ((acc' = acc /\
      forall p q, p ∈ l -> value_of h p = Some value -> pri_of h p = Some q -> q <= acc.2) \/
     (exists t d pr, acc' = (Some t, Some d, pr) /\ acc.2 < pr /\
        best_match h value l t d pr)).
Proof.
  induction l as [|p l IH]; intros acc Hok.
  - exists acc. split; [done|]. left. split; [done|]. intros p q Hp. by apply elem_of_nil in Hp.
  - destruct (Hok p) as (s & Hs & Hpri); [by left|].
    assert (Hok' : bucket_ok h value l) by (intros x Hx; apply Hok; by right).
    rewrite (walk_bucket_step _ _ _ _ _ _ Hs Hpri).
    case_bool_decide as Hsv.
    + subst s. destruct (Hpri eq_refl) as [pr Hpr]. rewrite Hpr.
      assert (exists d, dev_of h p = Some d) as [d Hd].
      { unfold pri_of, dev_of in *. destruct (tags h !! p) as [tg|]; [|done]. simpl in *.
        destruct (bit_dev tg); [eauto|done]. }
      rewrite Hd. destruct (Z.gtb_spec pr acc.2) as [Hgt|Hle].
      * destruct (IH (Some p, Some d, pr) Hok') as (acc' & Hrun & Hres).
        exists acc'. split; [done|]. right.
        destruct Hres as [[-> Hall]|(t & d' & pr' & -> & Hlt & Hbest)].
        -- exists p, d, pr. split; [done|]. split; [lia|].
           exists [], l. split_and!; try done.
           intros x q Hx. by apply elem_of_nil in Hx.
        -- exists t, d', pr'. split; [done|]. simpl in Hlt. split; [lia|].
           destruct Hbest as (l1 & l2 & -> & Hv & Hd' & Hp' & H1 & H2).
           exists (p :: l1), l2. split_and!; try done.
           intros x q [->|Hx]%elem_of_cons Hxv Hxq; [|by eapply H1].
           rewrite Hpr in Hxq. injection Hxq as <-. lia.
      * destruct (IH acc Hok') as (acc' & Hrun & Hres).
        exists acc'. split; [done|].
        destruct Hres as [[-> Hall]|(t & d' & pr' & -> & Hlt & Hbest)].
        -- left. split; [done|].
           intros x q [->|Hx]%elem_of_cons Hxv Hxq; [|by eapply Hall].
           rewrite Hpr in Hxq. injection Hxq as <-. lia.
        -- right. exists t, d', pr'. split; [done|]. split; [done|].
           destruct Hbest as (l1 & l2 & -> & Hv & Hd' & Hp' & H1 & H2).
           exists (p :: l1), l2. split_and!; try done.
           intros x q [->|Hx]%elem_of_cons Hxv Hxq; [|by eapply H1].
           rewrite Hpr in Hxq. injection Hxq as <-. lia.
    + destruct (IH acc Hok') as (acc' & Hrun & Hres).
      exists acc'. split; [done|].
      destruct Hres as [[-> Hall]|(t & d' & pr' & -> & Hlt & Hbest)].
      * left. split; [done|].
        intros x q [->|Hx]%elem_of_cons Hxv Hxq; [congruence|by eapply Hall].
      * right. exists t, d', pr'. split; [done|]. split; [done|].
        destruct Hbest as (l1 & l2 & -> & Hv & Hd' & Hp' & H1 & H2).
        exists (p :: l1), l2. split_and!; try done.
        intros x q [->|Hx]%elem_of_cons Hxv Hxq; [congruence|by eapply H1].
Qed.

(** The loops of the search read the memory and end. *)
Lemma ends_ret {A} (a : A) : ends (ret a).
Proof. done. Qed.
Lemma ends_bind {A B} (m : M A) (k : A -> M B) :
  ends m -> (forall a, ends (k a)) -> ends (bind m k).
Proof.
  intros Hm Hk h. unfold bind. specialize (Hm h).
  destruct (m h) as [a h'| |]; [apply Hk|done|done].
Qed.
Lemma ends_load {A} (f : heap -> option A) : ends (load f).
Proof. intros h. unfold load. by destruct (f h). Qed.
Lemma ends_deref {A} (p : option A) : ends (deref p).
Proof. intros h. unfold deref. by destruct p. Qed.

Lemma first_named_ends ty l : ends (first_named ty l).
Proof.
  induction l as [|p l IH]; [apply ends_ret|]. simpl.
  apply ends_bind; [apply ends_load|]. intros tg.
  apply ends_bind; [apply ends_deref|]. intros n.
  case_bool_decide; [apply ends_ret|done].
Qed.

Lemma walk_bucket_ends value l : forall acc, ends (walk_bucket value l acc).
Proof.
  induction l as [|p l IH]; intros acc; [apply ends_ret|]. simpl.
  apply ends_bind; [apply ends_load|]. intros tg.
  apply ends_bind; [apply ends_deref|]. intros a.
  apply ends_bind; [apply ends_load|]. intros s.
  case_bool_decide; [|done].
  apply ends_bind; [apply ends_deref|]. intros d.
  apply ends_bind; [apply ends_load|]. intros dv.
  by destruct (bid_pri dv >? acc.2).
Qed.

Lemma walk_bucket_pure value l h : forall acc r h',
  walk_bucket value l acc h = Done r h' -> h' = h.
Proof.
  induction l as [|p l IH]; intros acc r h' H; [by injection H as _ ->|].
  simpl in H.
  inv_bind H as tg h2 E. apply get_tag_inv in E as [_ ->].
  inv_bind H as a h2 E. apply deref_inv in E as [_ ->].
  inv_bind H as s h2 E. apply get_str_inv in E as [_ ->].
  case_bool_decide; [|by eapply IH].
  inv_bind H as d h2 E. apply deref_inv in E as [_ ->].
  inv_bind H as dv h2 E. apply get_dev_inv in E as [_ ->].
  destruct (bid_pri dv >? acc.2); by eapply IH.
Qed.

Lemma search_pass_inv c ty v dev h r h1 :
  search_pass blkid_verify_devname c ty v dev h = Done r h1 ->
  is_Some (caches h !! c) /\ exists d0, h1 = (blkid_verify_devname c d0 h).2.
Proof.
  unfold search_pass. intros H.
  inv_bind H as head h2 E. unfold blkid_find_head_cache in E.
  inv_bind E as cc h3 E1. apply get_cache_inv in E1 as [Hcc ->].
  apply first_named_inv in E as [-> _]. split; [eauto|].
  inv_bind H as sel h2 E.
  assert (h2 = h) as ->.
  { destruct head as [hd|].
    - inv_bind E as htg h3 E1. apply get_tag_inv in E1 as [_ ->].
      by apply walk_bucket_pure in E.
    - by injection E as _ ->. }
  inv_bind H as dev1 h2 E0. exists sel.1.2.
  destruct (blkid_verify_devname c sel.1.2 h) as [d' h'] eqn:Ev. injection E0 as <- <-.
  inv_bind H as dev2 h3 E1. injection H as _ <-. simpl.
  destruct d' as [d'|]; [|by injection E1 as _ ->].
  inv_bind E1 as ft h4 E2. apply deref_inv in E2 as [_ ->].
  inv_bind E1 as tg h4 E2. apply get_tag_inv in E2 as [_ ->].
  inv_bind E1 as a h4 E2. apply deref_inv in E2 as [_ ->].
  inv_bind E1 as s h4 E2. apply get_str_inv in E2 as [_ ->].
  by case_bool_decide; injection E1 as _ ->.
Qed.

Lemma search_pass_ends c ty v dev :
  ends (search_pass blkid_verify_devname c ty v dev).
Proof.
  unfold search_pass.
  apply ends_bind.
  { unfold blkid_find_head_cache. apply ends_bind; [apply ends_load|].
    intros cc. apply first_named_ends. }
  intros head. apply ends_bind.
  { destruct head; [|apply ends_ret]. apply ends_bind; [apply ends_load|].
    intros htg. apply walk_bucket_ends. }
  intros sel. apply ends_bind.
  { intros h. by destruct (blkid_verify_devname c sel.1.2 h). }
  intros dev1. apply ends_bind; [|intros; apply ends_ret].
  destruct dev1; [|apply ends_ret].
  apply ends_bind; [apply ends_deref|]. intros ft.
  apply ends_bind; [apply ends_load|]. intros tg.
  apply ends_bind; [apply ends_deref|]. intros a.
  apply ends_bind; [apply ends_load|]. intros s.
  case_bool_decide; apply ends_ret.
Qed.

(** *** The retry *)

Section Retry.
Hypothesis probe_sets_probed : forall c h cc,
  caches (blkid_probe_all c h) !! c = Some cc ->
  flag_set (bic_flags cc) BLKID_BIC_FL_PROBED = true.
Hypothesis verify_keeps_probed : forall c d h cc,
  probed h c -> caches (blkid_verify_devname c d h).2 !! c = Some cc ->
  flag_set (bic_flags cc) BLKID_BIC_FL_PROBED = true.

(** A pass over a probed cache is the last one. *)
Lemma last_pass fuel c ty v dev n h :
  (forall cc, caches h !! c = Some cc ->
              flag_set (bic_flags cc) BLKID_BIC_FL_PROBED = true) ->
  find_dev_try_again blkid_probe_all blkid_verify_devname (S fuel) c ty v dev n h = Trap \/
  exists r h', find_dev_try_again blkid_probe_all blkid_verify_devname (S fuel) c ty v dev n h = Done (r, n) h'.
Proof.
  intros Hp. cbn [find_dev_try_again].
  pose proof (search_pass_ends c ty v dev h) as He.
  destruct (search_pass blkid_verify_devname c ty v dev h) as [r h1| |] eqn:E;
    [|left; unfold bind; by rewrite E|done].
  rewrite (bind_done _ _ _ _ _ E).
  apply search_pass_inv in E as [[cc Hcc] [d0 ->]].
  destruct (caches (blkid_verify_devname c d0 h).2 !! c) as [cc1|] eqn:Hcc1.
  - rewrite (bind_done _ _ _ _ _ (get_cache_done _ _ _ Hcc1)).
    rewrite (verify_keeps_probed c d0 h cc1); [|exists cc; eauto|done].
    rewrite andb_false_r. right. by eexists _, _.
  - left. unfold bind, get_cache, load. by rewrite Hcc1.
Qed.

Lemma two_passes fuel c ty v dev h :
  find_dev_try_again blkid_probe_all blkid_verify_devname (S (S fuel)) c ty v dev 0 h = Trap \/
  exists r n h', find_dev_try_again blkid_probe_all blkid_verify_devname (S (S fuel)) c ty v dev 0 h = Done (r, n) h' /\ (n <= 1)%nat.
Proof.
  cbn [find_dev_try_again].
  pose proof (search_pass_ends c ty v dev h) as He.
  destruct (search_pass blkid_verify_devname c ty v dev h) as [r h1| |] eqn:E;
    [|left; unfold bind; by rewrite E|done].
  rewrite (bind_done _ _ _ _ _ E).
  destruct (caches h1 !! c) as [cc1|] eqn:Hcc1.
  - rewrite (bind_done _ _ _ _ _ (get_cache_done _ _ _ Hcc1)).
    destruct (_ && _).
    + unfold bind at 1.
      destruct (last_pass fuel c ty v r.2 1 (blkid_probe_all c h1)) as [Ht|(r' & h' & Hd)].
      * apply probe_sets_probed.
      * by left.
      * right. exists r', 1%nat, h'. split; [done|lia].
    + right. exists r.2, 0%nat, h1. split; [done|lia].
  - left. unfold bind, get_cache, load. by rewrite Hcc1.
Qed.

(** C6: a call of [blkid_find_dev_with_tag] comes back after at most
    two passes, so with at most one full probe; it makes none when
    the cache is probed already, and none when the first pass finds
    a head and a device. *)
Theorem find_dev_probes_once fuel dev_entry cache type value h :
  (2 <= fuel)%nat ->
  let run := blkid_find_dev_with_tag blkid_probe_all blkid_verify_devname
               fuel dev_entry cache type value h in
  run <> Diverge /\
  (forall r n h', run = Done (r, n) h' -> (n <= 1)%nat) /\
  (forall c r n h', cache = Some c -> probed h c -> run = Done (r, n) h' -> n = 0%nat) /\
  (forall c ty v hd d h1 r n h',
     cache = Some c -> type = Some ty -> value = Some v ->
     search_pass blkid_verify_devname c ty v dev_entry h = Done (Some hd, Some d) h1 ->
     run = Done (r, n) h' -> n = 0%nat /\ r = Some d /\ h' = h1).
Proof.
  intros Hfuel run. subst run. unfold blkid_find_dev_with_tag.
  assert (Hnull : forall hh : heap,
    let run : outcome (option nat * nat) := Done (None, 0%nat) hh in
    run <> Diverge /\
    (forall r n h', run = Done (r, n) h' -> (n <= 1)%nat) /\
    (forall (c : nat) (r : option nat) n h', probed h c -> run = Done (r, n) h' -> n = 0%nat)).
  { intros hh run. subst run. split_and!; [done| |].
    - intros r n h' H. injection H as _ <- _. lia.
    - intros c r n h' _ H. by injection H as _ <- _. }
  destruct cache as [c|]; [|destruct (Hnull h) as (?&?&?); split_and!; eauto; done].
  destruct type as [ty|]; [|destruct (Hnull h) as (?&?&?); split_and!; eauto; done].
  destruct value as [v|]; [|destruct (Hnull h) as (?&?&?); split_and!; eauto; done].
  destruct fuel as [|[|fuel]]; [lia|lia|].
  split_and!.
  - destruct (two_passes fuel c ty v dev_entry h) as [Ht|(r & n & h' & Hd & _)];
      congruence.
  - intros r n h' H.
    destruct (two_passes fuel c ty v dev_entry h) as [Ht|(r' & n' & h'' & Hd & Hn)];
      [congruence|]. rewrite Hd in H. by injection H as _ <- _.
  - intros c' r n h' [= <-] Hp H.
    destruct (last_pass (S fuel) c ty v dev_entry 0 h) as [Ht|(r' & h'' & Hd)].
    + intros cc Hcc. destruct Hp as (cc' & Hcc' & Hfl). congruence.
    + congruence.
    + rewrite Hd in H. by injection H as _ <- _.
  - intros c' ty' v' hd d h1 r n h' [= <-] [= <-] [= <-] Hpass H.
    cbn [find_dev_try_again] in H. rewrite (bind_done _ _ _ _ _ Hpass) in H.
    inv_bind H as cc h2 E. apply get_cache_inv in E as [_ ->].
    simpl in H. by injection H as <- <- <-.
Qed.
End Retry.

(** *** The choice *)

(** C1, as the code has it: when the bucket of the type holds a tag
    with the value on a device of priority above -1 and the verifier
    confirms the device it is handed, the search returns, without a
    probe, the device of the first tag of the bucket that has the
    value and the highest priority. *)
Theorem find_dev_highest_priority fuel dev_entry c ty v h cc hd htg :
  caches h !! c = Some cc ->
  first_named ty (bic_tags cc) h = Done (Some hd) h ->
  tags h !! hd = Some htg ->
  bucket_ok h v (bit_names htg) ->
  (exists p q, p ∈ bit_names htg /\ value_of h p = Some v /\ pri_of h p = Some q /\ -1 < q) ->
  (forall d, blkid_verify_devname c (Some d) h = (Some d, h)) ->
  (0 < fuel)%nat ->
  exists t d pr,
    blkid_find_dev_with_tag blkid_probe_all blkid_verify_devname
      fuel dev_entry (Some c) (Some ty) (Some v) h = Done (Some d, 0%nat) h /\
    best_match h v (bit_names htg) t d pr.
Proof.
  intros Hcc Hhd Hhtg Hok (p & q & Hp & Hpv & Hpq & Hq) Hver Hfuel.
  destruct fuel as [|fuel]; [lia|].
  destruct (walk_bucket_spec v h (bit_names htg) (None, dev_entry, -1) Hok)
    as (acc' & Hwalk & [[-> Hall]|(t & d & pr & -> & Hlt & Hbest)]).
  { specialize (Hall p q Hp Hpv Hpq). simpl in Hall. lia. }
  exists t, d, pr. split; [|done].
  unfold blkid_find_dev_with_tag. cbn [find_dev_try_again].
  rewrite (bind_done _ _ h (Some hd, Some d) h).
  - rewrite (bind_done _ _ _ _ _ (get_cache_done _ _ _ Hcc)). done.
  - unfold search_pass, blkid_find_head_cache.
    rewrite (bind_done _ _ h (Some hd) h)
      by (by rewrite (bind_done _ _ _ _ _ (get_cache_done _ _ _ Hcc))).
    rewrite (bind_done _ _ h (Some t, Some d, pr) h)
      by (by rewrite (bind_done _ _ _ _ _ (get_tag_done _ _ _ Hhtg))).
    unfold bind at 1. simpl. rewrite Hver.
    destruct Hbest as (l1 & l2 & _ & (tg & a & Htg & Ha & Hs)%value_of_Some & _).
    rewrite (bind_done _ _ h (Some d) h); [done|].
    unfold bind at 1, deref at 1.
    rewrite (bind_done _ _ _ _ _ (get_tag_done _ _ _ Htg)).
    unfold bind at 1, deref at 1. rewrite Ha.
    rewrite (bind_done _ _ _ _ _ (get_str_done _ _ _ Hs)).
    by rewrite bool_decide_true.
Qed.
End FindDev.

Lemma probe_nothing_sets_probed c h cc :
  caches (probe_nothing c h) !! c = Some cc ->
  flag_set (bic_flags cc) BLKID_BIC_FL_PROBED = true.
Proof.
  unfold probe_nothing. simpl. rewrite lookup_fmap.
  destruct (caches h !! c) as [cc0|]; [|done]. intros [= <-]. simpl.
  by apply flag_set_lor.
Qed.

Lemma verify_confirms_keeps_probed c (d : option nat) h cc :
  probed h c -> caches (verify_confirms c d h).2 !! c = Some cc ->
  flag_set (bic_flags cc) BLKID_BIC_FL_PROBED = true.
Proof. intros (cc' & Hcc & Hf) H. simpl in H. congruence. Qed.

Lemma find_dev_probes_once_witness :
  let run := blkid_find_dev_with_tag probe_nothing verify_confirms
               2 None (Some 2%nat) (Some "LABEL") (Some "root") fresh_index in
  run = Done (None, 1%nat) (probe_nothing 2 fresh_index) /\
  run <> Diverge /\
  (forall r n h', run = Done (r, n) h' -> (n <= 1)%nat).
Proof.
  split; [reflexivity|].
  pose proof (find_dev_probes_once probe_nothing verify_confirms
                probe_nothing_sets_probed verify_confirms_keeps_probed
                2 None (Some 2%nat) (Some "LABEL") (Some "root") fresh_index
                (le_n 2)) as (H1 & H2 & _).
  split; [exact H1 | exact H2].
Defined.

Lemma find_dev_highest_priority_witness :
  exists t d pr,
    blkid_find_dev_with_tag probe_nothing verify_confirms 1 None
      (Some 2%nat) (Some "UUID") (Some "abc") two_uuids = Done (Some d, 0%nat) two_uuids /\
    best_match two_uuids "abc" [10%nat; 11%nat] t d pr.
Proof.
  apply (find_dev_highest_priority probe_nothing verify_confirms 1 None 2 "UUID" "abc"
           two_uuids (mk_cache [12%nat] BLKID_BIC_FL_PROBED) 12
           (mk_tag [10%nat; 11%nat] (Some "UUID") None None)).
  - reflexivity.
  - reflexivity.
  - reflexivity.
  - intros p Hp. exists "abc".
    apply elem_of_cons in Hp as [->|Hp]; [split; [reflexivity|]; intros _; by eexists|].
    apply list_elem_of_singleton in Hp as ->. split; [reflexivity|]. intros _. by eexists.
  - exists 11%nat, 2. split; [right; left|]. split; [reflexivity|]. split; [reflexivity|lia].
  - reflexivity.
  - lia.
Defined.

(** C1, as stated, fails.  A tag on a device of priority -1 is never
    chosen.  When the verifier rejects the device chosen, the call
    returns null although another device of the cache carries the tag,
    before and after the call.  And with no match the call reads the
    local [dev] that was never set: a stale pointer in it is handed to
    the verifier and [found], which is null, is read through. *)
Lemma find_dev_not_always_highest :
  (bucket low_priority 2 "UUID" = Some [10%nat] /\
   value_of low_priority 10 = Some "abc" /\ dev_of low_priority 10 = Some 0%nat /\
   blkid_find_dev_with_tag probe_nothing verify_confirms 2 None
     (Some 2%nat) (Some "UUID") (Some "abc") low_priority = Done (None, 0%nat) low_priority) /\
  (bucket two_uuids 2 "UUID" = Some [10%nat; 11%nat] /\
   value_of two_uuids 10 = Some "abc" /\ dev_of two_uuids 10 = Some 0%nat /\
   blkid_find_dev_with_tag probe_nothing verify_gone 2 None
     (Some 2%nat) (Some "UUID") (Some "abc") two_uuids
   = Done (None, 0%nat) (drop_dev 1 two_uuids) /\
   bucket (drop_dev 1 two_uuids) 2 "UUID" = Some [10%nat] /\
   value_of (drop_dev 1 two_uuids) 10 = Some "abc" /\
   dev_of (drop_dev 1 two_uuids) 10 = Some 0%nat /\
   is_Some (devs (drop_dev 1 two_uuids) !! 0%nat)) /\
  (probed two_uuids 2 /\
   blkid_find_dev_with_tag probe_nothing verify_confirms 2 (Some 0%nat)
     (Some 2%nat) (Some "UUID") (Some "xyz") two_uuids = Trap).
Proof.
  split_and!; try (vm_compute; reflexivity).
  - by eexists.
  - eexists. split; reflexivity.
Qed.

(** * Further properties *)

(** ** The tag iterator *)

Lemma ring_next_at d l1 t l2 :
  t ∉ l1 -> ring_next d (l1 ++ t :: l2) t = Some (ring_first d l2).
Proof.
  induction l1 as [|x l1 IH]; intros Hn; simpl.
  - by rewrite decide_True.
  - rewrite decide_False by (intros ->; apply Hn; by left).
    apply IH. intros Hin. apply Hn. by right.
Qed.

(** One call with the cursor on a tag of the ring. *)
Lemma tag_next_step h d dv l1 t l2 tg :
  devs h !! d = Some dv -> bid_tags dv = l1 ++ t :: l2 -> t ∉ l1 ->
  tags h !! t = Some tg ->
  blkid_tag_next (Some (mk_iter TAG_ITERATE_MAGIC (Some d) (bit_tags_of t))) h =
  Done (0, bit_name tg, bit_val tg,
        Some (mk_iter TAG_ITERATE_MAGIC (Some d) (ring_first d l2))) h.
Proof.
  intros Hd Hl Hn Ht. unfold blkid_tag_next. cbn [magic dev p].
  rewrite Z.eqb_refl. cbn [negb]. unfold bind at 1, deref at 1.
  rewrite (bind_done _ _ _ _ _ (get_tag_done _ _ _ Ht)).
  rewrite (bind_done _ _ _ _ _ (get_dev_done _ _ _ Hd)).
  rewrite Hl, ring_next_at by done. done.
Qed.

(** One call with the cursor back on the anchor. *)
Lemma tag_next_end h d :
  blkid_tag_next (Some (mk_iter TAG_ITERATE_MAGIC (Some d) (bid_tags_of d))) h =
  Done (-1, None, None, Some (mk_iter TAG_ITERATE_MAGIC (Some d) (bid_tags_of d))) h.
Proof.
  unfold blkid_tag_next. cbn [magic dev p]. rewrite Z.eqb_refl. cbn [negb].
  unfold bind, deref. by rewrite decide_True.
Qed.

(** The loop from a cursor at the start of [l2] reports the tags of
    [l2], in order, and stops on the anchor. *)
Lemma tag_next_loop_from h d dv : forall l2 l1 n,
  devs h !! d = Some dv -> bid_tags dv = l1 ++ l2 -> NoDup (bid_tags dv) ->
  (forall t, t ∈ l2 -> is_Some (tags h !! t)) ->
  (length l2 < n)%nat ->
  tag_next_loop n (Some (mk_iter TAG_ITERATE_MAGIC (Some d) (ring_first d l2))) h =
  Done (map (tag_fields h) l2,
        Some (mk_iter TAG_ITERATE_MAGIC (Some d) (bid_tags_of d))) h.
Proof.
  induction l2 as [|t l2 IH]; intros l1 n Hd Hl Hnd Hex Hn.
  - destruct n as [|n]; [simpl in Hn; lia|]. simpl tag_next_loop.
    simpl ring_first. by rewrite (bind_done _ _ _ _ _ (tag_next_end h d)).
  - destruct n as [|n]; [simpl in Hn; lia|]. simpl tag_next_loop. simpl ring_first.
    destruct (Hex t) as [tg Htg]; [by left|].
    assert (Hnot : t ∉ l1).
    { rewrite Hl in Hnd. apply NoDup_app in Hnd as (_ & Hdis & _).
      intros Hin. apply (Hdis t Hin). by left. }
    rewrite (bind_done _ _ _ _ _ (tag_next_step h d dv l1 t l2 tg Hd Hl Hnot Htg)).
    simpl.
    rewrite (bind_done _ _ _ _ _ (IH (l1 ++ [t]) n Hd ltac:(by rewrite <- app_assoc) Hnd
               ltac:(intros x Hx; apply Hex; by right) ltac:(simpl in Hn; lia))).
    unfold ret. simpl. unfold tag_fields at 2. by rewrite Htg.
Qed.

(** X1: an iterator begun on a device reports the tags of the device in
    the order of its list, each with its name and value pointer, and
    then keeps answering -1. *)
Theorem tag_iterate_in_order h d dv n :
  devs h !! d = Some dv -> NoDup (bid_tags dv) ->
  (forall t, t ∈ bid_tags dv -> is_Some (tags h !! t)) ->
  oracle h = [] -> (length (bid_tags dv) < n)%nat ->
  exists it,
    blkid_tag_iterate_begin (Some d) h = Done (Some it) (bump 1 h) /\
    tag_next_loop n (Some it) (bump 1 h) =
      Done (map (tag_fields h) (bid_tags dv),
            Some (mk_iter TAG_ITERATE_MAGIC (Some d) (bid_tags_of d))) (bump 1 h) /\
    blkid_tag_next (Some (mk_iter TAG_ITERATE_MAGIC (Some d) (bid_tags_of d))) (bump 1 h) =
      Done (-1, None, None, Some (mk_iter TAG_ITERATE_MAGIC (Some d) (bid_tags_of d)))
           (bump 1 h).
Proof.
  intros Hd Hnd Hex Ho Hn. eexists. split_and!.
  - unfold blkid_tag_iterate_begin.
    rewrite (bind_done _ _ _ _ _ (malloc_ok h Ho)).
    unfold bind at 1, deref at 1.
    assert (Hd' : devs (bump 1 h) !! d = Some dv) by done.
    rewrite (bind_done _ _ _ _ _ (get_dev_done _ _ _ Hd')). done.
  - apply (tag_next_loop_from (bump 1 h) d dv (bid_tags dv) [] n); try done.
  - apply tag_next_end.
Qed.

Lemma tag_iterate_in_order_witness :
  exists it,
    blkid_tag_iterate_begin (Some 0%nat) sda1_two_types = Done (Some it) (bump 1 sda1_two_types) /\
    tag_next_loop 3 (Some it) (bump 1 sda1_two_types) =
      Done (map (tag_fields sda1_two_types) [3%nat; 8%nat],
            Some (mk_iter TAG_ITERATE_MAGIC (Some 0%nat) (bid_tags_of 0)))
           (bump 1 sda1_two_types) /\
    blkid_tag_next (Some (mk_iter TAG_ITERATE_MAGIC (Some 0%nat) (bid_tags_of 0)))
      (bump 1 sda1_two_types) =
      Done (-1, None, None, Some (mk_iter TAG_ITERATE_MAGIC (Some 0%nat) (bid_tags_of 0)))
           (bump 1 sda1_two_types).
Proof.
  apply (tag_iterate_in_order sda1_two_types 0
           (mk_dev [3%nat; 8%nat] (Some 1%nat) (Some 2%nat) None None 0 BLKID_BID_FL_MTYPE) 3).
  - reflexivity.
  - apply NoDup_cons. split; [|apply NoDup_singleton].
    intros Hin. apply list_elem_of_singleton in Hin. discriminate.
  - intros t Ht. apply elem_of_cons in Ht as [->|Ht]; [by eexists|].
    apply list_elem_of_singleton in Ht as ->. by eexists.
  - reflexivity.
  - simpl. lia.
Defined.

(** X2: once the tag under the cursor is freed, the next call reads
    freed storage. *)
Theorem tag_next_after_free h h' it t :
  p it = bit_tags_of t -> magic it = TAG_ITERATE_MAGIC -> is_Some (dev it) ->
  blkid_free_tag (Some t) h = Done tt h' ->
  blkid_tag_next (Some it) h' = Trap.
Proof.
  intros Hp Hm [d Hd] Hfree.
  destruct (tags h !! t) as [tg|] eqn:Htg.
  - rewrite (free_tag_done _ _ _ Htg) in Hfree. injection Hfree as <-.
    unfold blkid_tag_next. rewrite Hm, Z.eqb_refl, Hd, Hp. cbn [negb].
    unfold bind, deref, get_tag, load. cbn [tags]. by rewrite lookup_delete_eq.
  - unfold blkid_free_tag, bind, get_tag, load in Hfree. by rewrite Htg in Hfree.
Qed.

(** ** More on blkid_set_tag *)

(** The memory once the value is copied. *)
Lemma set_tag_new_run fuel d dv name value vlength replace h :
  devs h !! d = Some dv -> oracle h = [] -> fresh h -> cache_ok h dv ->
  none_named h name (bid_tags dv) ->
  exists h2 h',
    devs h2 = devs h /\ tags h2 = tags h /\ caches h2 = caches h /\
    strs h2 = <[brk h := strn value vlength]> (strs h) /\ brk h2 = S (brk h) /\
    oracle h2 = [] /\ fresh h2 /\
    set_tag_repeat (S fuel) d name (Some value) vlength replace h = Done OK h' /\
    add_tag d name (brk h) h2 = Done OK h'.
Proof.
  intros Hd Ho Hf Hc Hnone.
  rewrite set_tag_repeat_insert.
  rewrite (bind_done _ _ _ _ _ (find_tag_dev_done _ _ _ _ _ Hd (first_named_none _ _ _ Hnone))).
  step Ho.
  match goal with |- context [add_tag d name (brk h) ?hh] => set (h2 := hh) end.
  assert (Hf2 : fresh h2).
  { intros k Hk. subst h2. heap_simpl. heap_simpl_in Hk.
    rewrite lookup_insert_ne by lia. apply Hf. lia. }
  destruct (add_tag_total d name (brk h) h2 dv Hd Ho Hf2) as (r & h' & Hrun).
  { intros c Hbc. destruct (Hc c Hbc) as (cc & ? & ?). exists cc. done. }
  destruct (add_tag_post _ _ _ _ _ _ Hrun Ho Hf2) as (-> & _).
  exists h2, h'. by split_and!.
Qed.

(** X3: a tag set under a name the device does not carry yet is the one
    [blkid_find_tag_dev] returns for that name afterwards, with the
    value given; what a lookup of another name returns is unchanged. *)
Theorem set_tag_then_find fuel d dv name value vlength replace h :
  devs h !! d = Some dv -> oracle h = [] -> fresh h -> cache_ok h dv ->
  none_named h name (bid_tags dv) ->
  exists h' t,
    blkid_set_tag (S fuel) (Some d) (Some name) (Some value) vlength replace h = Done OK h' /\
    blkid_find_tag_dev (Some d) (Some name) h' = Done (Some t) h' /\
    value_of h' t = Some (strn value vlength) /\
    forall n r, n <> name ->
      blkid_find_tag_dev (Some d) (Some n) h = Done r h ->
      blkid_find_tag_dev (Some d) (Some n) h' = Done r h'.
Proof.
  intros Hd Ho Hf Hc Hnone.
  destruct (set_tag_new_run fuel d dv name value vlength replace h Hd Ho Hf Hc Hnone)
    as (h2 & h' & E1 & E2 & E3 & E4 & E5 & Ho2 & Hf2 & Hrun & Hadd).
  destruct (add_tag_post _ _ _ _ _ _ Hadd Ho2 Hf2) as (_ & Htadd & _).
  destruct Htadd as (dv2 & dv' & Hd2 & Hd' & A3 & A4 & A5 & A6 & A7 & A8 & A9 & A10 & _).
  rewrite E1, Hd in Hd2. injection Hd2 as <-.
  destruct A8 as (tg & Htg & Hn & Hv & _).
  assert (Hkeep : forall p n, name_of h p = Some n -> name_of h' p = Some n).
  { intros p n (tgp & Htgp & Hpn)%name_of_Some. apply name_of_Some.
    rewrite <- E2 in Htgp. destruct (A9 p tgp Htgp) as (tg' & Hp' & Hn' & _).
    exists tg'. split; [done|]. congruence. }
  assert (Hnew : name_of h' (brk h2) = Some name) by (apply name_of_Some; eauto).
  exists h', (brk h2). split; [done|]. split_and!.
  - eapply find_tag_dev_done; [done|]. rewrite A4. apply first_named_some; [|done].
    intros p Hp. destruct (Hnone p Hp) as (n & Hpn & Hne). exists n. split; [by apply Hkeep|done].
  - apply value_of_Some. exists tg, (brk h). split; [done|]. split; [done|].
    rewrite A10, E4. apply lookup_insert_eq.
  - intros n r Hne Hfind. unfold blkid_find_tag_dev in Hfind.
    inv_bind Hfind as dv0 h0 E. apply get_dev_inv in E as [Hd0 ->].
    rewrite Hd in Hd0. injection Hd0 as <-.
    apply first_named_inv in Hfind as [_ Hr].
    eapply find_tag_dev_done; [done|]. rewrite A4. destruct r as [x|].
    + destruct Hr as (l1 & l2 & -> & Hx & Hl1). rewrite <- app_assoc. simpl.
      apply first_named_some; [|by apply Hkeep].
      intros p Hp. destruct (Hl1 p Hp) as (n' & Hpn & Hne'). exists n'.
      split; [by apply Hkeep|done].
    + apply first_named_none. intros p [Hp|Hp]%elem_of_app.
      * destruct (Hr p Hp) as (n' & Hpn & Hne'). exists n'. split; [by apply Hkeep|done].
      * apply list_elem_of_singleton in Hp as ->. exists name. split; [done|congruence].
Qed.

Lemma set_tag_then_find_witness :
  exists h' t,
    blkid_set_tag 1 (Some 0%nat) (Some "LABEL") (Some "home") 4 false sda1_ext4 = Done OK h' /\
    blkid_find_tag_dev (Some 0%nat) (Some "LABEL") h' = Done (Some t) h' /\
    value_of h' t = Some (strn "home" 4) /\
    forall n r, n <> "LABEL" ->
      blkid_find_tag_dev (Some 0%nat) (Some n) sda1_ext4 = Done r sda1_ext4 ->
      blkid_find_tag_dev (Some 0%nat) (Some n) h' = Done r h'.
Proof.
  apply (set_tag_then_find 0 0 (mk_dev [3%nat] (Some 1%nat) (Some 2%nat) None None 0 0)
           "LABEL" "home" 4 false sda1_ext4).
  - reflexivity.
  - reflexivity.
  - apply fresh_check; vm_compute; reflexivity.
  - apply sda1_ext4_cache_ok.
  - intros p Hp. apply list_elem_of_singleton in Hp as ->. exists "TYPE".
    split; [reflexivity|discriminate].
Defined.

(** X4: after a tag of a new name is set, the LABEL and UUID shortcuts
    read the value set, the TYPE shortcut reads it when it was null and
    is left alone otherwise, a name that is none of the three changes no
    shortcut, and the cache of the device is marked as changed. *)
Theorem set_tag_links_shortcut fuel d dv name value vlength replace h :
  devs h !! d = Some dv -> oracle h = [] -> fresh h -> cache_ok h dv ->
  none_named h name (bid_tags dv) ->
  exists h' dv',
    blkid_set_tag (S fuel) (Some d) (Some name) (Some value) vlength replace h = Done OK h' /\
    devs h' !! d = Some dv' /\
    (name = "LABEL" -> shortcut h' (bid_label dv') = Some (strn value vlength)) /\
    (name = "UUID" -> shortcut h' (bid_uuid dv') = Some (strn value vlength)) /\
    (name = "TYPE" -> bid_type dv = None ->
       shortcut h' (bid_type dv') = Some (strn value vlength)) /\
    (name = "TYPE" -> is_Some (bid_type dv) -> bid_type dv' = bid_type dv) /\
    (name <> "TYPE" -> bid_type dv' = bid_type dv) /\
    (name <> "LABEL" -> bid_label dv' = bid_label dv) /\
    (name <> "UUID" -> bid_uuid dv' = bid_uuid dv) /\
    (forall c, bid_cache dv = Some c ->
       exists cc, caches h' !! c = Some cc /\
                  flag_set (bic_flags cc) BLKID_BIC_FL_CHANGED = true).
Proof.
  intros Hd Ho Hf Hc Hnone.
  destruct (set_tag_new_run fuel d dv name value vlength replace h Hd Ho Hf Hc Hnone)
    as (h2 & h' & E1 & E2 & E3 & E4 & E5 & Ho2 & Hf2 & Hrun & Hadd).
  destruct (add_tag_post _ _ _ _ _ _ Hadd Ho2 Hf2)
    as (_ & Htadd & dv2 & dv' & Hd2 & Hd' & (Hty & Hla & Huu) & Hch).
  rewrite E1, Hd in Hd2. injection Hd2 as <-.
  destruct Htadd as (_ & _ & _ & _ & _ & _ & _ & _ & _ & _ & _ & A10 & _).
  assert (Hs : strs h' !! brk h = Some (strn value vlength)).
  { rewrite A10, E4. apply lookup_insert_eq. }
  exists h', dv'. split; [done|]. split; [done|]. split_and!.
  - intros ->. by rewrite Hla.
  - intros ->. by rewrite Huu.
  - intros -> Hnull. rewrite Hty, bool_decide_true by eauto. done.
  - intros -> [a Ha]. rewrite Hty, bool_decide_false; [done|].
    intros [_ [?|?]]; congruence.
  - intros Hne. rewrite Hty, bool_decide_false; [done|]. by intros [? _].
  - intros Hne. by rewrite Hla, bool_decide_false.
  - intros Hne. by rewrite Huu, bool_decide_false.
  - done.
Qed.

Lemma set_tag_links_shortcut_witness :
  exists h' dv',
    blkid_set_tag 1 (Some 0%nat) (Some "LABEL") (Some "home") 4 false sda1_ext4 = Done OK h' /\
    devs h' !! 0%nat = Some dv' /\
    ("LABEL" = "LABEL" -> shortcut h' (bid_label dv') = Some (strn "home" 4)) /\
    ("LABEL" = "UUID" -> shortcut h' (bid_uuid dv') = Some (strn "home" 4)) /\
    ("LABEL" = "TYPE" -> Some 2%nat = None ->
       shortcut h' (bid_type dv') = Some (strn "home" 4)) /\
    ("LABEL" = "TYPE" -> is_Some (Some 2%nat) -> bid_type dv' = Some 2%nat) /\
    ("LABEL" <> "TYPE" -> bid_type dv' = Some 2%nat) /\
    ("LABEL" <> "LABEL" -> bid_label dv' = None) /\
    ("LABEL" <> "UUID" -> bid_uuid dv' = None) /\
    (forall c, Some 1%nat = Some c ->
       exists cc, caches h' !! c = Some cc /\
                  flag_set (bic_flags cc) BLKID_BIC_FL_CHANGED = true).
Proof.
  apply (set_tag_links_shortcut 0 0 (mk_dev [3%nat] (Some 1%nat) (Some 2%nat) None None 0 0)
           "LABEL" "home" 4 false sda1_ext4).
  - reflexivity.
  - reflexivity.
  - apply fresh_check; vm_compute; reflexivity.
  - apply sda1_ext4_cache_ok.
  - intros p Hp. apply list_elem_of_singleton in Hp as ->. exists "TYPE".
    split; [reflexivity|discriminate].
Defined.

(** X5: with [replace] set and another value on the first tag of the
    name, the value is overwritten in place: the device keeps its tag
    list and flags, the tag keeps its name and its place in the bucket,
    the old string is freed, the LABEL and UUID shortcuts read the new
    value, and no other device changes. *)
Theorem replace_overwrites fuel d dv name value vlength h t0 tg0 a0 s0 :
  devs h !! d = Some dv -> oracle h = [] -> fresh h -> cache_bound h dv ->
  first_named name (bid_tags dv) h = Done (Some t0) h ->
  tags h !! t0 = Some tg0 -> bit_val tg0 = Some a0 -> strs h !! a0 = Some s0 ->
  s0 <> strn value vlength ->
  exists h' dv',
    blkid_set_tag (S fuel) (Some d) (Some name) (Some value) vlength true h = Done OK h' /\
    devs h' !! d = Some dv' /\
    bid_tags dv' = bid_tags dv /\ bid_flags dv' = bid_flags dv /\
    tags h' = <[t0 := with_bit_val (Some (brk h)) tg0]> (tags h) /\
    strs h' = delete a0 (<[brk h := strn value vlength]> (strs h)) /\
    value_of h' t0 = Some (strn value vlength) /\
    (name = "LABEL" -> shortcut h' (bid_label dv') = Some (strn value vlength)) /\
    (name = "UUID" -> shortcut h' (bid_uuid dv') = Some (strn value vlength)) /\
    (forall d', d' <> d -> devs h' !! d' = devs h !! d').
Proof.
  intros Hd Ho Hf Hc Ht0 Htg0 Ha0 Hs0 Hne.
  unfold blkid_set_tag. rewrite set_tag_repeat_insert.
  rewrite (bind_done _ _ _ _ _ (find_tag_dev_done _ _ _ _ _ Hd Ht0)).
  step Ho. step_tag Htg0.
  unfold bind at 1, deref at 1. rewrite Ha0.
  pose proof (fresh_str_lt _ _ _ Hf Hs0) as Hlt.
  step_streq s0 (strn value vlength);
    [by rewrite lookup_insert_ne by lia | apply lookup_insert_eq |].
  rewrite bool_decide_false by done.
  do 2 step Ho.
  match goal with |- context [link_tags d name _ ?hh] => set (hR := hh) end.
  destruct (link_tags_total d name (Some (brk h)) hR dv Hd) as [h' Hrun].
  { intros c Hbc. by apply Hc. }
  rewrite Hrun.
  apply link_tags_inv in Hrun as (_ & dvR & dv' & HdR & Hd' & Hother & Htags & Hstrs & _ & _ &
    Hbt & _ & Hbf & _ & _ & Hla & Huu & _).
  change (devs hR) with (devs h) in HdR. rewrite Hd in HdR. injection HdR as <-.
  assert (Hs : strs h' !! brk h = Some (strn value vlength)).
  { rewrite Hstrs. subst hR. heap_simpl. rewrite lookup_delete_ne by lia.
    apply lookup_insert_eq. }
  exists h', dv'. split_and!; try done.
  - apply value_of_Some. eexists _, (brk h). split; [|split; [|exact Hs]].
    + rewrite Htags. subst hR. heap_simpl. apply lookup_insert_eq.
    + done.
  - intros ->. by rewrite Hla.
  - intros ->. by rewrite Huu.
Qed.

Lemma replace_overwrites_witness :
  exists h' dv',
    blkid_set_tag 1 (Some 0%nat) (Some "TYPE") (Some "xfs") 3 true sda1_ext4 = Done OK h' /\
    devs h' !! 0%nat = Some dv' /\
    bid_tags dv' = [3%nat] /\ bid_flags dv' = 0 /\
    tags h' = <[3%nat := with_bit_val (Some (brk sda1_ext4))
                           (mk_tag [] (Some "TYPE") (Some 2%nat) (Some 0%nat))]> (tags sda1_ext4) /\
    strs h' = delete 2%nat (<[brk sda1_ext4 := strn "xfs" 3]> (strs sda1_ext4)) /\
    value_of h' 3 = Some (strn "xfs" 3) /\
    ("TYPE" = "LABEL" -> shortcut h' (bid_label dv') = Some (strn "xfs" 3)) /\
    ("TYPE" = "UUID" -> shortcut h' (bid_uuid dv') = Some (strn "xfs" 3)) /\
    (forall d', d' <> 0%nat -> devs h' !! d' = devs sda1_ext4 !! d').
Proof.
  apply (replace_overwrites 0 0 (mk_dev [3%nat] (Some 1%nat) (Some 2%nat) None None 0 0)
           "TYPE" "xfs" 3 sda1_ext4 3 (mk_tag [] (Some "TYPE") (Some 2%nat) (Some 0%nat))
           2 "ext4").
  - reflexivity.
  - reflexivity.
  - apply fresh_check; vm_compute; reflexivity.
  - intros c Hc. injection Hc as <-. by eexists.
  - vm_compute. reflexivity.
  - reflexivity.
  - reflexivity.
  - reflexivity.
  - vm_compute. discriminate.
Defined.

(** X6: deleting a name the device does not carry frees nothing: tags,
    strings and the tag list stay as they are, the call returns 0, and
    the shortcut of the name is set to null all the same. *)
Theorem delete_absent_name fuel d dv name vlength replace h :
  devs h !! d = Some dv -> cache_bound h dv -> none_named h name (bid_tags dv) ->
  exists h' dv',
    blkid_set_tag (S fuel) (Some d) (Some name) None vlength replace h = Done OK h' /\
    devs h' !! d = Some dv' /\
    tags h' = tags h /\ strs h' = strs h /\ bid_tags dv' = bid_tags dv /\
    bid_flags dv' = bid_flags dv /\
    (name = "TYPE" -> bid_type dv' = None) /\
    (name = "LABEL" -> bid_label dv' = None) /\
    (name = "UUID" -> bid_uuid dv' = None).
Proof.
  intros Hd Hc Hnone. unfold blkid_set_tag. rewrite set_tag_repeat_delete.
  rewrite (bind_done _ _ _ _ _ (find_tag_dev_done _ _ _ _ _ Hd (first_named_none _ _ _ Hnone))).
  destruct (link_tags_total d name None h dv Hd Hc) as [h' Hrun]. rewrite Hrun.
  apply link_tags_inv in Hrun as (_ & dv0 & dv' & Hd0 & Hd' & _ & Htags & Hstrs & _ & _ &
    Hbt & _ & Hbf & _ & Hty & Hla & Huu & _).
  rewrite Hd in Hd0. injection Hd0 as <-.
  exists h', dv'. split_and!; try done.
  - intros ->. rewrite Hty, bool_decide_true; eauto.
  - intros ->. by rewrite Hla.
  - intros ->. by rewrite Huu.
Qed.

Lemma delete_absent_name_witness :
  exists h' dv',
    blkid_set_tag 1 (Some 0%nat) (Some "LABEL") None 0 false sda1_ext4 = Done OK h' /\
    devs h' !! 0%nat = Some dv' /\
    tags h' = tags sda1_ext4 /\ strs h' = strs sda1_ext4 /\ bid_tags dv' = [3%nat] /\
    bid_flags dv' = 0 /\
    ("LABEL" = "TYPE" -> bid_type dv' = None) /\
    ("LABEL" = "LABEL" -> bid_label dv' = None) /\
    ("LABEL" = "UUID" -> bid_uuid dv' = None).
Proof.
  apply (delete_absent_name 0 0 (mk_dev [3%nat] (Some 1%nat) (Some 2%nat) None None 0 0)
           "LABEL" 0 false sda1_ext4).
  - reflexivity.
  - intros c Hc. injection Hc as <-. by eexists.
  - intros p Hp. apply list_elem_of_singleton in Hp as ->. exists "TYPE".
    split; [reflexivity|discriminate].
Defined.

Lemma tag_next_after_free_witness :
  blkid_tag_next (Some (mk_iter TAG_ITERATE_MAGIC (Some 0%nat) (bit_tags_of 3)))
    (mk_heap {[ 0%nat := mk_dev [] (Some 1%nat) (Some 2%nat) None None 0 0 ]}
             {[ 5%nat := mk_tag [] (Some "TYPE") None None ]}
             {[ 1%nat := mk_cache [5%nat] BLKID_BIC_FL_CHANGED ]}
             ∅ 7 []) = Trap.
Proof.
  apply (tag_next_after_free sda1_ext4 _
           (mk_iter TAG_ITERATE_MAGIC (Some 0%nat) (bit_tags_of 3)) 3).
  - reflexivity.
  - reflexivity.
  - by eexists.
  - vm_compute. reflexivity.
Defined.

(** X7: a tag added while an iteration is under way is reported by it:
    with the cursor on a tag of the device, the calls that follow the
    [blkid_set_tag] of a new name report the tags that were left, as
    they were, and then the new one; an iterator that had reached the
    end stays there. *)
Theorem tag_next_sees_new_tag fuel d dv name value vlength replace h l1 t l2 n :
  devs h !! d = Some dv -> oracle h = [] -> fresh h -> cache_ok h dv ->
  none_named h name (bid_tags dv) -> NoDup (bid_tags dv) ->
  bid_tags dv = l1 ++ t :: l2 ->
  (length l2 + 2 < n)%nat ->
  exists h',
    blkid_set_tag (S fuel) (Some d) (Some name) (Some value) vlength replace h = Done OK h' /\
    tag_next_loop n (Some (mk_iter TAG_ITERATE_MAGIC (Some d) (bit_tags_of t))) h' =
      Done (map (tag_fields h) (t :: l2) ++ [(Some name, Some (brk h))],
            Some (mk_iter TAG_ITERATE_MAGIC (Some d) (bid_tags_of d))) h' /\
    strs h' !! brk h = Some (strn value vlength) /\
    blkid_tag_next (Some (mk_iter TAG_ITERATE_MAGIC (Some d) (bid_tags_of d))) h' =
      Done (-1, None, None, Some (mk_iter TAG_ITERATE_MAGIC (Some d) (bid_tags_of d))) h'.
Proof.
  intros Hd Ho Hf Hc Hnone Hnd Hl Hn.
  destruct (set_tag_new_run fuel d dv name value vlength replace h Hd Ho Hf Hc Hnone)
    as (h2 & h' & E1 & E2 & E3 & E4 & E5 & Ho2 & Hf2 & Hrun & Hadd).
  destruct (add_tag_post _ _ _ _ _ _ Hadd Ho2 Hf2) as (_ & Htadd & _).
  destruct Htadd as (dv2 & dv' & Hd2 & Hd' & A3 & A4 & A5 & A6 & A7 & A8 & A9 & A10 & _).
  rewrite E1, Hd in Hd2. injection Hd2 as <-.
  destruct A8 as (tg & Htg & Hnm & Hv & _).
  assert (Hold : forall p, p ∈ bid_tags dv ->
            (p < brk h)%nat /\ is_Some (tags h' !! p) /\ tag_fields h' p = tag_fields h p).
  { intros p Hp. destruct (Hnone p Hp) as (m & (tgp & Htgp & _)%name_of_Some & _).
    split; [by eapply fresh_lt|].
    rewrite <- E2 in Htgp. destruct (A9 p tgp Htgp) as (tg' & Hp' & Hn' & Hv' & _).
    split; [eauto|]. unfold tag_fields. rewrite <- E2, Htgp, Hp'. congruence. }
  exists h'. split_and!.
  - exact Hrun.
  - assert (Hring : bit_tags_of t = ring_first d ((t :: l2) ++ [brk h2])) by done.
    rewrite Hring.
    rewrite (tag_next_loop_from h' d dv' ((t :: l2) ++ [brk h2]) l1 n Hd').
    + f_equal. f_equal. rewrite map_app. f_equal.
      * apply map_ext_in. intros p Hp%list_elem_of_In. apply Hold.
        rewrite Hl. apply elem_of_app. by right.
      * simpl. unfold tag_fields. rewrite Htg, Hnm, Hv. done.
    + rewrite A4, Hl. by rewrite <- app_assoc.
    + rewrite A4. apply NoDup_app. split_and!; [done| |apply NoDup_singleton].
      intros p Hp Hp'%list_elem_of_singleton. destruct (Hold p Hp) as [Hlt _]. lia.
    + intros p Hp. apply elem_of_app in Hp as [Hp|Hp%list_elem_of_singleton].
      * apply Hold. rewrite Hl. apply elem_of_app. by right.
      * subst p. eauto.
    + rewrite length_app. simpl. simpl in Hn. lia.
  - rewrite A10, E4. apply lookup_insert_eq.
  - apply tag_next_end.
Qed.

Lemma tag_next_sees_new_tag_witness :
  exists h',
    blkid_set_tag 1 (Some 0%nat) (Some "LABEL") (Some "home") 4 false sda1_ext4 = Done OK h' /\
    tag_next_loop 3 (Some (mk_iter TAG_ITERATE_MAGIC (Some 0%nat) (bit_tags_of 3))) h' =
      Done (map (tag_fields sda1_ext4) [3%nat] ++ [(Some "LABEL", Some (brk sda1_ext4))],
            Some (mk_iter TAG_ITERATE_MAGIC (Some 0%nat) (bid_tags_of 0))) h' /\
    strs h' !! brk sda1_ext4 = Some (strn "home" 4) /\
    blkid_tag_next (Some (mk_iter TAG_ITERATE_MAGIC (Some 0%nat) (bid_tags_of 0))) h' =
      Done (-1, None, None, Some (mk_iter TAG_ITERATE_MAGIC (Some 0%nat) (bid_tags_of 0))) h'.
Proof.
  apply (tag_next_sees_new_tag 0 0 (mk_dev [3%nat] (Some 1%nat) (Some 2%nat) None None 0 0)
           "LABEL" "home" 4 false sda1_ext4 [] 3 [] 3).
  - reflexivity.
  - reflexivity.
  - apply fresh_check; vm_compute; reflexivity.
  - apply sda1_ext4_cache_ok.
  - intros p Hp. apply list_elem_of_singleton in Hp as ->. exists "TYPE".
    split; [reflexivity|discriminate].
  - apply NoDup_singleton.
  - reflexivity.
  - simpl. lia.
Defined.

(** ** Allocation failures that are rolled back *)

Lemma malloc_pass h o :
  oracle h = false :: o ->
  malloc h = Done (Some (brk h)) (mk_heap (devs h) (tags h) (caches h) (strs h) (S (brk h)) o).
Proof. intros Ho. unfold malloc. by rewrite Ho. Qed.

Lemma malloc_fail h o :
  oracle h = true :: o ->
  malloc h = Done None (mk_heap (devs h) (tags h) (caches h) (strs h) (brk h) o).
Proof. intros Ho. unfold malloc. by rewrite Ho. Qed.

Lemma new_tag_pass h o :
  oracle h = false :: o ->
  blkid_new_tag h = Done (Some (brk h))
    (mk_heap (devs h) (<[brk h := mk_tag [] None None None]> (tags h)) (caches h) (strs h)
             (S (brk h)) o).
Proof. intros Ho. unfold blkid_new_tag. by rewrite (bind_done _ _ _ _ _ (malloc_pass h o Ho)). Qed.

Lemma new_tag_fail h o :
  oracle h = true :: o ->
  blkid_new_tag h = Done None (mk_heap (devs h) (tags h) (caches h) (strs h) (brk h) o).
Proof. intros Ho. unfold blkid_new_tag. by rewrite (bind_done _ _ _ _ _ (malloc_fail h o Ho)). Qed.

Lemma strdup_pass s h o :
  oracle h = false :: o ->
  blkid_strdup (Some s) h =
  Done (Some s) (mk_heap (devs h) (tags h) (caches h) (strs h) (S (brk h)) o).
Proof. intros Ho. unfold blkid_strdup. by rewrite (bind_done _ _ _ _ _ (malloc_pass h o Ho)). Qed.

Lemma strdup_fail s h o :
  oracle h = true :: o ->
  blkid_strdup (Some s) h = Done None (mk_heap (devs h) (tags h) (caches h) (strs h) (brk h) o).
Proof. intros Ho. unfold blkid_strdup. by rewrite (bind_done _ _ _ _ _ (malloc_fail h o Ho)). Qed.

Lemma strndup_pass s n h o :
  oracle h = false :: o ->
  blkid_strndup (Some s) n h = Done (Some (brk h))
    (mk_heap (devs h) (tags h) (caches h) (<[brk h := strn s n]> (strs h)) (S (brk h)) o).
Proof. intros Ho. unfold blkid_strndup. by rewrite (bind_done _ _ _ _ _ (malloc_pass h o Ho)). Qed.

Lemma strndup_fail s n h o :
  oracle h = true :: o ->
  blkid_strndup (Some s) n h = Done None (mk_heap (devs h) (tags h) (caches h) (strs h) (brk h) o).
Proof. intros Ho. unfold blkid_strndup. by rewrite (bind_done _ _ _ _ _ (malloc_fail h o Ho)). Qed.

(** One allocation of a run whose outcomes are listed: [Ho] is the proof
    that the next outcome is the one expected. *)
Ltac alloc Ho :=
  heap_simpl;
  lazymatch goal with
  | |- context [bind blkid_new_tag ?k ?hh] =>
      first [ rewrite (bind_done _ k _ _ _ (new_tag_pass hh _ Ho))
            | rewrite (bind_done _ k _ _ _ (new_tag_fail hh _ Ho)) ]
  | |- context [bind (blkid_strdup (Some ?s)) ?k ?hh] =>
      first [ rewrite (bind_done _ k _ _ _ (strdup_pass s hh _ Ho))
            | rewrite (bind_done _ k _ _ _ (strdup_fail s hh _ Ho)) ]
  | |- context [bind (blkid_strndup (Some ?s) ?n) ?k ?hh] =>
      first [ rewrite (bind_done _ k _ _ _ (strndup_pass s n hh _ Ho))
            | rewrite (bind_done _ k _ _ _ (strndup_fail s n hh _ Ho)) ]
  end;
  heap_simpl.

Lemma remove_id_id t l : t ∉ l -> remove_id t l = l.
Proof. intros Ht. unfold remove_id. apply filter_all. intros x Hx ->. done. Qed.

Lemma remove_id_snoc t l : t ∉ l -> remove_id t (l ++ [t]) = l.
Proof.
  intros Ht. unfold remove_id. rewrite filter_app, filter_cons_False by tauto.
  rewrite filter_nil, app_nil_r. by apply remove_id_id.
Qed.

Lemma strip_devs_id t (m : gmap nat blkid_struct_dev) :
  (forall d dv, m !! d = Some dv -> t ∉ bid_tags dv) ->
  (fun d => with_bid_tags (remove_id t (bid_tags d)) d) <$> m = m.
Proof.
  intros H. apply map_eq. intros i. rewrite lookup_fmap.
  destruct (m !! i) as [dv|] eqn:E; simpl; [|done].
  rewrite remove_id_id by eauto. by destruct dv.
Qed.

Lemma strip_caches_id t (m : gmap nat blkid_struct_cache) :
  (forall c cc, m !! c = Some cc -> t ∉ bic_tags cc) ->
  (fun c => with_bic_tags (remove_id t (bic_tags c)) c) <$> m = m.
Proof.
  intros H. apply map_eq. intros i. rewrite lookup_fmap.
  destruct (m !! i) as [cc|] eqn:E; simpl; [|done].
  rewrite remove_id_id by eauto. by destruct cc.
Qed.

Lemma strip_tags_id t (m : gmap nat blkid_struct_tag) :
  (forall x tg, m !! x = Some tg -> t ∉ bit_names tg) ->
  (fun x => with_bit_names (remove_id t (bit_names x)) x) <$> m = m.
Proof.
  intros H. apply map_eq. intros i. rewrite lookup_fmap.
  destruct (m !! i) as [tg|] eqn:E; simpl; [|done].
  rewrite remove_id_id by eauto. by destruct tg.
Qed.

(** Freeing a tag that is on no list but the one of its device, where it
    comes last, gives back the memory before it was added. *)
Lemma free_added_tag t T d dv hd ht hc hs b o :
  hd !! d = Some dv ->
  unlisted (mk_heap hd ht hc hs b o) t ->
  ht !! t = None ->
  bit_names T = [] ->
  blkid_free_tag (Some t)
    (mk_heap (<[d := with_bid_tags (bid_tags dv ++ [t]) dv]> hd) (<[t := T]> ht) hc hs b o) =
  Done tt (mk_heap hd ht hc
    (match bit_val T with Some a => delete a hs | None => hs end) b o).
Proof.
  intros Hd (Hu1 & Hu2 & Hu3) Ht HT. cbn [devs tags caches] in Hu1, Hu2, Hu3.
  erewrite free_tag_done by apply lookup_insert_eq. heap_simpl.
  f_equal. f_equal.
  - rewrite fmap_insert. simpl. rewrite remove_id_snoc by eauto.
    rewrite strip_devs_id by done.
    replace (with_bid_tags _ _) with dv by (by destruct dv).
    by apply insert_id.
  - rewrite fmap_insert, delete_insert_eq, strip_tags_id by done. by apply delete_id.
  - by apply strip_caches_id.
Qed.

(** Freeing a tag that is on no list leaves the lists alone. *)
Lemma free_loose_tag t T hd ht hc hs b o :
  unlisted (mk_heap hd ht hc hs b o) t ->
  ht !! t = None ->
  bit_names T = [] ->
  blkid_free_tag (Some t) (mk_heap hd (<[t := T]> ht) hc hs b o) =
  Done tt (mk_heap hd ht hc
    (match bit_val T with Some a => delete a hs | None => hs end) b o).
Proof.
  intros (Hu1 & Hu2 & Hu3) Ht HT. cbn [devs tags caches] in Hu1, Hu2, Hu3.
  erewrite free_tag_done by apply lookup_insert_eq. heap_simpl.
  f_equal. f_equal.
  - by apply strip_devs_id.
  - rewrite fmap_insert, delete_insert_eq, strip_tags_id by done. by apply delete_id.
  - by apply strip_caches_id.
Qed.

Lemma none_named_keep h h' ty l :
  (forall p tg, tags h !! p = Some tg -> tags h' !! p = Some tg) ->
  none_named h ty l -> none_named h' ty l.
Proof.
  intros Hk Hl p Hp. destruct (Hl p Hp) as (n & Hn & Hne). exists n. split; [|done].
  apply name_of_Some in Hn as (tg & Htg & Hn). apply name_of_Some. eauto.
Qed.

(** X8: for a name the device does not carry yet, a failure of the
    value copy, of the allocation of the tag, of the allocation of the
    head of a new bucket or of the copy of the name of that head makes
    [blkid_set_tag] return -BLKID_ERR_MEM with devices, tags, caches and
    strings as they were on entry. *)
Theorem alloc_failure_rolled_back fuel d dv name value vlength replace h o :
  devs h !! d = Some dv -> fresh h -> closed h ->
  none_named h name (bid_tags dv) ->
  undone h dv name o ->
  exists h',
    blkid_set_tag (S fuel) (Some d) (Some name) (Some value) vlength replace h =
      Done (Err BLKID_ERR_MEM) h' /\
    devs h' = devs h /\ tags h' = tags h /\ caches h' = caches h /\ strs h' = strs h /\
    oracle h' = o.
Proof.
  intros Hd Hf Hcl Hnone Hund. unfold blkid_set_tag. rewrite set_tag_repeat_insert.
  rewrite (bind_done _ _ _ _ _ (find_tag_dev_done _ _ _ _ _ Hd (first_named_none _ _ _ Hnone))).
  destruct h as [hd ht hc hs b oh]. cbn [devs tags caches strs brk oracle] in *.
  assert (Hsb : hs !! b = None) by (by destruct (Hf b)).
  assert (Htb : forall k, (b <= k)%nat -> ht !! k = None) by (intros k Hk; by destruct (Hf k)).
  destruct Hund as [Ho|Ho|c cc Hbc Hcc Hhn Ho|c cc Hbc Hcc Hhn Ho];
    cbn [devs tags caches strs brk oracle] in *; subst oh.
  - alloc (eq_refl (true :: o)). eexists. split; [reflexivity|]. done.
  - alloc (eq_refl (false :: true :: o)). unfold add_tag.
    alloc (eq_refl (true :: o)). unfold errout. step (eq_refl (@nil bool)).
    eexists. split; [reflexivity|]. simpl. split_and!; try done.
    rewrite delete_insert_eq. by apply delete_id.
  - alloc (eq_refl (false :: false :: false :: true :: o)). unfold add_tag.
    alloc (eq_refl (false :: false :: true :: o)).
    alloc (eq_refl (false :: true :: o)).
    step (eq_refl (@nil bool)). rewrite insert_insert_eq.
    step_dev Hd. step (eq_refl (@nil bool)). rewrite Hbc.
    match goal with |- context [bind (blkid_find_head_cache _ _) _ ?hh] => set (h2 := hh) end.
    rewrite (bind_done _ _ h2 None h2).
    2:{ unfold blkid_find_head_cache.
        rewrite (bind_done _ _ h2 cc h2) by (by apply get_cache_done).
        apply first_named_none. eapply none_named_keep; [|exact Hhn].
        intros p tg Hp. subst h2. cbn [tags] in *. rewrite lookup_insert_ne; [done|].
        intros <-. rewrite Htb in Hp by lia. done. }
    subst h2.
    alloc (eq_refl (true :: o)). unfold errout.
    erewrite bind_done.
    2:{ apply free_added_tag; [done| |by apply Htb; lia|done].
        destruct (Hcl (S b)) as (H1 & H2 & H3); [simpl; lia|]. by split_and!. }
    eexists. split; [reflexivity|]. simpl. split_and!; try done.
    rewrite delete_insert_eq. by apply delete_id.
  - alloc (eq_refl (false :: false :: false :: false :: true :: o)). unfold add_tag.
    alloc (eq_refl (false :: false :: false :: true :: o)).
    alloc (eq_refl (false :: false :: true :: o)).
    step (eq_refl (@nil bool)). rewrite insert_insert_eq.
    step_dev Hd. step (eq_refl (@nil bool)). rewrite Hbc.
    match goal with |- context [bind (blkid_find_head_cache _ _) _ ?hh] => set (h2 := hh) end.
    rewrite (bind_done _ _ h2 None h2).
    2:{ unfold blkid_find_head_cache.
        rewrite (bind_done _ _ h2 cc h2) by (by apply get_cache_done).
        apply first_named_none. eapply none_named_keep; [|exact Hhn].
        intros p tg Hp. subst h2. cbn [tags] in *. rewrite lookup_insert_ne; [done|].
        intros <-. rewrite Htb in Hp by lia. done. }
    subst h2.
    alloc (eq_refl (false :: true :: o)).
    alloc (eq_refl (true :: o)).
    step (eq_refl (@nil bool)). rewrite insert_insert_eq.
    unfold errout.
    rewrite (insert_insert_ne _ (S (S (S b))) (S b)) by lia.
    erewrite bind_done.
    2:{ apply free_added_tag; [done| |rewrite lookup_insert_ne by lia; apply Htb; lia|done].
        destruct (Hcl (S b)) as (H1 & H2 & H3); [simpl; lia|]. split_and!; simpl in *; [done..|].
        intros x tg Hx. apply lookup_insert_Some in Hx as [[_ <-]|[_ Hx]]; [apply not_elem_of_nil|].
        eauto. }
    erewrite bind_done.
    2:{ apply free_loose_tag; [|apply Htb; lia|done].
        destruct (Hcl (S (S (S b)))) as (H1 & H2 & H3); [simpl; lia|]. by split_and!. }
    eexists. split; [reflexivity|]. simpl. split_and!; try done.
    rewrite delete_insert_eq. by apply delete_id.
Qed.

Lemma closed_check h :
  bool_decide (map_Forall (fun _ dv => Forall (fun t => (t < brk h)%nat) (bid_tags dv)) (devs h)) = true ->
  bool_decide (map_Forall (fun _ cc => Forall (fun t => (t < brk h)%nat) (bic_tags cc)) (caches h)) = true ->
  bool_decide (map_Forall (fun _ tg => Forall (fun t => (t < brk h)%nat) (bit_names tg)) (tags h)) = true ->
  closed h.
Proof.
  intros Hd%bool_decide_eq_true Hc%bool_decide_eq_true Ht%bool_decide_eq_true k Hk.
  split_and!.
  - intros d dv Hdv Hin. specialize (Hd d dv Hdv). simpl in Hd.
    rewrite Forall_forall in Hd. specialize (Hd k Hin). lia.
  - intros c cc Hcc Hin. specialize (Hc c cc Hcc). simpl in Hc.
    rewrite Forall_forall in Hc. specialize (Hc k Hin). lia.
  - intros x tg Htg Hin. specialize (Ht x tg Htg). simpl in Ht.
    rewrite Forall_forall in Ht. specialize (Ht k Hin). lia.
Qed.

Lemma alloc_failure_rolled_back_witness :
  exists h',
    blkid_set_tag 1 (Some 0%nat) (Some "LABEL") (Some "home") 4 false
      (with_oracle [false; false; false; false; true] sda1_ext4) =
      Done (Err BLKID_ERR_MEM) h' /\
    devs h' = devs sda1_ext4 /\ tags h' = tags sda1_ext4 /\ caches h' = caches sda1_ext4 /\
    strs h' = strs sda1_ext4 /\ oracle h' = [].
Proof.
  apply (alloc_failure_rolled_back 0 0 (mk_dev [3%nat] (Some 1%nat) (Some 2%nat) None None 0 0)
           "LABEL" "home" 4 false
           (with_oracle [false; false; false; false; true] sda1_ext4) []).
  - reflexivity.
  - apply fresh_check; vm_compute; reflexivity.
  - apply closed_check; vm_compute; reflexivity.
  - intros p Hp. apply list_elem_of_singleton in Hp as ->. exists "TYPE".
    split; [reflexivity|discriminate].
  - apply (fail_head_name _ _ _ _ 1%nat (mk_cache [5%nat] BLKID_BIC_FL_CHANGED)).
    + reflexivity.
    + reflexivity.
    + intros p Hp. apply list_elem_of_singleton in Hp as ->. exists "TYPE".
      split; [reflexivity|discriminate].
    + reflexivity.
Defined.

(** ** blkid_free_tag and the lookups *)

(** X9: [blkid_free_tag] takes the tag off the list of its device and
    out of its bucket and frees it with its value: no list holds it
    afterwards, the other tags keep their fields, the devices keep
    theirs, shortcuts included, so that a shortcut that aliased the
    value is left dangling; a second call on the same tag reads freed
    storage. *)
Theorem free_tag_unlinks t tg h :
  tags h !! t = Some tg ->
  exists h',
    blkid_free_tag (Some t) h = Done tt h' /\
    tags h' !! t = None /\ unlisted h' t /\
    (forall a, bit_val tg = Some a -> strs h' !! a = None) /\
    (forall d dv, devs h !! d = Some dv ->
       devs h' !! d = Some (with_bid_tags (remove_id t (bid_tags dv)) dv)) /\
    (forall c cc, caches h !! c = Some cc ->
       caches h' !! c = Some (with_bic_tags (remove_id t (bic_tags cc)) cc)) /\
    (forall x tx, x <> t -> tags h !! x = Some tx ->
       tags h' !! x = Some (with_bit_names (remove_id t (bit_names tx)) tx)) /\
    (forall a s, bit_val tg <> Some a -> strs h !! a = Some s -> strs h' !! a = Some s) /\
    blkid_free_tag (Some t) h' = Trap.
Proof.
  intros Ht. eexists. split; [by apply free_tag_done|]. heap_simpl.
  assert (Hrm : forall l, t ∉ remove_id t l).
  { intros l Hin. apply remove_id_elem in Hin as [_ Hne]. done. }
  split_and!.
  - apply lookup_delete_eq.
  - split_and!.
    + intros d dv Hd. heap_simpl_in Hd. rewrite lookup_fmap in Hd.
      destruct (devs h !! d); simpl in Hd; [|done]. injection Hd as <-. apply Hrm.
    + intros c cc Hc. heap_simpl_in Hc. rewrite lookup_fmap in Hc.
      destruct (caches h !! c); simpl in Hc; [|done]. injection Hc as <-. apply Hrm.
    + intros x tx Hx. heap_simpl_in Hx.
      destruct (decide (x = t)) as [->|Hne]; [by rewrite lookup_delete_eq in Hx|].
      rewrite lookup_delete_ne, lookup_fmap in Hx by done.
      destruct (tags h !! x); simpl in Hx; [|done]. injection Hx as <-. apply Hrm.
  - intros a ->. apply lookup_delete_eq.
  - intros d dv Hd. by rewrite lookup_fmap, Hd.
  - intros c cc Hc. by rewrite lookup_fmap, Hc.
  - intros x tx Hne Hx. by rewrite lookup_delete_ne, lookup_fmap, Hx.
  - intros a s Hne Hs. destruct (bit_val tg) as [a'|]; [|done].
    rewrite lookup_delete_ne; [done|]. congruence.
  - unfold blkid_free_tag, bind, get_tag, load. heap_simpl. by rewrite lookup_delete_eq.
Qed.

Lemma free_tag_unlinks_witness :
  exists h',
    blkid_free_tag (Some 3%nat) sda1_ext4 = Done tt h' /\
    tags h' !! 3%nat = None /\ unlisted h' 3 /\
    (forall a, Some 2%nat = Some a -> strs h' !! a = None) /\
    (forall d dv, devs sda1_ext4 !! d = Some dv ->
       devs h' !! d = Some (with_bid_tags (remove_id 3 (bid_tags dv)) dv)) /\
    (forall c cc, caches sda1_ext4 !! c = Some cc ->
       caches h' !! c = Some (with_bic_tags (remove_id 3 (bic_tags cc)) cc)) /\
    (forall x tx, x <> 3%nat -> tags sda1_ext4 !! x = Some tx ->
       tags h' !! x = Some (with_bit_names (remove_id 3 (bit_names tx)) tx)) /\
    (forall a s, Some 2%nat <> Some a -> strs sda1_ext4 !! a = Some s -> strs h' !! a = Some s) /\
    blkid_free_tag (Some 3%nat) h' = Trap.
Proof.
  apply (free_tag_unlinks 3 (mk_tag [] (Some "TYPE") (Some 2%nat) (Some 0%nat)) sda1_ext4).
  reflexivity.
Defined.

(** X10: [blkid_find_tag_dev] and [blkid_find_head_cache] return the first
    tag of the list whose name is the one asked for, and null when the
    list has none; they leave the memory as it is, and a null argument
    gives null. *)
Theorem find_first_of_name ty h :
  (forall d dv, devs h !! d = Some dv -> named h (bid_tags dv) ->
     exists r, blkid_find_tag_dev (Some d) (Some ty) h = Done r h /\
       match r with
       | Some t => exists l1 l2, bid_tags dv = l1 ++ t :: l2 /\
                     name_of h t = Some ty /\ none_named h ty l1
       | None => none_named h ty (bid_tags dv)
       end) /\
  (forall c cc, caches h !! c = Some cc -> named h (bic_tags cc) ->
     exists r, blkid_find_head_cache (Some c) (Some ty) h = Done r h /\
       match r with
       | Some t => exists l1 l2, bic_tags cc = l1 ++ t :: l2 /\
                     name_of h t = Some ty /\ none_named h ty l1
       | None => none_named h ty (bic_tags cc)
       end) /\
  (forall d, blkid_find_tag_dev d None h = Done None h) /\
  (forall c, blkid_find_head_cache c None h = Done None h) /\
  blkid_find_tag_dev None (Some ty) h = Done None h /\
  blkid_find_head_cache None (Some ty) h = Done None h.
Proof.
  split_and!.
  - intros d dv Hd Hn. destruct (first_named_total ty _ _ Hn) as [r Hr].
    exists r. split.
    + unfold blkid_find_tag_dev. by rewrite (bind_done _ _ _ _ _ (get_dev_done _ _ _ Hd)).
    + by apply first_named_inv in Hr as [_ Hr].
  - intros c cc Hc Hn. destruct (first_named_total ty _ _ Hn) as [r Hr].
    exists r. split.
    + unfold blkid_find_head_cache. by rewrite (bind_done _ _ _ _ _ (get_cache_done _ _ _ Hc)).
    + by apply first_named_inv in Hr as [_ Hr].
  - by intros [d|].
  - by intros [c|].
  - done.
  - done.
Qed.

Lemma find_first_of_name_witness :
  exists r, blkid_find_tag_dev (Some 0%nat) (Some "TYPE") sda1_two_types = Done r sda1_two_types /\
    match r with
    | Some t => exists l1 l2, [3%nat; 8%nat] = l1 ++ t :: l2 /\
                  name_of sda1_two_types t = Some "TYPE" /\ none_named sda1_two_types "TYPE" l1
    | None => none_named sda1_two_types "TYPE" [3%nat; 8%nat]
    end.
Proof.
  apply (proj1 (find_first_of_name "TYPE" sda1_two_types) 0%nat
           (mk_dev [3%nat; 8%nat] (Some 1%nat) (Some 2%nat) None None 0 BLKID_BID_FL_MTYPE)).
  - reflexivity.
  - intros t Ht. apply elem_of_cons in Ht as [->|Ht]; [by eexists|].
    apply list_elem_of_singleton in Ht as ->. by eexists.
Defined.

(** ** Writing a token and reading it back *)

(** X11: a name without '=' and a value written after it are read back as
    they were written, at the cost of two allocations: a value put
    between quotes whatever it holds, the quote character included (text
    after the closing quote is dropped), and a bare value that does not
    open with a quote. *)
Theorem parse_round_trip name h :
  ~ has_char "=" name -> oracle h = [] ->
  (forall value, (forall c r, value = String c r -> ~ is_quote c) ->
     blkid_parse_tag_string (Some (name ++ String "=" value)%string) h =
       Done (Some (name, value)) (bump 2 h)) /\
  (forall q body tail, is_quote q -> ~ has_char q tail ->
     blkid_parse_tag_string
       (Some (name ++ String "=" (String q (body ++ String q tail)))%string) h =
       Done (Some (name, body)) (bump 2 h)).
Proof.
  intros Hname Ho. split.
  - intros value Hbare. unfold blkid_parse_tag_string.
    assert (strchr (name ++ String "=" value)%string "=" = Some (name, value)) as ->
      by (by apply strchr_Some).
    step Ho.
    assert (unquote value = Some value) as -> by (apply unquote_Some; by left).
    step Ho. done.
  - intros q body tail Hq Htail. unfold blkid_parse_tag_string.
    assert (strchr (name ++ String "=" (String q (body ++ String q tail)))%string "=" =
            Some (name, String q (body ++ String q tail)%string)) as ->
      by (by apply strchr_Some).
    step Ho.
    assert (unquote (String q (body ++ String q tail)%string) = Some body) as ->
      by (apply unquote_Some; right; by exists q, tail).
    step Ho. done.
Qed.

Lemma parse_round_trip_witness :
  blkid_parse_tag_string (Some "LABEL=Bob's") sda1 = Done (Some ("LABEL", "Bob's")) (bump 2 sda1) /\
  blkid_parse_tag_string (Some "LABEL='Bob's' disk") sda1 =
    Done (Some ("LABEL", "Bob's")) (bump 2 sda1).
Proof.
  assert (Hn : ~ has_char "=" "LABEL") by (intros Hc; by apply strchr_None in Hc).
  destruct (parse_round_trip "LABEL" sda1 Hn eq_refl) as [Hbare Hquoted].
  split.
  - apply (Hbare "Bob's"). intros c r [= <- _] [Hq|Hq]; discriminate.
  - apply (Hquoted squote "Bob's" " disk"); [by right|].
    intros Hc. by apply strrchr_None in Hc.
Defined.

(** ** More on blkid_find_dev_with_tag *)

Section FindDevMore.
Variable blkid_probe_all : nat -> heap -> heap.
Variable blkid_verify_devname : nat -> option nat -> heap -> option nat * heap.

(** What the walk leaves in [found]: the entry value, or a tag of the
    bucket that has the value, with its device in [dev]. *)
Lemma walk_bucket_found value l h : forall acc acc' h',
  walk_bucket value l acc h = Done acc' h' ->
  acc' = acc \/
  exists t, t ∈ l /\ acc'.1.1 = Some t /\ value_of h t = Some value /\ dev_of h t = acc'.1.2 /\
            is_Some (dev_of h t).
Proof.
  induction l as [|x l IH]; intros acc acc' h' H.
  - injection H as <- _. by left.
  - simpl in H.
    inv_bind H as tg h2 E. apply get_tag_inv in E as [Htg ->].
    inv_bind H as a h2 E. apply deref_inv in E as [Ha ->].
    inv_bind H as s h2 E. apply get_str_inv in E as [Hs ->].
    assert (Hright : forall acc0, walk_bucket value l acc0 h = Done acc' h' ->
              acc' = acc0 \/
              exists t, t ∈ x :: l /\ acc'.1.1 = Some t /\ value_of h t = Some value /\
                        dev_of h t = acc'.1.2 /\ is_Some (dev_of h t)).
    { intros acc0 H0. apply IH in H0 as [Heq|(t & Ht & Hrest)]; [by left|].
      right. exists t. split; [by right|done]. }
    case_bool_decide as Hsv.
    + inv_bind H as d h2 E. apply deref_inv in E as [Hd ->].
      inv_bind H as dv h2 E. apply get_dev_inv in E as [Hdv ->].
      destruct (bid_pri dv >? acc.2); [|by apply Hright].
      apply Hright in H as [Heq|H]; [|by right]. subst acc'.
      right. exists x. split; [by left|]. split; [done|]. split.
      * apply value_of_Some. exists tg, a. subst s. done.
      * unfold dev_of. rewrite Htg. simpl. rewrite Hd. split; [done|]. by eexists.
    + by apply Hright.
Qed.

(** A pass that ends with a device: the type has a head, a tag of its
    bucket had the value, the verifier was handed the device of that
    tag and returned the device of the result, and the tag has the
    value once the verifier is back. *)
Lemma search_pass_sound c ty v dev h hd d h1 :
  search_pass blkid_verify_devname c ty v dev h = Done (hd, Some d) h1 ->
  exists head htg t d0,
    hd = Some head /\
    blkid_find_head_cache (Some c) (Some ty) h = Done (Some head) h /\
    tags h !! head = Some htg /\ t ∈ bit_names htg /\
    value_of h t = Some v /\ dev_of h t = Some d0 /\
    blkid_verify_devname c (Some d0) h = (Some d, h1) /\
    value_of h1 t = Some v.
Proof.
  unfold search_pass. intros H.
  inv_bind H as head h2 E.
  assert (h2 = h) as ->.
  { unfold blkid_find_head_cache in E.
    inv_bind E as cc h3 E1. apply get_cache_inv in E1 as [_ ->].
    by apply first_named_inv in E as [-> _]. }
  inv_bind H as sel h2 E0.
  inv_bind H as dev1 h3 E1.
  destruct (blkid_verify_devname c sel.1.2 h2) as [d' h'] eqn:Ev. injection E1 as <- <-.
  inv_bind H as dev2 h3 E1. injection H as <- -> <-.
  destruct d' as [d'|]; [|unfold ret in E1; discriminate].
  inv_bind E1 as ft h4 E2. apply deref_inv in E2 as [Hft ->].
  inv_bind E1 as tg h4 E2. apply get_tag_inv in E2 as [Htg ->].
  inv_bind E1 as a h4 E2. apply deref_inv in E2 as [Ha ->].
  inv_bind E1 as s h4 E2. apply get_str_inv in E2 as [Hs ->].
  case_bool_decide as Hsv; [|unfold ret in E1; discriminate]. injection E1 as <- <-. subst s.
  destruct head as [head|]; [|injection E0 as <- <-; done].
  inv_bind E0 as htg h3 E1. apply get_tag_inv in E1 as [Hhtg ->].
  pose proof (walk_bucket_pure _ _ _ _ _ _ E0) as ->.
  apply walk_bucket_found in E0 as [->|(t & Ht & Hsel & Hv & Hdev & [d0 Hd0])]; [done|].
  rewrite Hft in Hsel. injection Hsel as ->.
  exists head, htg, t, d0. split_and!; try done.
  - rewrite <- Hdev in Ev. by rewrite <- Hd0.
  - apply value_of_Some. eauto.
Qed.

Lemma try_again_sound fuel c ty v : forall dev n h d m h',
  find_dev_try_again blkid_probe_all blkid_verify_devname fuel c ty v dev n h =
    Done (Some d, m) h' ->
  (n <= m)%nat /\
  exists h0 head htg t d0,
    blkid_find_head_cache (Some c) (Some ty) h0 = Done (Some head) h0 /\
    tags h0 !! head = Some htg /\ t ∈ bit_names htg /\
    value_of h0 t = Some v /\ dev_of h0 t = Some d0 /\
    blkid_verify_devname c (Some d0) h0 = (Some d, h') /\
    value_of h' t = Some v /\
    (m = n -> h0 = h).
Proof.
  induction fuel as [|fuel IH]; intros dev n h d m h' H; [done|].
  cbn [find_dev_try_again] in H.
  inv_bind H as r h1 E. inv_bind H as cc h2 E1. apply get_cache_inv in E1 as [_ ->].
  destruct (_ && _).
  - inv_bind H as u h2 E1. injection E1 as _ <-.
    apply IH in H as (Hle & h0 & head & htg & t & d0 & H1 & H2 & H3 & H4 & H5 & H6 & H7 & H8).
    split; [lia|]. exists h0, head, htg, t, d0. split_and!; try done. lia.
  - destruct r as [hd r2]. injection H as -> <- <-.
    apply search_pass_sound in E as (head & htg & t & d0 & _ & H1 & H2 & H3 & H4 & H5 & H6 & H7).
    split; [lia|]. exists h, head, htg, t, d0. by split_and!.
Qed.

(** X12: a device that [blkid_find_dev_with_tag] returns has been
    confirmed by the verifier in the last pass: the type had a head, a
    tag of its bucket had the value asked for, the verifier was handed
    the device of that tag, and the tag still has the value in the
    memory the verifier left; without a probe the memory searched is
    the one of entry.  This holds for every prober and verifier. *)
Theorem find_dev_result_sound fuel dev_entry cache type value h d n h' :
  blkid_find_dev_with_tag blkid_probe_all blkid_verify_devname
    fuel dev_entry cache type value h = Done (Some d, n) h' ->
  exists c ty v h0 head htg t d0,
    cache = Some c /\ type = Some ty /\ value = Some v /\
    blkid_find_head_cache (Some c) (Some ty) h0 = Done (Some head) h0 /\
    tags h0 !! head = Some htg /\ t ∈ bit_names htg /\
    value_of h0 t = Some v /\ dev_of h0 t = Some d0 /\
    blkid_verify_devname c (Some d0) h0 = (Some d, h') /\
    value_of h' t = Some v /\
    (n = 0%nat -> h0 = h).
Proof.
  unfold blkid_find_dev_with_tag. intros H.
  destruct cache as [c|]; [|done]. destruct type as [ty|]; [|done].
  destruct value as [v|]; [|done].
  apply try_again_sound in H as (_ & h0 & head & htg & t & d0 & H).
  destruct H as (H1 & H2 & H3 & H4 & H5 & H6 & H7 & H8).
  exists c, ty, v, h0, head, htg, t, d0. by split_and!.
Qed.

(** A pass that selects nothing hands the entry value of [dev] to the
    verifier; a device that comes back makes the pass read [found],
    which is null. *)
Lemma search_pass_nothing c ty v dev h :
  no_match h c ty v ->
  exists hd, search_pass blkid_verify_devname c ty v dev h =
    match blkid_verify_devname c dev h with
    | (None, h1) => Done (hd, None) h1
    | (Some _, _) => Trap
    end.
Proof.
  intros (cc & Hcc & Hno). unfold search_pass.
  assert (Hsel : exists hd,
    blkid_find_head_cache (Some c) (Some ty) h = Done hd h /\
    match hd with
    | Some hd => htg <- get_tag hd ;; walk_bucket v (bit_names htg) (None, dev, -1)
    | None => ret (None, dev, -1)
    end h = Done (None, dev, -1) h).
  { destruct Hno as [Hnone|(hd & htg & Hhd & Hhtg & Hok & Hall)].
    - exists None. split; [|done]. unfold blkid_find_head_cache.
      rewrite (bind_done _ _ _ _ _ (get_cache_done _ _ _ Hcc)). by apply first_named_none.
    - exists (Some hd). split.
      + unfold blkid_find_head_cache.
        by rewrite (bind_done _ _ _ _ _ (get_cache_done _ _ _ Hcc)).
      + rewrite (bind_done _ _ _ _ _ (get_tag_done _ _ _ Hhtg)).
        destruct (walk_bucket_spec v h (bit_names htg) (None, dev, -1) Hok)
          as (acc' & Hwalk & [[-> _]|(t & d & pr & -> & Hlt & Hbest)]); [done|].
        destruct Hbest as (l1 & l2 & Hl & Hv & _ & Hp & _).
        assert (pr <= -1); [|simpl in Hlt; lia].
        apply (Hall t pr); [|done..]. rewrite Hl. apply elem_of_app. right. by left. }
  destruct Hsel as (hd & Hhead & Hwalk). exists hd.
  rewrite (bind_done _ _ _ _ _ Hhead). rewrite (bind_done _ _ _ _ _ Hwalk).
  unfold bind at 1. cbn [fst snd].
  destruct (blkid_verify_devname c dev h) as [[d|] h1]; done.
Qed.

Lemma try_again_count fuel c ty v : forall dev n h,
  find_dev_try_again blkid_probe_all blkid_verify_devname fuel c ty v dev (S n) h =
  one_more (find_dev_try_again blkid_probe_all blkid_verify_devname fuel c ty v dev n h).
Proof.
  induction fuel as [|fuel IH]; intros dev n h; [done|].
  cbn [find_dev_try_again]. unfold bind.
  destruct (search_pass _ _ _ _ _ _) as [r h1| |]; [|done..].
  destruct (get_cache c h1) as [cc h2| |]; [|done..].
  destruct (_ && _); [|done].
  apply IH.
Qed.

(** X13: a search that selects nothing in a probed cache returns null
    without a probe, provided the verifier returns null for what it is
    handed, which is the entry value of the local [dev]. *)
Theorem find_dev_no_match fuel dev_entry c ty v h h1 :
  no_match h c ty v ->
  blkid_verify_devname c dev_entry h = (None, h1) ->
  probed h1 c -> (0 < fuel)%nat ->
  blkid_find_dev_with_tag blkid_probe_all blkid_verify_devname
    fuel dev_entry (Some c) (Some ty) (Some v) h = Done (None, 0%nat) h1.
Proof.
  intros Hno Hver (cc1 & Hcc1 & Hfl) Hfuel. destruct fuel as [|fuel]; [lia|].
  unfold blkid_find_dev_with_tag. cbn [find_dev_try_again].
  destruct (search_pass_nothing c ty v dev_entry h Hno) as [hd Hpass].
  rewrite Hver in Hpass. rewrite (bind_done _ _ _ _ _ Hpass).
  rewrite (bind_done _ _ _ _ _ (get_cache_done _ _ _ Hcc1)).
  rewrite Hfl. by rewrite andb_false_r.
Qed.

(** X14: when the search selects nothing and the cache is not probed yet,
    the call probes all devices once and then is the call on the probed
    memory, with [dev] null on entry. *)
Theorem find_dev_probe_then_search fuel dev_entry c ty v h h1 cc1 :
  no_match h c ty v ->
  blkid_verify_devname c dev_entry h = (None, h1) ->
  caches h1 !! c = Some cc1 -> flag_set (bic_flags cc1) BLKID_BIC_FL_PROBED = false ->
  blkid_find_dev_with_tag blkid_probe_all blkid_verify_devname
    (S fuel) dev_entry (Some c) (Some ty) (Some v) h =
  one_more (blkid_find_dev_with_tag blkid_probe_all blkid_verify_devname
              fuel None (Some c) (Some ty) (Some v) (blkid_probe_all c h1)).
Proof.
  intros Hno Hver Hcc1 Hfl.
  unfold blkid_find_dev_with_tag. cbn [find_dev_try_again].
  destruct (search_pass_nothing c ty v dev_entry h Hno) as [hd Hpass].
  rewrite Hver in Hpass. rewrite (bind_done _ _ _ _ _ Hpass).
  rewrite (bind_done _ _ _ _ _ (get_cache_done _ _ _ Hcc1)).
  rewrite Hfl. cbn [snd]. rewrite (bool_decide_false (is_Some (@None nat))) by (by intros [? ?]).
  rewrite orb_true_r. cbn [negb andb]. unfold bind at 1.
  apply try_again_count.
Qed.

(** X15: when the search selects nothing and the verifier returns a
    device all the same, the call goes on to compare the value of
    [found], which is null. *)
Theorem find_dev_reads_null_found fuel dev_entry c ty v h d h1 :
  no_match h c ty v ->
  blkid_verify_devname c dev_entry h = (Some d, h1) ->
  (0 < fuel)%nat ->
  blkid_find_dev_with_tag blkid_probe_all blkid_verify_devname
    fuel dev_entry (Some c) (Some ty) (Some v) h = Trap.
Proof.
  intros Hno Hver Hfuel. destruct fuel as [|fuel]; [lia|].
  unfold blkid_find_dev_with_tag. cbn [find_dev_try_again].
  destruct (search_pass_nothing c ty v dev_entry h Hno) as [hd Hpass].
  rewrite Hver in Hpass. unfold bind at 1. by rewrite Hpass.
Qed.

End FindDevMore.

Lemma find_dev_result_sound_witness :
  exists c ty v h0 head htg t d0,
    Some 2%nat = Some c /\ Some "UUID" = Some ty /\ Some "abc" = Some v /\
    blkid_find_head_cache (Some c) (Some ty) h0 = Done (Some head) h0 /\
    tags h0 !! head = Some htg /\ t ∈ bit_names htg /\
    value_of h0 t = Some v /\ dev_of h0 t = Some d0 /\
    verify_confirms c (Some d0) h0 = (Some 1%nat, two_uuids) /\
    value_of two_uuids t = Some v /\
    (0%nat = 0%nat -> h0 = two_uuids).
Proof.
  apply (find_dev_result_sound probe_nothing verify_confirms 1 None
           (Some 2%nat) (Some "UUID") (Some "abc") two_uuids 1 0 two_uuids).
  reflexivity.
Defined.

Lemma two_uuids_no_xyz : no_match two_uuids 2 "UUID" "xyz".
Proof.
  exists (mk_cache [12%nat] BLKID_BIC_FL_PROBED). split; [reflexivity|]. right.
  exists 12%nat, (mk_tag [10%nat; 11%nat] (Some "UUID") None None).
  split_and!; [reflexivity|reflexivity| |].
  - intros p Hp. exists "abc".
    apply elem_of_cons in Hp as [->|Hp]; [split; [reflexivity|discriminate]|].
    apply list_elem_of_singleton in Hp as ->. split; [reflexivity|discriminate].
  - intros p q Hp Hv.
    apply elem_of_cons in Hp as [->|Hp]; [discriminate|].
    apply list_elem_of_singleton in Hp as ->. discriminate.
Qed.

Lemma find_dev_no_match_witness :
  blkid_find_dev_with_tag probe_nothing verify_confirms
    1 None (Some 2%nat) (Some "UUID") (Some "xyz") two_uuids = Done (None, 0%nat) two_uuids.
Proof.
  apply (find_dev_no_match probe_nothing verify_confirms 1 None 2 "UUID" "xyz"
           two_uuids two_uuids).
  - apply two_uuids_no_xyz.
  - reflexivity.
  - eexists. split; reflexivity.
  - lia.
Defined.

Lemma find_dev_probe_then_search_witness :
  blkid_find_dev_with_tag probe_nothing verify_confirms
    2 None (Some 2%nat) (Some "LABEL") (Some "root") fresh_index =
  one_more (blkid_find_dev_with_tag probe_nothing verify_confirms
              1 None (Some 2%nat) (Some "LABEL") (Some "root") (probe_nothing 2 fresh_index)).
Proof.
  apply (find_dev_probe_then_search probe_nothing verify_confirms 1 None 2 "LABEL" "root"
           fresh_index fresh_index (mk_cache [] 0)).
  - exists (mk_cache [] 0). split; [reflexivity|]. left. apply none_named_nil.
  - reflexivity.
  - reflexivity.
  - reflexivity.
Defined.

Lemma find_dev_reads_null_found_witness :
  blkid_find_dev_with_tag probe_nothing verify_confirms
    1 (Some 0%nat) (Some 2%nat) (Some "UUID") (Some "xyz") two_uuids = Trap.
Proof.
  apply (find_dev_reads_null_found probe_nothing verify_confirms 1 (Some 0%nat) 2 "UUID" "xyz"
           two_uuids 0 two_uuids).
  - apply two_uuids_no_xyz.
  - reflexivity.
  - lia.
Defined.

Section SetThenSearch.
Variable blkid_probe_all : nat -> heap -> heap.
Variable blkid_verify_devname : nat -> option nat -> heap -> option nat * heap.

(** X16: a tag set on a device is found through the cache: after
    [blkid_set_tag] has given a device of priority above -1 the first
    tag of a type in its cache, [blkid_find_dev_with_tag] for that type
    and value returns the device, without a probe, when the verifier
    confirms it. *)
Theorem set_tag_then_find_dev fuel fuel' dev_entry d dv c cc name value vlength replace h :
  devs h !! d = Some dv -> oracle h = [] -> fresh h ->
  bid_cache dv = Some c -> caches h !! c = Some cc ->
  none_named h name (bid_tags dv) -> none_named h name (bic_tags cc) ->
  -1 < bid_pri dv ->
  (forall hh, blkid_verify_devname c (Some d) hh = (Some d, hh)) ->
  exists h',
    blkid_set_tag (S fuel) (Some d) (Some name) (Some value) vlength replace h = Done OK h' /\
    blkid_find_dev_with_tag blkid_probe_all blkid_verify_devname (S fuel') dev_entry
      (Some c) (Some name) (Some (strn value vlength)) h' = Done (Some d, 0%nat) h'.
Proof.
  intros Hd Ho Hf Hbc Hcc Hnone Hhn Hpri Hver.
  unfold blkid_set_tag. rewrite set_tag_repeat_insert.
  rewrite (bind_done _ _ _ _ _ (find_tag_dev_done _ _ _ _ _ Hd (first_named_none _ _ _ Hnone))).
  step Ho. unfold add_tag. do 3 step Ho. rewrite insert_insert_eq.
  step_dev Hd. step Ho. rewrite Hbc.
  assert (Htb : forall p tg, tags h !! p = Some tg -> (p < brk h)%nat)
    by (intros p tg Hp; by eapply fresh_lt).
  match goal with |- context [bind (blkid_find_head_cache _ _) _ ?hh] => set (h2 := hh) end.
  rewrite (bind_done _ _ h2 None h2).
  2:{ unfold blkid_find_head_cache.
      rewrite (bind_done _ _ h2 cc h2) by (by apply get_cache_done).
      apply first_named_none. eapply none_named_keep; [|exact Hhn].
      intros p tg Hp. subst h2. cbn [tags]. rewrite lookup_insert_ne; [done|].
      apply Htb in Hp. lia. }
  subst h2. do 3 step Ho. rewrite insert_insert_eq.
  step_cache Hcc. step Ho. unfold chain_tag.
  match goal with |- context [bind _ _ ?hh] => set (h2 := hh) end.
  set (t := S (brk h)) in *. set (hd := S (S (S (brk h)))) in *.
  assert (Hhd : tags h2 !! hd = Some (mk_tag [] (Some name) None None)) by apply lookup_insert_eq.
  rewrite (bind_done _ _ h2 tt
    (mk_heap (devs h2) (<[hd := with_bit_names ([] ++ [t]) (mk_tag [] (Some name) None None)]> (tags h2))
             (caches h2) (strs h2) (brk h2) (oracle h2))).
  2:{ by rewrite (bind_done _ _ _ _ _ (get_tag_done _ _ _ Hhd)). }
  subst h2. heap_simpl. rewrite insert_insert_eq.
  match goal with |- context [link_tags d name _ ?hh] => set (hL := hh) end.
  destruct (link_tags_total d name (Some (brk h)) hL
              (with_bid_tags (bid_tags dv ++ [t]) dv)) as [h' Hrun].
  { apply lookup_insert_eq. }
  { intros c' Hc'. simpl in Hc'. rewrite Hbc in Hc'. injection Hc' as <-.
    subst hL. cbn [caches]. rewrite lookup_insert_eq. by eexists. }
  exists h'. split; [exact Hrun|].
  apply link_tags_inv in Hrun as (_ & dvL & dv' & HdL & Hd' & _ & Htags & Hstrs & _ & _ &
    _ & Hbc' & _ & Hpri' & _ & _ & _ & Hcache).
  assert (dvL = with_bid_tags (bid_tags dv ++ [t]) dv) as ->.
  { subst hL. cbn [devs] in HdL. rewrite lookup_insert_eq in HdL. by injection HdL. }
  simpl in Hbc', Hpri', Hcache. rewrite Hbc in Hcache.
  destruct Hcache as (ccL & HccL & Hcaches).
  assert (ccL = with_bic_tags (bic_tags cc ++ [hd]) cc) as ->.
  { subst hL. cbn [caches] in HccL. rewrite lookup_insert_eq in HccL. by injection HccL. }
  assert (Hcc' : exists cc', caches h' !! c = Some cc' /\ bic_tags cc' = bic_tags cc ++ [hd]).
  { eexists. rewrite Hcaches, lookup_insert_eq. done. }
  destruct Hcc' as (cc' & Hcc' & Hheads).
  assert (Ht : tags h' !! t = Some (mk_tag [] (Some name) (Some (brk h)) (Some d))).
  { rewrite Htags. subst hL. cbn [tags]. rewrite lookup_insert_ne by (subst t hd; lia).
    apply lookup_insert_eq. }
  assert (Hh : tags h' !! hd = Some (mk_tag [t] (Some name) None None)).
  { rewrite Htags. subst hL. cbn [tags]. apply lookup_insert_eq. }
  assert (Hs : strs h' !! brk h = Some (strn value vlength)).
  { rewrite Hstrs. subst hL. cbn [strs]. apply lookup_insert_eq. }
  assert (Hfind : blkid_find_head_cache (Some c) (Some name) h' = Done (Some hd) h').
  { unfold blkid_find_head_cache. rewrite (bind_done _ _ _ _ _ (get_cache_done _ _ _ Hcc')).
    rewrite Hheads. apply first_named_some.
    - eapply none_named_keep; [|exact Hhn]. intros p tg Hp. rewrite Htags. subst hL. cbn [tags].
      apply Htb in Hp as Hlt. rewrite !lookup_insert_ne by (subst t hd; lia). done.
    - apply name_of_Some. eauto. }
  unfold blkid_find_dev_with_tag. cbn [find_dev_try_again].
  rewrite (bind_done _ _ h' (Some hd, Some d) h').
  - rewrite (bind_done _ _ _ _ _ (get_cache_done _ _ _ Hcc')). done.
  - unfold search_pass. rewrite (bind_done _ _ _ _ _ Hfind).
    rewrite (bind_done _ _ h' (Some t, Some d, bid_pri dv') h').
    2:{ rewrite (bind_done _ _ _ _ _ (get_tag_done _ _ _ Hh)). cbn [bit_names walk_bucket].
        rewrite (bind_done _ _ _ _ _ (get_tag_done _ _ _ Ht)). cbn [bit_val bit_dev].
        unfold bind at 1, deref at 1.
        rewrite (bind_done _ _ _ _ _ (get_str_done _ _ _ Hs)).
        rewrite bool_decide_true by done.
        unfold bind at 1, deref at 1.
        rewrite (bind_done _ _ _ _ _ (get_dev_done _ _ _ Hd')). cbn [snd].
        assert ((bid_pri dv' >? -1) = true) as -> by (apply Z.gtb_lt; lia). done. }
    unfold bind at 1. cbn [fst snd]. rewrite Hver.
    rewrite (bind_done _ _ h' (Some d) h'); [done|].
    unfold bind at 1, deref at 1.
    rewrite (bind_done _ _ _ _ _ (get_tag_done _ _ _ Ht)). cbn [bit_val].
    unfold bind at 1, deref at 1.
    rewrite (bind_done _ _ _ _ _ (get_str_done _ _ _ Hs)).
    by rewrite bool_decide_true.
Qed.

End SetThenSearch.

Lemma set_tag_then_find_dev_witness :
  exists h',
    blkid_set_tag 1 (Some 0%nat) (Some "TYPE") (Some "ext4") 4 false sda1 = Done OK h' /\
    blkid_find_dev_with_tag probe_nothing verify_confirms 1 None
      (Some 1%nat) (Some "TYPE") (Some (strn "ext4" 4)) h' = Done (Some 0%nat, 0%nat) h'.
Proof.
  apply (set_tag_then_find_dev probe_nothing verify_confirms 0 0 None 0
           (mk_dev [] (Some 1%nat) None None None 0 0) 1 (mk_cache [] 0)
           "TYPE" "ext4" 4 false sda1).
  - reflexivity.
  - reflexivity.
  - apply fresh_check; vm_compute; reflexivity.
  - reflexivity.
  - reflexivity.
  - apply none_named_nil.
  - apply none_named_nil.
  - simpl. lia.
  - reflexivity.
Defined.

(** ** The lists hold no freed tag *)

Lemma grows_refl h : sound h -> grows h h.
Proof. by split. Qed.

Lemma grows_sound h h' : grows h h' -> sound h'.
Proof. by intros [? _]. Qed.

Lemma sound_malloc h p h' :
  sound h -> malloc h = Done p h' ->
  sound h' /\ devs h' = devs h /\ tags h' = tags h /\ caches h' = caches h /\
  strs h' = strs h /\ forall a, p = Some a -> (a < brk h')%nat.
Proof.
  intros [Hf Hl] H. unfold malloc in H.
  assert (Hup : forall b o, (brk h <= b)%nat ->
            sound (mk_heap (devs h) (tags h) (caches h) (strs h) b o)).
  { intros b o Hb. split; [|done]. intros k Hk. apply Hf. simpl in Hk. lia. }
  destruct (oracle h) as [|[] o]; injection H as <- <-; simpl;
    (split_and!; [apply Hup; lia|done..|intros a [= <-]; lia || done]).
Qed.

Lemma sound_insert_tag h t tg :
  sound h -> is_Some (tags h !! t) ->
  (forall x, x ∈ bit_names tg -> is_Some (tags h !! x)) ->
  grows h (mk_heap (devs h) (<[t := tg]> (tags h)) (caches h) (strs h) (brk h) (oracle h)).
Proof.
  intros [Hf (L1 & L2 & L3)] [tg0 Ht] Hnew.
  assert (Hk : forall x, is_Some (tags h !! x) -> is_Some (<[t := tg]> (tags h) !! x)).
  { intros x Hx. apply lookup_insert_is_Some. destruct (decide (t = x)); eauto. }
  split; [|done]. split.
  - intros k Hk'. simpl in *. split; [|by apply Hf].
    rewrite lookup_insert_ne; [by apply Hf|].
    intros <-. pose proof (fresh_lt _ _ _ Hf Ht). lia.
  - split_and!; simpl.
    + intros d dv Hd x Hx. apply Hk. eauto.
    + intros c cc Hc x Hx. apply Hk. eauto.
    + intros x tx Hx y Hy. apply Hk.
      apply lookup_insert_Some in Hx as [[_ <-]|[_ Hx]]; eauto.
Qed.

Lemma sound_insert_dev h d dv :
  sound h -> (forall t, t ∈ bid_tags dv -> is_Some (tags h !! t)) ->
  grows h (mk_heap (<[d := dv]> (devs h)) (tags h) (caches h) (strs h) (brk h) (oracle h)).
Proof.
  intros [Hf (L1 & L2 & L3)] Hnew. split; [|done]. split; [done|].
  split_and!; simpl; [|done..].
  intros d' dv' Hd'. apply lookup_insert_Some in Hd' as [[_ <-]|[_ Hd']]; eauto.
Qed.

Lemma sound_insert_cache h c cc :
  sound h -> (forall t, t ∈ bic_tags cc -> is_Some (tags h !! t)) ->
  grows h (mk_heap (devs h) (tags h) (<[c := cc]> (caches h)) (strs h) (brk h) (oracle h)).
Proof.
  intros [Hf (L1 & L2 & L3)] Hnew. split; [|done]. split; [done|].
  split_and!; simpl; [done| |done].
  intros c' cc' Hc'. apply lookup_insert_Some in Hc' as [[_ <-]|[_ Hc']]; eauto.
Qed.

Lemma sound_delete_str h a :
  sound h ->
  grows h (mk_heap (devs h) (tags h) (caches h) (delete a (strs h)) (brk h) (oracle h)).
Proof.
  intros [Hf Hl]. split; [|done]. split; [|done].
  intros k Hk. simpl in *. split; [by apply Hf|].
  apply lookup_delete_None. right. by apply Hf.
Qed.

Lemma sound_strndup s n h val h' :
  sound h -> blkid_strndup s n h = Done val h' -> grows h h'.
Proof.
  intros Hs H. unfold blkid_strndup in H. destruct s as [s|].
  - inv_bind H as p h1 E.
    destruct (sound_malloc _ _ _ Hs E) as ([Hf1 Hl1] & E1 & E2 & E3 & E4 & Hp).
    destruct p as [a|].
    + unfold set_strs, bind, ret in H. injection H as _ <-.
      split; [|simpl; by rewrite E2]. split; [|done].
      intros k Hk. simpl in *. split; [by apply Hf1|].
      rewrite lookup_insert_ne; [by apply Hf1|]. specialize (Hp a eq_refl). lia.
    + injection H as _ <-. split; [done|]. by rewrite E2.
  - injection H as _ <-. by apply grows_refl.
Qed.

Lemma sound_strdup s h r h' :
  sound h -> blkid_strdup s h = Done r h' -> grows h h'.
Proof.
  intros Hs H. unfold blkid_strdup in H. destruct s as [s|].
  - inv_bind H as p h1 E.
    destruct (sound_malloc _ _ _ Hs E) as (Hs1 & _ & E2 & _).
    assert (h' = h1) as -> by (destruct p; by injection H).
    split; [done|]. by rewrite E2.
  - injection H as _ <-. by apply grows_refl.
Qed.

Lemma sound_new_tag h p h' :
  sound h -> blkid_new_tag h = Done p h' ->
  grows h h' /\ forall t, p = Some t -> is_Some (tags h' !! t).
Proof.
  intros Hs H. unfold blkid_new_tag in H. inv_bind H as q h1 E.
  destruct (sound_malloc _ _ _ Hs E) as ([Hf1 Hl1] & E1 & E2 & E3 & E4 & Hq).
  destruct q as [t|].
  - unfold set_tags, bind, ret in H. injection H as <- <-. split.
    + split; [|intros x Hx; simpl; apply lookup_insert_is_Some;
                rewrite E2; destruct (decide (t = x)); eauto].
      destruct Hl1 as (L1 & L2 & L3).
      assert (Hk : forall x, is_Some (tags h1 !! x) ->
                is_Some (<[t := mk_tag [] None None None]> (tags h1) !! x)).
      { intros x Hx. apply lookup_insert_is_Some. destruct (decide (t = x)); eauto. }
      split.
      * intros k Hk'. simpl in *. split; [|by apply Hf1].
        rewrite lookup_insert_ne; [by apply Hf1|]. specialize (Hq t eq_refl). lia.
      * split_and!; simpl.
        -- intros d dv Hd x Hx. apply Hk. eauto.
        -- intros c cc Hc x Hx. apply Hk. eauto.
        -- intros x tx Hx y Hy. apply Hk.
           apply lookup_insert_Some in Hx as [[_ <-]|[_ Hx]]; [by apply elem_of_nil in Hy|eauto].
    + intros t' [= <-]. simpl. rewrite lookup_insert_eq. by eexists.
  - injection H as <- <-. split; [|done]. split; [done|]. by rewrite E2.
Qed.

Lemma sound_free_tag h t h' :
  sound h -> blkid_free_tag (Some t) h = Done tt h' -> sound h'.
Proof.
  intros [Hf (L1 & L2 & L3)] H.
  destruct (tags h !! t) as [tg|] eqn:Ht.
  2:{ unfold blkid_free_tag, bind, get_tag, load in H. by rewrite Ht in H. }
  rewrite (free_tag_done _ _ _ Ht) in H. injection H as <-.
  assert (Hk : forall l x, (forall y, y ∈ l -> is_Some (tags h !! y)) -> x ∈ remove_id t l ->
    is_Some (delete t ((fun x => with_bit_names (remove_id t (bit_names x)) x) <$> tags h) !! x)).
  { intros l x Hl [Hx Hne]%remove_id_elem.
    rewrite lookup_delete_ne, lookup_fmap by done.
    destruct (Hl x Hx) as [tx ->]. by eexists. }
  split.
  - intros k Hk'. simpl in *. split.
    + apply lookup_delete_None. right. rewrite lookup_fmap.
      destruct (Hf k Hk') as [-> _]. done.
    + destruct (bit_val tg); [apply lookup_delete_None; right|]; by apply Hf.
  - split_and!; simpl.
    + intros d dv Hd x Hx. rewrite lookup_fmap in Hd.
      destruct (devs h !! d) as [dv0|] eqn:Hd0; simpl in Hd; [|done]. injection Hd as <-.
      simpl in Hx. eapply Hk; [|exact Hx]. eauto.
    + intros c cc Hc x Hx. rewrite lookup_fmap in Hc.
      destruct (caches h !! c) as [cc0|] eqn:Hc0; simpl in Hc; [|done]. injection Hc as <-.
      simpl in Hx. eapply Hk; [|exact Hx]. eauto.
    + intros y ty Hy x Hx.
      apply lookup_delete_Some in Hy as [Hne Hy]. rewrite lookup_fmap in Hy.
      destruct (tags h !! y) as [ty0|] eqn:Hy0; simpl in Hy; [|done]. injection Hy as <-.
      simpl in Hx. eapply Hk; [|exact Hx]. eauto.
Qed.

Lemma sound_errout t val head h r h' :
  sound h -> errout t val head h = Done r h' -> sound h'.
Proof.
  intros Hs H. unfold errout in H.
  inv_bind H as u1 h1 E1. inv_bind H as u2 h2 E2. injection H as _ <-.
  assert (Hs1 : sound h1).
  { destruct t as [t|].
    - destruct u1. by apply (sound_free_tag _ _ _ Hs E1).
    - destruct val as [a|]; [|by injection E1 as _ <-].
      unfold free_str, set_strs in E1. injection E1 as _ <-.
      eapply grows_sound. by apply sound_delete_str. }
  destruct head as [hd|]; [|by injection E2 as _ <-].
  destruct u2. by apply (sound_free_tag _ _ _ Hs1 E2).
Qed.

Lemma sound_link_tags d name val h r h' :
  sound h -> link_tags d name val h = Done r h' -> grows h h'.
Proof.
  intros [Hf (L1 & L2 & L3)] H.
  apply link_tags_inv in H as (_ & dv & dv' & Hd & Hd' & Hother & Htags & Hstrs & Hbrk & _ &
    Hbt & Hbc & _ & _ & _ & _ & _ & Hcache).
  split; [|intros x; by rewrite Htags]. split.
  - intros k Hk. rewrite Htags, Hstrs. apply Hf. lia.
  - split_and!.
    + intros d1 dv1 Hd1 x Hx. rewrite Htags.
      destruct (decide (d1 = d)) as [->|Hne].
      * rewrite Hd' in Hd1. injection Hd1 as <-. rewrite Hbt in Hx. eauto.
      * rewrite Hother in Hd1 by done. eauto.
    + intros c cc Hc x Hx. rewrite Htags.
      destruct (bid_cache dv) as [c0|].
      * destruct Hcache as (cc0 & Hcc0 & Hcs). rewrite Hcs in Hc.
        apply lookup_insert_Some in Hc as [[_ <-]|[_ Hc]]; eauto.
      * rewrite Hcache in Hc. eauto.
    + intros x tx. rewrite Htags. eauto.
Qed.

Lemma find_head_cache_pure c ty h r h' :
  blkid_find_head_cache c ty h = Done r h' -> h' = h.
Proof.
  unfold blkid_find_head_cache. destruct c as [c|], ty as [ty|]; try (by intros [= _ <-]).
  intros H. inv_bind H as cc h1 E. apply get_cache_inv in E as [_ ->].
  by apply first_named_inv in H as [-> _].
Qed.

Lemma find_tag_dev_pure d ty h r h' :
  blkid_find_tag_dev d ty h = Done r h' -> h' = h.
Proof.
  unfold blkid_find_tag_dev. destruct d as [d|], ty as [ty|]; try (by intros [= _ <-]).
  intros H. inv_bind H as dv h1 E. apply get_dev_inv in E as [_ ->].
  by apply first_named_inv in H as [-> _].
Qed.

Lemma sound_chain_tag t hd h u h' :
  sound h -> is_Some (tags h !! t) -> chain_tag t hd h = Done u h' -> grows h h'.
Proof.
  intros Hs Ht H. unfold chain_tag in H.
  inv_bind H as htg h1 E. apply get_tag_inv in E as [Hhtg ->].
  unfold set_tags in H. injection H as _ <-.
  apply sound_insert_tag; [done|by eexists|].
  intros x Hx. simpl in Hx. apply elem_of_app in Hx as [Hx|Hx%list_elem_of_singleton].
  - destruct Hs as [_ (_ & _ & L3)]. eauto.
  - by subst x.
Qed.

Lemma sound_add_tag d name v h r h' :
  sound h -> add_tag d name v h = Done r h' -> sound h'.
Proof.
  intros Hs H. unfold add_tag in H.
  inv_bind H as t h1 E. apply (sound_new_tag _ _ _ Hs) in E as [[Hs1 _] Ht].
  destruct t as [t|]; [|eapply sound_errout; [|exact H]; done].
  specialize (Ht t eq_refl).
  inv_bind H as nm h2 E. apply (sound_strdup _ _ _ _ Hs1) in E as [Hs2 Hk2].
  apply Hk2 in Ht.
  inv_bind H as u h3 E. unfold set_tags in E. injection E as _ <-.
  destruct (sound_insert_tag h2 t (mk_tag [] nm (Some v) (Some d)) Hs2 Ht) as [Hs3 Hk3].
  { intros x Hx. by apply elem_of_nil in Hx. }
  apply Hk3 in Ht.
  inv_bind H as dv h4 E. apply get_dev_inv in E as [Hd ->].
  inv_bind H as u' h5 E. unfold set_devs in E. injection E as _ <-.
  destruct (sound_insert_dev _ d (with_bid_tags (bid_tags dv ++ [t]) dv) Hs3) as [Hs5 Hk5].
  { intros x Hx. simpl in Hx. apply elem_of_app in Hx as [Hx|Hx%list_elem_of_singleton].
    - destruct Hs3 as [_ (L1 & _ & _)]. eauto.
    - by subst x. }
  apply Hk5 in Ht.
  destruct (bid_cache dv) as [c|]; [|eapply grows_sound, sound_link_tags; [|exact H]; done].
  inv_bind H as head h6 E. apply find_head_cache_pure in E as ->.
  destruct head as [hd|].
  - inv_bind H as u6 h7 E. apply (sound_chain_tag _ _ _ _ _ Hs5 Ht) in E as [Hs7 _].
    eapply grows_sound, sound_link_tags; [|exact H]; done.
  - inv_bind H as head h7 E. apply (sound_new_tag _ _ _ Hs5) in E as [[Hs7 Hk7] Hhd].
    destruct head as [hd|]; [|eapply sound_errout; [|exact H]; done].
    specialize (Hhd hd eq_refl). apply Hk7 in Ht.
    inv_bind H as hn h8 E. apply (sound_strdup _ _ _ _ Hs7) in E as [Hs8 Hk8].
    apply Hk8 in Ht. apply Hk8 in Hhd.
    inv_bind H as u8 h9 E. unfold set_tags in E. injection E as _ <-.
    destruct (sound_insert_tag h8 hd (mk_tag [] hn None None) Hs8 Hhd) as [Hs9 Hk9].
    { intros x Hx. by apply elem_of_nil in Hx. }
    apply Hk9 in Ht. apply Hk9 in Hhd.
    destruct hn as [hn|]; [|eapply sound_errout; [|exact H]; done].
    inv_bind H as cc h10 E. apply get_cache_inv in E as [Hcc ->].
    inv_bind H as u10 h11 E. unfold set_caches in E. injection E as _ <-.
    destruct (sound_insert_cache _ c (with_bic_tags (bic_tags cc ++ [hd]) cc) Hs9)
      as [Hs11 Hk11].
    { intros x Hx. simpl in Hx. apply elem_of_app in Hx as [Hx|Hx%list_elem_of_singleton].
      - destruct Hs9 as [_ (_ & L2 & _)]. eauto.
      - by subst x. }
    apply Hk11 in Ht.
    inv_bind H as u11 h12 E. apply (sound_chain_tag _ _ _ _ _ Hs11 Ht) in E as [Hs12 _].
    eapply grows_sound, sound_link_tags; [|exact H]; done.
Qed.

Lemma sound_set_tag_repeat d name value vlength replace : forall fuel h r h',
  sound h -> set_tag_repeat fuel d name value vlength replace h = Done r h' -> sound h'.
Proof.
  induction fuel as [|fuel IH]; intros h r h' Hs H; [done|].
  cbn [set_tag_repeat] in H.
  inv_bind H as t h1 E. apply find_tag_dev_pure in E as ->.
  inv_bind H as val h2 E. apply (sound_strndup _ _ _ _ _ Hs) in E as [Hs2 Hk2].
  destruct value as [s|].
  - destruct val as [v|]; [|eapply sound_errout; [|exact H]; done].
    destruct t as [t0|]; [|eapply sound_add_tag; [|exact H]; done].
    inv_bind H as tg h3 E. apply get_tag_inv in E as [Htg ->].
    inv_bind H as tv h3 E. apply deref_inv in E as [Htv ->].
    inv_bind H as same h3 E.
    assert (h3 = h2) as ->.
    { unfold streq_at in E. inv_bind E as x h4 E1. apply get_str_inv in E1 as [_ ->].
      inv_bind E as y h4 E1. apply get_str_inv in E1 as [_ ->]. by injection E as _ <-. }
    destruct same.
    + inv_bind H as u h4 E1. unfold free_str, set_strs in E1. injection E1 as _ <-.
      injection H as _ <-. eapply grows_sound. by apply sound_delete_str.
    + destruct replace.
      * inv_bind H as u h4 E1. unfold free_str, set_strs in E1. injection E1 as _ <-.
        inv_bind H as u' h5 E1. unfold set_tags in E1. injection E1 as _ <-.
        eapply grows_sound, sound_link_tags; [|exact H].
        destruct (sound_delete_str h2 tv Hs2) as [Hs4 _].
        eapply grows_sound, (sound_insert_tag _ t0 (with_bit_val (Some v) tg) Hs4).
        -- simpl. by eexists.
        -- intros x Hx. simpl in *. destruct Hs2 as [_ (_ & _ & L3)]. eauto.
      * inv_bind H as dv h4 E1. apply get_dev_inv in E1 as [Hd ->].
        inv_bind H as u h5 E1. unfold set_devs in E1. injection E1 as _ <-.
        eapply sound_add_tag; [|exact H].
        eapply grows_sound, (sound_insert_dev _ d _ Hs2).
        intros x Hx. simpl in Hx. destruct Hs2 as [_ (L1 & _ & _)]. eauto.
  - destruct t as [t0|]; [|eapply grows_sound, sound_link_tags; [|exact H]; done].
    inv_bind H as u h3 E. destruct u. apply (sound_free_tag _ _ _ Hs2) in E.
    by eapply IH.
Qed.

(** X17: [blkid_set_tag] keeps the lists free of dangling entries on every
    path, whatever its arguments and whichever allocations fail: when
    the tag list of every device, the head list of every cache and
    every bucket hold existing tags only before the call, they do
    after it. *)
Theorem set_tag_keeps_lists_sound fuel dev name value vlength replace h r h' :
  sound h ->
  blkid_set_tag fuel dev name value vlength replace h = Done r h' ->
  sound h'.
Proof.
  intros Hs H. unfold blkid_set_tag in H.
  destruct dev as [d|]; [|by injection H as _ <-].
  destruct name as [n|]; [|by injection H as _ <-].
  by eapply sound_set_tag_repeat.
Qed.

Lemma sound_check h :
  bool_decide (map_Forall (fun k _ => (k < brk h)%nat) (tags h)) = true ->
  bool_decide (map_Forall (fun k _ => (k < brk h)%nat) (strs h)) = true ->
  bool_decide (map_Forall (fun _ dv => Forall (fun t => is_Some (tags h !! t)) (bid_tags dv)) (devs h)) = true ->
  bool_decide (map_Forall (fun _ cc => Forall (fun t => is_Some (tags h !! t)) (bic_tags cc)) (caches h)) = true ->
  bool_decide (map_Forall (fun _ tg => Forall (fun t => is_Some (tags h !! t)) (bit_names tg)) (tags h)) = true ->
  sound h.
Proof.
  intros H1 H2 Hd%bool_decide_eq_true Hc%bool_decide_eq_true Ht%bool_decide_eq_true.
  split; [by apply fresh_check|]. split_and!.
  - intros d dv Hdv x Hx. specialize (Hd d dv Hdv). simpl in Hd.
    rewrite Forall_forall in Hd. by apply Hd.
  - intros c cc Hcc x Hx. specialize (Hc c cc Hcc). simpl in Hc.
    rewrite Forall_forall in Hc. by apply Hc.
  - intros y tg Htg x Hx. specialize (Ht y tg Htg). simpl in Ht.
    rewrite Forall_forall in Ht. by apply Ht.
Qed.

Lemma set_tag_keeps_lists_sound_witness : sound sda1_two_types.
Proof.
  apply (set_tag_keeps_lists_sound 1 (Some 0%nat) (Some "TYPE") (Some "xfs") 3 false
           sda1_ext4 OK sda1_two_types).
  - apply sound_check; vm_compute; reflexivity.
  - vm_compute. reflexivity.
Defined.

(** ** The other devices *)

Lemma beside_refl d h : beside d h h.
Proof.
  split_and!; [done| |done]. intros dv Hd t Ht. left. eauto.
Qed.

Lemma beside_same d h0 h h' :
  beside d h0 h -> devs h' = devs h -> (brk h <= brk h')%nat -> beside d h0 h'.
Proof.
  intros (A & B & C) Hd Hb. split_and!.
  - intros d' Hne. rewrite Hd. by apply A.
  - intros dv. rewrite Hd. apply B.
  - lia.
Qed.

Lemma malloc_frame h p h' :
  malloc h = Done p h' ->
  devs h' = devs h /\ (brk h <= brk h')%nat /\ forall a, p = Some a -> (brk h <= a)%nat.
Proof.
  unfold malloc. destruct (oracle h) as [|[] o]; intros [= <- <-]; simpl;
    (split_and!; [done|lia|intros a [= <-]; lia || done]).
Qed.

Lemma strndup_frame s n h val h' :
  blkid_strndup s n h = Done val h' -> devs h' = devs h /\ (brk h <= brk h')%nat.
Proof.
  unfold blkid_strndup. destruct s as [s|]; [|by intros [= _ <-]].
  intros H. inv_bind H as p h1 E. apply malloc_frame in E as (E1 & E2 & _).
  destruct p as [a|]; [|by injection H as _ <-].
  unfold set_strs, bind, ret in H. by injection H as _ <-.
Qed.

Lemma strdup_frame s h r h' :
  blkid_strdup s h = Done r h' -> devs h' = devs h /\ (brk h <= brk h')%nat.
Proof.
  unfold blkid_strdup. destruct s as [s|]; [|by intros [= _ <-]].
  intros H. inv_bind H as p h1 E. apply malloc_frame in E as (E1 & E2 & _).
  by destruct p; injection H as _ <-.
Qed.

Lemma new_tag_frame h p h' :
  blkid_new_tag h = Done p h' ->
  devs h' = devs h /\ (brk h <= brk h')%nat /\ forall t, p = Some t -> (brk h <= t)%nat.
Proof.
  unfold blkid_new_tag. intros H. inv_bind H as q h1 E.
  apply malloc_frame in E as (E1 & E2 & E3).
  destruct q as [t|].
  - unfold set_tags, bind, ret in H. injection H as <- <-. simpl. eauto.
  - injection H as <- <-. split_and!; [done..|]. by intros t [=].
Qed.

Lemma beside_insert_dev d h0 h dv dv' :
  beside d h0 h -> devs h !! d = Some dv ->
  (forall t, t ∈ bid_tags dv' -> t ∈ bid_tags dv \/ (brk h0 <= t)%nat) ->
  beside d h0 (mk_heap (<[d := dv']> (devs h)) (tags h) (caches h) (strs h) (brk h) (oracle h)).
Proof.
  intros (A & B & C) Hd Hnew. split_and!; simpl.
  - intros d' Hne. rewrite lookup_insert_ne by done. by apply A.
  - intros dv1. rewrite lookup_insert_eq. intros [= <-] t Ht.
    destruct (Hnew t Ht) as [Hold|Hge]; [by eapply B|by right].
  - done.
Qed.

Section Beside.
Variables (d : nat) (h0 : heap).
Hypothesis closed0 : closed h0.
Hypothesis own0 : own_tags h0 d.

(** Freeing such a tag strips it from no other list. *)
Lemma beside_free h t h' :
  beside d h0 h -> mine d h0 t ->
  blkid_free_tag (Some t) h = Done tt h' -> beside d h0 h'.
Proof.
  intros (A & B & C) Hm H.
  destruct (tags h !! t) as [tg|] eqn:Ht.
  2:{ unfold blkid_free_tag, bind, get_tag, load in H. by rewrite Ht in H. }
  rewrite (free_tag_done _ _ _ Ht) in H. injection H as <-.
  split_and!; simpl.
  - intros d' Hne. rewrite lookup_fmap, A by done.
    destruct (devs h0 !! d') as [dv'|] eqn:Hd'; [|done]. simpl. f_equal.
    rewrite remove_id_id; [by destruct dv'|].
    destruct Hm as [(dv0 & Hd0 & Hin)|Hge].
    + by eapply own0.
    + destruct (closed0 t Hge) as (H1 & _). eauto.
  - intros dv. rewrite lookup_fmap.
    destruct (devs h !! d) as [dv1|] eqn:Hd1; [|done]. simpl. intros [= <-] x Hx.
    simpl in Hx. apply remove_id_elem in Hx as [Hx _]. by eapply B.
  - done.
Qed.

Lemma beside_errout t val head h r h' :
  beside d h0 h ->
  (forall x, t = Some x -> mine d h0 x) -> (forall x, head = Some x -> mine d h0 x) ->
  errout t val head h = Done r h' -> beside d h0 h'.
Proof.
  intros Hb Ht Hhd H. unfold errout in H.
  inv_bind H as u1 h1 E1. inv_bind H as u2 h2 E2. injection H as _ <-.
  assert (Hb1 : beside d h0 h1).
  { destruct t as [t|].
    - destruct u1. eapply beside_free; [exact Hb| |exact E1]. by apply Ht.
    - destruct val as [a|]; [|by injection E1 as _ <-].
      unfold free_str, set_strs in E1. injection E1 as _ <-.
      by eapply beside_same. }
  destruct head as [hd|]; [|by injection E2 as _ <-].
  destruct u2. eapply beside_free; [exact Hb1| |exact E2]. by apply Hhd.
Qed.

Lemma beside_link_tags name val h r h' :
  beside d h0 h -> link_tags d name val h = Done r h' -> beside d h0 h'.
Proof.
  intros (A & B & C) H.
  apply link_tags_inv in H as (_ & dv & dv' & Hd & Hd' & Hother & _ & _ & Hbrk & _ &
    Hbt & _).
  split_and!.
  - intros d' Hne. rewrite Hother by done. by apply A.
  - intros dv1. rewrite Hd'. intros [= <-] t Ht. rewrite Hbt in Ht. by eapply B.
  - lia.
Qed.

Lemma beside_add_tag name v h r h' :
  beside d h0 h -> add_tag d name v h = Done r h' -> beside d h0 h'.
Proof.
  intros Hb H. unfold add_tag in H.
  inv_bind H as t h1 E. apply new_tag_frame in E as (E1 & E2 & Ht).
  assert (Hb1 : beside d h0 h1) by (by eapply beside_same).
  destruct t as [t|].
  2:{ eapply beside_errout; [exact Hb1| | |exact H]; by intros x [=]. }
  specialize (Ht t eq_refl).
  assert (Hmt : mine d h0 t) by (right; destruct Hb as (_ & _ & C); lia).
  inv_bind H as nm h2 E. apply strdup_frame in E as (E3 & E4).
  assert (Hb2 : beside d h0 h2) by (by eapply beside_same).
  inv_bind H as u h3 E. unfold set_tags in E. injection E as _ <-.
  inv_bind H as dv h4 E. apply get_dev_inv in E as [Hd ->]. simpl in Hd.
  inv_bind H as u' h5 E. unfold set_devs in E. injection E as _ <-.
  assert (Hb5 : beside d h0
            (mk_heap (<[d := with_bid_tags (bid_tags dv ++ [t]) dv]> (devs h2))
               (<[t := mk_tag [] nm (Some v) (Some d)]> (tags h2)) (caches h2) (strs h2)
               (brk h2) (oracle h2))).
  { destruct Hb2 as (A & B & C). split_and!; simpl.
    - intros d' Hne. rewrite lookup_insert_ne by done. by apply A.
    - intros dv1. rewrite lookup_insert_eq. intros [= <-] x Hx. simpl in Hx.
      apply elem_of_app in Hx as [Hx|Hx%list_elem_of_singleton]; [by eapply B|by subst x].
    - done. }
  destruct (bid_cache dv) as [c|]; [|by eapply beside_link_tags].
  inv_bind H as head h6 E. apply find_head_cache_pure in E as ->.
  destruct head as [hd|].
  - inv_bind H as u6 h7 E. unfold chain_tag in E.
    inv_bind E as htg h8 E'. apply get_tag_inv in E' as [_ ->].
    unfold set_tags in E. injection E as _ <-.
    eapply beside_link_tags; [|exact H]. by eapply beside_same.
  - inv_bind H as head h7 E. apply new_tag_frame in E as (E5 & E6 & Hhd).
    assert (Hb7 : beside d h0 h7) by (by eapply beside_same).
    destruct head as [hd|].
    2:{ eapply beside_errout; [exact Hb7| | |exact H]; [by intros x [= <-]|by intros x [=]]. }
    specialize (Hhd hd eq_refl). simpl in Hhd.
    assert (Hmh : mine d h0 hd) by (right; destruct Hb2 as (_ & _ & C); lia).
    inv_bind H as hn h8 E. apply strdup_frame in E as (E7 & E8).
    assert (Hb8 : beside d h0 h8) by (by eapply beside_same).
    inv_bind H as u8 h9 E. unfold set_tags in E. injection E as _ <-.
    destruct hn as [hn|].
    2:{ eapply beside_errout; [| | |exact H];
          [by eapply beside_same|by intros x [= <-]|by intros x [= <-]]. }
    inv_bind H as cc h10 E. apply get_cache_inv in E as [_ ->].
    inv_bind H as u10 h11 E. unfold set_caches in E. injection E as _ <-.
    inv_bind H as u11 h12 E. unfold chain_tag in E.
    inv_bind E as htg h13 E'. apply get_tag_inv in E' as [_ ->].
    unfold set_tags in E. injection E as _ <-.
    eapply beside_link_tags; [|exact H]. by eapply beside_same.
Qed.

Lemma beside_set_tag_repeat name value vlength replace : forall fuel h r h',
  beside d h0 h -> set_tag_repeat fuel d name value vlength replace h = Done r h' ->
  beside d h0 h'.
Proof.
  induction fuel as [|fuel IH]; intros h r h' Hb H; [done|].
  cbn [set_tag_repeat] in H.
  inv_bind H as t h1 E.
  assert (Ht : h1 = h /\ forall x, t = Some x -> mine d h0 x).
  { unfold blkid_find_tag_dev in E. inv_bind E as dv h2 E'.
    apply get_dev_inv in E' as [Hd ->].
    apply first_named_inv in E as [-> Hr]. split; [done|].
    intros x ->. destruct Hr as (l1 & l2 & Hl & _).
    destruct Hb as (_ & B & _). apply (B dv Hd). rewrite Hl.
    apply elem_of_app. right. by left. }
  destruct Ht as [-> Ht]. clear E.
  inv_bind H as val h2 E. apply strndup_frame in E as (E1 & E2).
  assert (Hb2 : beside d h0 h2) by (by eapply beside_same).
  destruct value as [s|].
  - destruct val as [v|].
    2:{ eapply beside_errout; [exact Hb2|exact Ht| |exact H]. by intros x [=]. }
    destruct t as [t0|]; [|by eapply beside_add_tag].
    inv_bind H as tg h3 E. apply get_tag_inv in E as [Htg ->].
    inv_bind H as tv h3 E. apply deref_inv in E as [Htv ->].
    inv_bind H as same h3 E.
    assert (h3 = h2) as ->.
    { unfold streq_at in E. inv_bind E as x h4 E'. apply get_str_inv in E' as [_ ->].
      inv_bind E as y h4 E'. apply get_str_inv in E' as [_ ->]. by injection E as _ <-. }
    destruct same.
    + inv_bind H as u h4 E'. unfold free_str, set_strs in E'. injection E' as _ <-.
      injection H as _ <-. by eapply beside_same.
    + destruct replace.
      * inv_bind H as u h4 E'. unfold free_str, set_strs in E'. injection E' as _ <-.
        inv_bind H as u' h5 E'. unfold set_tags in E'. injection E' as _ <-.
        eapply beside_link_tags; [|exact H]. by eapply beside_same.
      * inv_bind H as dv h4 E'. apply get_dev_inv in E' as [Hd ->].
        inv_bind H as u h5 E'. unfold set_devs in E'. injection E' as _ <-.
        eapply beside_add_tag; [|exact H].
        eapply beside_insert_dev; [exact Hb2|exact Hd|]. intros x Hx. by left.
  - destruct t as [t0|]; [|by eapply beside_link_tags].
    inv_bind H as u h3 E. destruct u.
    eapply IH; [|exact H]. eapply beside_free; [exact Hb2| |exact E]. by apply Ht.
Qed.

End Beside.

(** X18: [blkid_set_tag] on a device leaves every other device as it is,
    tag list, shortcuts, priority and flags, on every path and whichever
    allocations fail, when no tag of the device is on the list of
    another device and no list holds an address the allocator has yet
    to hand out. *)
Theorem set_tag_leaves_other_devices fuel d name value vlength replace h r h' :
  closed h -> own_tags h d ->
  blkid_set_tag fuel (Some d) name value vlength replace h = Done r h' ->
  forall d', d' <> d -> devs h' !! d' = devs h !! d'.
Proof.
  intros Hc Ho H. unfold blkid_set_tag in H.
  destruct name as [n|]; [|by injection H as _ <-].
  destruct (beside_set_tag_repeat d h Hc Ho n value vlength replace fuel h r h'
              (beside_refl d h) H) as (A & _).
  exact A.
Qed.

Lemma own_tags_check h d :
  bool_decide (map_Forall (fun d' dv' => d' = d \/
     Forall (fun t => t ∉ match devs h !! d with Some dv => bid_tags dv | None => [] end)
            (bid_tags dv')) (devs h)) = true ->
  own_tags h d.
Proof.
  intros Hall%bool_decide_eq_true dv d' dv' t Hd Hne Hd' Ht Ht'.
  destruct (Hall d' dv' Hd') as [?|Hf]; [done|].
  rewrite Hd, Forall_forall in Hf. by apply (Hf t Ht').
Qed.

Lemma set_tag_leaves_other_devices_witness :
  exists h',
    blkid_set_tag 1 (Some 0%nat) (Some "UUID") (Some "xyz") 3 true two_uuids = Done OK h' /\
    devs h' !! 1%nat = devs two_uuids !! 1%nat.
Proof.
  eexists. split; [vm_compute; reflexivity|].
  apply (set_tag_leaves_other_devices 1 0 (Some "UUID") (Some "xyz") 3 true two_uuids OK).
  - apply closed_check; vm_compute; reflexivity.
  - apply own_tags_check. vm_compute. reflexivity.
  - vm_compute. reflexivity.
  - discriminate.
Defined.
